(** * weather-platform: ingestion and aggregation pipeline

    A shallow embedding of the ingestion service, the value normaliser, the
    statistics service and the PostgreSQL repository of the weather platform,
    followed by the properties of its specification.

    Layout of the development:
    - the pieces of the Go standard library the code calls ([strings.Split],
      [strings.TrimSpace], [strconv.Atoi], [time.Parse], [path/filepath],
      binary64 arithmetic);
    - [internal/models]: the records and [ToObservation];
    - [internal/repository]: the [WeatherRepository] interface and the
      PostgreSQL implementation over an explicit store;
    - [internal/services]: [parseLine], [ingestFile], [IngestDirectory],
      [CalculateAllStatistics];
    - [cmd/ingester]: the report printed by [main];
    - [internal/handlers]: the two endpoints of the API and the queries of
      the repository behind them;
    - the theorems: the properties of the specification, then further
      properties of the code. *)

From Stdlib Require Import ZArith List Ascii String Bool Lia.
From Stdlib Require Import SpecFloat.
From stdpp Require Import base option list gmap strings pretty sorting.

Open Scope string_scope.
Open Scope list_scope.
Open Scope Z_scope.

(* ===================================================================== *)
(** * Go: machine integers and binary64                                   *)
(* ===================================================================== *)

(** [int] is 64 bits wide on the platforms the service is built for.
    Arithmetic on it wraps around. *)
Module GoInt.

Definition minInt : Z := - 2 ^ 63.
Definition maxInt : Z := 2 ^ 63 - 1.

(** The value of a mathematical integer once stored in an [int]. *)
Definition wrap (z : Z) : Z := (z + 2 ^ 63) mod 2 ^ 64 - 2 ^ 63.

Definition add (a b : Z) : Z := wrap (a + b).
Definition neg (a : Z) : Z := wrap (- a).

Definition inRange (z : Z) : Prop := minInt <= z <= maxInt.

End GoInt.

(** [float64]: IEEE 754 binary64, with the operations of the specification
    of floating-point arithmetic ([prec = 53], [emax = 1024]). *)
Module Float64.

Definition t : Type := spec_float.

Definition prec : Z := 53.
Definition emax : Z := 1024.

(** [float64(v)] for an [int] [v]: rounding to nearest, ties to even. *)
Definition ofInt (v : Z) : t := binary_normalize prec emax v 0 false.

Definition div (x y : t) : t := SFdiv prec emax x y.
Definition add (x y : t) : t := SFadd prec emax x y.

(** The decimal literals of the source, [10.0] and [100.0]. *)
Definition lit10 : t := ofInt 10.
Definition lit100 : t := ofInt 100.

(** [m * 2^e] as a binary64 value, for stating expected results. *)
Definition ofBinary (m e : Z) : t := binary_normalize prec emax m e false.

(** The exact rational value [(num, den)] of a finite float, [den > 0]. *)
Definition toRational (x : t) : option (Z * Z) :=
  match x with
  | S754_zero _ => Some (0, 1)
  | S754_finite s m e =>
      let sm := if s then Z.neg m else Z.pos m in
      if 0 <=? e then Some (sm * 2 ^ e, 1) else Some (sm, 2 ^ (- e))
  | _ => None
  end.

Definition signBit (x : t) : bool :=
  match x with
  | S754_zero s => s
  | S754_infinity s => s
  | S754_finite s _ _ => s
  | S754_nan => false
  end.

End Float64.

(* ===================================================================== *)
(** * Go: package strings                                                 *)
(* ===================================================================== *)

Module GoStrings.

(** A Go string is a sequence of bytes; [string] of 8-bit characters is
    the same data. *)
Definition bytes (s : string) : list N := map N_of_ascii (list_ascii_of_string s).
Definition ofBytes (l : list N) : string := string_of_list_ascii (map ascii_of_N l).

Definition tab : ascii := "009"%char.

(** [strings.Split(s, sep)] for a separator of one byte: the pieces
    between the occurrences of [sep], one more than there are
    occurrences. *)
Fixpoint Split (s : string) (sep : ascii) : list string :=
  match s with
  | EmptyString => [EmptyString]
  | String c s' =>
      if Ascii.eqb c sep then EmptyString :: Split s' sep
      else match Split s' sep with
           | p :: ps => String c p :: ps
           | [] => [String c EmptyString]
           end
  end.

(** [asciiSpace]: tab, line feed, vertical tab, form feed, carriage
    return, space. *)
Definition asciiSpace (c : N) : bool :=
  ((9 <=? c) && (c <=? 13) || (c =? 32))%N.

(** The third byte of the encodings [E2 80 xx] of the white-space
    code points U+2000..U+200A, U+2028, U+2029 and U+202F. *)
Definition generalPunctuationSpace (c : N) : bool :=
  ((128 <=? c) && (c <=? 138) || (c =? 168) || (c =? 169) || (c =? 175))%N.

(** Removes the white space [unicode.IsSpace] accepts from the front of
    a UTF-8 byte sequence: the ASCII ones, U+0085, U+00A0, U+1680,
    U+2000..U+200A, U+2028, U+2029, U+202F, U+205F and U+3000. A byte
    that does not start such an encoding stops the scan. *)
Fixpoint trimLeft (bs : list N) : list N :=
  match bs with
  | [] => []
  | c :: r1 =>
      if asciiSpace c then trimLeft r1
      else
        match r1 with
        | [] => bs
        | d :: r2 =>
            if ((c =? 194) && ((d =? 133) || (d =? 160)))%N then trimLeft r2
            else
              match r2 with
              | [] => bs
              | e :: r3 =>
                  if ((c =? 225) && (d =? 154) && (e =? 128)
                      || (c =? 226) && (d =? 128) && generalPunctuationSpace e
                      || (c =? 226) && (d =? 129) && (e =? 159)
                      || (c =? 227) && (d =? 128) && (e =? 128))%N
                  then trimLeft r3
                  else bs
              end
        end
  end.

(** The same from the back, on the reversed byte sequence: the last
    rune is the white space whose encoding the sequence ends with. *)
Fixpoint trimRightRev (bs : list N) : list N :=
  match bs with
  | [] => []
  | e :: r1 =>
      if asciiSpace e then trimRightRev r1
      else
        match r1 with
        | [] => bs
        | d :: r2 =>
            if ((d =? 194) && ((e =? 133) || (e =? 160)))%N then trimRightRev r2
            else
              match r2 with
              | [] => bs
              | c :: r3 =>
                  if ((c =? 225) && (d =? 154) && (e =? 128)
                      || (c =? 226) && (d =? 128) && generalPunctuationSpace e
                      || (c =? 226) && (d =? 129) && (e =? 159)
                      || (c =? 227) && (d =? 128) && (e =? 128))%N
                  then trimRightRev r3
                  else bs
              end
        end
  end.

(** [strings.TrimSpace]. *)
Definition TrimSpace (s : string) : string :=
  ofBytes (rev (trimRightRev (rev (trimLeft (bytes s))))).

(** [strings.TrimSuffix]. *)
Definition TrimSuffix (s suffix : string) : string :=
  let n := String.length s in
  let k := String.length suffix in
  if (k <=? n)%nat && String.eqb (substring (n - k) k s) suffix
  then substring 0 (n - k) s
  else s.

End GoStrings.

(* ===================================================================== *)
(** * Go: package strconv                                                 *)
(* ===================================================================== *)

Module GoStrconv.

Inductive numErr : Type := ErrSyntax | ErrRange.

(** [*strconv.NumError]. *)
Record NumError : Type := mkNumError {
  Func : string;
  Num : string;
  Err : numErr
}.

Definition syntaxError (fn str : string) : NumError := mkNumError fn str ErrSyntax.
Definition rangeError (fn str : string) : NumError := mkNumError fn str ErrRange.

Definition isDigit (c : N) : bool := ((48 <=? c) && (c <=? 57))%N.
Definition digitVal (c : N) : Z := Z.of_N c - 48.

Definition maxUint64 : Z := 2 ^ 64 - 1.

(** The digit loop of the fast path of [Atoi]: [n = n*10 + int(ch)];
    a byte that is not a digit is a syntax error. The fast path only
    runs on fewer than 19 bytes, where [n] cannot overflow. *)
Fixpoint fastLoop (bs : list N) (n : Z) : option Z :=
  match bs with
  | [] => Some n
  | ch :: rest =>
      if isDigit ch then fastLoop rest (GoInt.add (GoInt.wrap (n * 10)) (digitVal ch))
      else None
  end.

(** The digit loop of [ParseUint(s, 10, 64)] on a [uint64] accumulator. *)
Fixpoint parseUintLoop (bs : list N) (n : Z) : Z + numErr :=
  match bs with
  | [] => inl n
  | c :: rest =>
      if isDigit c then
        let cutoff := maxUint64 / 10 + 1 in
        if cutoff <=? n then inr ErrRange
        else
          let n := (n * 10) mod 2 ^ 64 in
          let n1 := (n + digitVal c) mod 2 ^ 64 in
          if (n1 <? n) || (maxUint64 <? n1) then inr ErrRange
          else parseUintLoop rest n1
      else inr ErrSyntax
  end.

Definition ParseUint (bs : list N) : Z + numErr :=
  match bs with
  | [] => inr ErrSyntax
  | _ => parseUintLoop bs 0
  end.

(** [ParseInt(s, 10, 0)]: sign, magnitude, then the range of [int]. *)
Definition ParseInt (bs : list N) : Z + numErr :=
  match bs with
  | [] => inr ErrSyntax
  | c :: rest =>
      let neg := (c =? 45)%N in
      let digits := if ((c =? 43) || (c =? 45))%N then rest else bs in
      match ParseUint digits with
      | inr ErrSyntax => inr ErrSyntax
      | inr ErrRange => inr ErrRange
      | inl un =>
          let cutoff := 2 ^ 63 in
          if negb neg && (cutoff <=? un) then inr ErrRange
          else if neg && (cutoff <? un) then inr ErrRange
          else inl (GoInt.wrap (if neg then - GoInt.wrap un else GoInt.wrap un))
      end
  end.

(** [strconv.Atoi]. *)
Definition Atoi (s : string) : Z + NumError :=
  let bs := GoStrings.bytes s in
  let sLen := length bs in
  if (0 <? sLen)%nat && (sLen <? 19)%nat then
    match bs with
    | [] => inr (syntaxError "Atoi" s)
    | c :: rest =>
        let digits := if ((c =? 45) || (c =? 43))%N then rest else bs in
        match digits with
        | [] => inr (syntaxError "Atoi" s)
        | _ =>
            match fastLoop digits 0 with
            | None => inr (syntaxError "Atoi" s)
            | Some n => inl (if (c =? 45)%N then GoInt.neg n else n)
            end
        end
    end
  else
    match ParseInt bs with
    | inl n => inl n
    | inr e => inr (mkNumError "Atoi" s e)
    end.

End GoStrconv.

(* ===================================================================== *)
(** * Go: package time                                                    *)
(* ===================================================================== *)

Module GoTime.

(** A calendar date at midnight UTC, the only kind of [time.Time] that
    [Parse] with a date-only layout returns. *)
Record Date : Type := mkDate { year : Z; month : Z; day : Z }.

(** A wall-clock reading ([time.Now]), in nanoseconds since the epoch. *)
Definition Instant : Type := Z.

(** The chunks [nextStdChunk] cuts the layout ["20060102"] into. *)
Inductive std : Type := stdLongYear | stdZeroMonth | stdZeroDay.

Definition layout20060102 : list std := [stdLongYear; stdZeroMonth; stdZeroDay].

Definition isDigit (bs : list N) (i : nat) : bool :=
  match nth_error bs i with
  | Some c => ((48 <=? c) && (c <=? 57))%N
  | None => false
  end.

(** [leadingInt]: the digits a byte sequence starts with, and the rest. *)
Fixpoint leadingInt (bs : list N) (x : Z) : Z * list N :=
  match bs with
  | c :: rest =>
      if ((48 <=? c) && (c <=? 57))%N then leadingInt rest (x * 10 + (Z.of_N c - 48))
      else (x, bs)
  | [] => (x, [])
  end.

(** [atoi] of package time, on the four bytes of a year. *)
Definition atoi (bs : list N) : option Z :=
  let '(neg, bs) :=
    match bs with
    | c :: rest => if ((c =? 45) || (c =? 43))%N then ((c =? 45)%N, rest) else (false, bs)
    | [] => (false, bs)
    end in
  match leadingInt bs 0 with
  | (q, []) => Some (if neg then - q else q)
  | (_, _ :: _) => None
  end.

(** [getnum(s, fixed)]: one or two digits, exactly two when [fixed]. *)
Definition getnum (bs : list N) (fixed : bool) : option (Z * list N) :=
  if negb (isDigit bs 0) then None
  else if negb (isDigit bs 1) then
    if fixed then None
    else match bs with
         | c :: rest => Some (Z.of_N c - 48, rest)
         | [] => None
         end
  else match bs with
       | c :: d :: rest => Some ((Z.of_N c - 48) * 10 + (Z.of_N d - 48), rest)
       | _ => None
       end.

Definition isLeap (year : Z) : bool :=
  (year mod 4 =? 0) && (negb (year mod 100 =? 0) || (year mod 400 =? 0)).

Definition daysIn (m year : Z) : Z :=
  if (m =? 2) && isLeap year then 29
  else if m =? 2 then 28
  else if (m =? 4) || (m =? 6) || (m =? 9) || (m =? 11) then 30
  else 31.

(** What [Parse] has read so far. *)
Record fields : Type := mkFields { f_year : Z; f_month : Z; f_day : Z }.

(** One round of the loop of [Parse]: consume the text of one chunk. *)
Definition parseChunk (c : std) (acc : fields) (value : list N)
  : option (fields * list N) :=
  match c with
  | stdLongYear =>
      if (length value <? 4)%nat || negb (isDigit value 0) then None
      else
        match atoi (firstn 4 value) with
        | Some y => Some (mkFields y (f_month acc) (f_day acc), skipn 4 value)
        | None => None
        end
  | stdZeroMonth =>
      match getnum value true with
      | Some (m, rest) =>
          if (m <=? 0) || (12 <? m) then None
          else Some (mkFields (f_year acc) m (f_day acc), rest)
      | None => None
      end
  | stdZeroDay =>
      match getnum value true with
      | Some (d, rest) => Some (mkFields (f_year acc) (f_month acc) d, rest)
      | None => None
      end
  end.

Fixpoint parseLoop (layout : list std) (acc : fields) (value : list N)
  : option fields :=
  match layout with
  | [] =>
      (* no chunk left: text that remains is "extra text" *)
      match value with
      | [] => Some acc
      | _ :: _ => None
      end
  | c :: layout' =>
      match parseChunk c acc value with
      | Some (acc', value') => parseLoop layout' acc' value'
      | None => None
      end
  end.

(** [time.Parse(layout, value)] for a layout made of the chunks above.
    The fields start at year 0, month 1, day 1; the day of the month is
    validated once the whole value has been read. *)
Definition Parse (layout : list std) (value : string) : option Date :=
  match parseLoop layout (mkFields 0 1 1) (GoStrings.bytes value) with
  | Some f =>
      if (f_day f <? 1) || (daysIn (f_month f) (f_year f) <? f_day f) then None
      else Some (mkDate (f_year f) (f_month f) (f_day f))
  | None => None
  end.

(** [skip(value, prefix)] for a prefix that holds no space: the value
    behind the prefix, when it starts with it. *)
Fixpoint skip (value prefix : list N) : option (list N) :=
  match prefix with
  | [] => Some value
  | p :: prefix' =>
      match value with
      | v :: value' => if (v =? p)%N then skip value' prefix' else None
      | [] => None
      end
  end.

(** One round of the loop of [Parse] for a chunk behind a literal
    prefix of the layout. *)
Definition parsePrefixed (prefix : list N) (c : std) (st : option (fields * list N))
  : option (fields * list N) :=
  match st with
  | Some (acc, value) =>
      match skip value prefix with
      | Some value' => parseChunk c acc value'
      | None => None
      end
  | None => None
  end.

(** [time.Parse("2006-01-02", value)]: [nextStdChunk] cuts the layout
    into stdLongYear, then stdZeroMonth and stdZeroDay each behind the
    prefix ["-"] (byte 45). *)
Definition ParseISODate (value : string) : option Date :=
  match
    parsePrefixed [45%N] stdZeroDay
      (parsePrefixed [45%N] stdZeroMonth
         (parsePrefixed [] stdLongYear (Some (mkFields 0 1 1, GoStrings.bytes value))))
  with
  | Some (f, []) =>
      if (f_day f <? 1) || (daysIn (f_month f) (f_year f) <? f_day f) then None
      else Some (mkDate (f_year f) (f_month f) (f_day f))
  | _ => None
  end.

End GoTime.

(* ===================================================================== *)
(** * Go: package path/filepath (Unix)                                    *)
(* ===================================================================== *)

Module GoFilepath.

Definition isPathSeparator (c : ascii) : bool := Ascii.eqb c "/"%char.

(** The characters after the last separator, on the reversed path. *)
Fixpoint lastElementRev (rs : list ascii) : list ascii :=
  match rs with
  | [] => []
  | c :: rest => if isPathSeparator c then [] else c :: lastElementRev rest
  end.

Fixpoint dropSeparators (rs : list ascii) : list ascii :=
  match rs with
  | c :: rest => if isPathSeparator c then dropSeparators rest else rs
  | [] => []
  end.

(** [filepath.Base]. *)
Definition Base (path : string) : string :=
  match path with
  | EmptyString => "."
  | _ =>
      let rs := dropSeparators (rev (list_ascii_of_string path)) in
      match rev (lastElementRev rs) with
      | [] => "/"
      | name => string_of_list_ascii name
      end
  end.

(** The extension, scanning the reversed path: [acc] holds the
    characters already passed. *)
Fixpoint extRev (rs : list ascii) (acc : list ascii) : list ascii :=
  match rs with
  | [] => []
  | c :: rest =>
      if isPathSeparator c then []
      else if Ascii.eqb c "."%char then c :: acc
      else extRev rest (c :: acc)
  end.

(** [filepath.Ext]. *)
Definition Ext (path : string) : string :=
  string_of_list_ascii (extRev (rev (list_ascii_of_string path)) []).

End GoFilepath.

(* ===================================================================== *)
(** * internal/models                                                     *)
(* ===================================================================== *)

(** [models.WeatherStation]. *)
Module WeatherStation.
Record t : Type := mk {
  StationID : string;
  State : string;
  CreatedAt : GoTime.Instant;
  UpdatedAt : GoTime.Instant
}.
End WeatherStation.

(** [models.WeatherObservation]. The three measurements are pointers in
    the source, [nil] standing for a missing value. *)
Module WeatherObservation.
Record t : Type := mk {
  ID : Z;
  StationID : string;
  ObservationDate : GoTime.Date;
  MaxTemperatureCelsius : option Float64.t;
  MinTemperatureCelsius : option Float64.t;
  PrecipitationCm : option Float64.t;
  CreatedAt : GoTime.Instant
}.
End WeatherObservation.

(** [models.WeatherStatistics]. *)
Module WeatherStatistics.
Record t : Type := mk {
  ID : Z;
  StationID : string;
  Year : Z;
  AvgMaxTemperatureCelsius : option Float64.t;
  AvgMinTemperatureCelsius : option Float64.t;
  TotalPrecipitationCm : option Float64.t;
  ObservationCount : Z;
  ValidMaxTempCount : Z;
  ValidMinTempCount : Z;
  ValidPrecipitationCount : Z;
  CreatedAt : GoTime.Instant;
  UpdatedAt : GoTime.Instant
}.
End WeatherStatistics.

(** [models.RawWeatherRecord]: one line of an input file. *)
Module RawWeatherRecord.
Record t : Type := mk {
  Date : string;
  MaxTemperatureTenths : Z;
  MinTemperatureTenths : Z;
  PrecipitationTenths : Z
}.
End RawWeatherRecord.

(** [models.ValidationError]. *)
Module ValidationError.
Record t : Type := mk {
  Field : string;
  Value : string;
  Message : string
}.
Definition Error (e : t) : string := Message e.
Definition IsTransient (e : t) : bool := false.
End ValidationError.

Module models.

(** The code for a missing measurement. *)
Definition sentinel : Z := -9999.

(** The error [ToObservation] returns for a date it cannot parse. *)
Definition invalidDate (date : string) : ValidationError.t :=
  ValidationError.mk "date" date "invalid date format, expected YYYYMMDD".

(** [ToObservation], a method of [RawWeatherRecord]. [now] is the reading of
    [time.Now().UTC()] taken when the observation is built. *)
Definition ToObservation (now : GoTime.Instant) (r : RawWeatherRecord.t)
    (stationID : string) : WeatherObservation.t + ValidationError.t :=
  match GoTime.Parse GoTime.layout20060102 (RawWeatherRecord.Date r) with
  | None => inr (invalidDate (RawWeatherRecord.Date r))
  | Some date =>
      let maxT :=
        if negb (RawWeatherRecord.MaxTemperatureTenths r =? -9999)
        then Some (Float64.div (Float64.ofInt (RawWeatherRecord.MaxTemperatureTenths r))
                               Float64.lit10)
        else None in
      let minT :=
        if negb (RawWeatherRecord.MinTemperatureTenths r =? -9999)
        then Some (Float64.div (Float64.ofInt (RawWeatherRecord.MinTemperatureTenths r))
                               Float64.lit10)
        else None in
      let precip :=
        if negb (RawWeatherRecord.PrecipitationTenths r =? -9999)
        then Some (Float64.div (Float64.ofInt (RawWeatherRecord.PrecipitationTenths r))
                               Float64.lit100)
        else None in
      inl (WeatherObservation.mk 0 stationID date maxT minT precip now)
  end.

End models.

(* ===================================================================== *)
(** * Go: errors, results and the run-time check of [make]                *)
(* ===================================================================== *)

Module GoError.

(** An [error] above the level of one record: a message
    ([errors.New], an error of the driver or of the operating system),
    or a message wrapping its cause ([fmt.Errorf] with [%w]). *)
Inductive error : Type :=
| errorString (msg : string)
| wrapError (msg : string) (cause : error).

(** The method [Error()]. *)
Definition Error (e : error) : string :=
  match e with
  | errorString msg => msg
  | wrapError msg _ => msg
  end.

(** [fmt.Errorf(prefix + ": %w", err)]. *)
Definition Errorf_w (prefix : string) (err : error) : error :=
  wrapError (prefix +:+ ": " +:+ Error err) err.

(** How a call ends: with a value, with an error, or in a panic that
    unwinds the callers (none of them recovers). *)
Inductive result (A : Type) : Type :=
| ok (a : A)
| failed (err : error)
| panicked (msg : string).
Arguments ok {A} a.
Arguments failed {A} err.
Arguments panicked {A} msg.

End GoError.

Module GoRuntime.

(** [maxAlloc] on linux/amd64 and the size of a pointer. *)
Definition maxAlloc : Z := 2 ^ 48.
Definition ptrSize : Z := 8.

(** [make([]*T, 0, cap)] panics ("makeslice: cap out of range") when
    [cap] is negative or the backing array would exceed [maxAlloc]. *)
Definition makeslicePanics (cap : Z) : bool :=
  (cap <? 0) || (maxAlloc <? ptrSize * cap).

End GoRuntime.

(** More of the arithmetic of [int]: subtraction, multiplication and
    the quotient by a divisor that is not zero, which truncates toward
    zero. *)
Module GoIntOps.

Definition sub (a b : Z) : Z := GoInt.wrap (a - b).
Definition mul (a b : Z) : Z := GoInt.wrap (a * b).
Definition quo (a b : Z) : Z := GoInt.wrap (Z.quot a b).

End GoIntOps.

(** [net/http]: the text of the two status codes [sendError] is called
    with. *)
Module GoHTTP.

Definition StatusBadRequest : Z := 400.
Definition StatusInternalServerError : Z := 500.
Definition StatusOK : Z := 200.

Definition StatusText (code : Z) : string :=
  if code =? StatusBadRequest then "Bad Request"
  else if code =? StatusInternalServerError then "Internal Server Error"
  else if code =? StatusOK then "OK"
  else "".

End GoHTTP.

(* ===================================================================== *)
(** * internal/repository: the interface                                  *)
(* ===================================================================== *)

Module repository.

(** [repository.WeatherRepository], restricted to the methods the
    ingestion and statistics services call. A method takes the state of
    the repository and returns the state it leaves behind. *)
Class WeatherRepository (R : Type) : Type := {
  CreateStation : WeatherStation.t -> R -> option GoError.error * R;
  ListStations : Z -> Z -> R -> (list WeatherStation.t + GoError.error) * R;
  CreateObservationsBatch :
    list WeatherObservation.t -> R -> option GoError.error * R;
  UpsertStatistics : WeatherStatistics.t -> R -> option GoError.error * R;
  CalculateYearlyStatistics :
    string -> Z -> R -> (WeatherStatistics.t + GoError.error) * R
}.

End repository.

(** [repository.NotFoundError]. *)
Module NotFoundError.
Record t : Type := mk {
  Resource : string;
  ID : string
}.
Definition Error (e : t) : string := Resource e +:+ " not found: " +:+ ID e.
Definition IsTransient (e : t) : bool := false.
End NotFoundError.

(** The error of a method that looks one row up: the row is missing, or
    the query failed. *)
Inductive LookupError : Type :=
| notFound (e : NotFoundError.t)
| lookupFailed (err : GoError.error).

(** [repository.StatisticsFilter]: a [nil] pointer is [None]. *)
Module StatisticsFilter.
Record t : Type := mk {
  StationID : option string;
  Year : option Z;
  Limit : Z;
  Offset : Z
}.
End StatisticsFilter.

(** [repository.ObservationFilter]. The two dates come from [time.Parse]
    with a date-only layout: midnight UTC of a calendar date. *)
Module ObservationFilter.
Record t : Type := mk {
  StationID : option string;
  StartDate : option GoTime.Date;
  EndDate : option GoTime.Date;
  Limit : Z;
  Offset : Z
}.
End ObservationFilter.

(** The two methods of [repository.WeatherRepository] the API reads
    through: the page asked for and the total count, or an error. *)
Module reader.

Class StatisticsReader (R : Type) : Type := {
  GetStatistics :
    StatisticsFilter.t -> R -> (list WeatherStatistics.t * Z + GoError.error) * R
}.

Class ObservationReader (R : Type) : Type := {
  GetObservations :
    ObservationFilter.t -> R -> (list WeatherObservation.t * Z + GoError.error) * R
}.

End reader.

(* ===================================================================== *)
(** * internal/services                                                   *)
(* ===================================================================== *)

(** What [bufio.Scanner] yields on an opened file: the lines in order
    and, when the scan stopped on a read error or on a line longer than
    the buffer, that error. *)
Record ScannedFile : Type := mkScannedFile {
  lines : list string;
  scanErr : option GoError.error
}.

(** The file system as the service sees it: the result of
    [filepath.Glob(filepath.Join(dataDir, "*.txt"))] and of [os.Open]
    followed by the scan. *)
Record FileSystem : Type := mkFileSystem {
  Glob : string -> list string + GoError.error;
  Open : string -> ScannedFile + GoError.error
}.

(** A value of a log field. *)
Inductive fieldValue : Type :=
| VString (s : string)
| VInt (n : Z).

(** The calls the services make on the logger and on the metrics
    collector. The fields that hold durations and rates are left out. *)
Inductive Event : Type :=
| LogInfo (message : string) (fields : list (string * fieldValue))
| LogError (message : string) (fields : list (string * fieldValue))
    (err : GoError.error)
| RecordIngestionError (errorType : string)
| ObserveIngestionDuration (nanoseconds : Z).

(** The state the services run in: the repository, the calls made so far
    on the logger and the collector (latest first), and how many times
    the wall clock has been read. *)
Record World (R : Type) : Type := mkWorld {
  repo : R;
  events : list Event;
  readings : nat
}.
Arguments mkWorld {R} repo events readings.
Arguments repo {R} w.
Arguments events {R} w.
Arguments readings {R} w.

(** [services.IngestionResult]. *)
Module IngestionResult.
Record t : Type := mk {
  TotalFiles : Z;
  TotalRecords : Z;
  SuccessfulRecords : Z;
  FailedRecords : Z;
  StationsCreated : Z;
  Duration : Z;
  Errors : list string
}.
End IngestionResult.

(** [services.FileIngestionResult]. *)
Module FileIngestionResult.
Record t : Type := mk {
  TotalRecords : Z;
  SuccessfulRecords : Z;
  FailedRecords : Z
}.
End FileIngestionResult.

(** The errors of [parseLine]: a wrong number of fields, or the
    [*strconv.NumError] of the field that is not an integer. *)
Inductive ParseError : Type :=
| invalidLineFormat (got : nat)
| invalidMaxTemperature (cause : GoStrconv.NumError)
| invalidMinTemperature (cause : GoStrconv.NumError)
| invalidPrecipitation (cause : GoStrconv.NumError).

Module services.

Import GoError repository.

(** [parseLine]. *)
Definition parseLine (line : string) : RawWeatherRecord.t + ParseError :=
  match GoStrings.Split line GoStrings.tab with
  | [p0; p1; p2; p3] =>
      match GoStrconv.Atoi (GoStrings.TrimSpace p1) with
      | inr err => inr (invalidMaxTemperature err)
      | inl maxTemp =>
          match GoStrconv.Atoi (GoStrings.TrimSpace p2) with
          | inr err => inr (invalidMinTemperature err)
          | inl minTemp =>
              match GoStrconv.Atoi (GoStrings.TrimSpace p3) with
              | inr err => inr (invalidPrecipitation err)
              | inl precip =>
                  inl (RawWeatherRecord.mk (GoStrings.TrimSpace p0) maxTemp minTemp precip)
              end
          end
      end
  | parts => inr (invalidLineFormat (length parts))
  end.

(** The text of the error for a wrong number of fields. *)
Definition invalidLineFormatMessage (got : nat) : string :=
  "invalid line format: expected 4 fields, got " +:+ pretty (Z.of_nat got).

(** [extractStateFromStationID]. *)
Definition extractStateFromStationID (stationID : string) : string :=
  if (2 <=? String.length stationID)%nat then substring 0 2 stationID
  else "XX".

Section WithRepository.

Context {R : Type} `{WeatherRepository R}.

(** The [n]-th reading of the wall clock. *)
Variable wall : nat -> GoTime.Instant.
Variable fs : FileSystem.

Definition emit (e : Event) (w : World R) : World R :=
  mkWorld (repo w) (e :: events w) (readings w).

Definition setRepo (r : R) (w : World R) : World R :=
  mkWorld r (events w) (readings w).

(** [time.Now()]. *)
Definition now (w : World R) : GoTime.Instant * World R :=
  (wall (readings w), mkWorld (repo w) (events w) (S (readings w))).

(** The state of the loop of [ingestFile]. *)
Record scanState : Type := mkScanState {
  fileResult : FileIngestionResult.t;
  batch : list WeatherObservation.t
}.

Definition countTotal (r : FileIngestionResult.t) : FileIngestionResult.t :=
  FileIngestionResult.mk
    (GoInt.add (FileIngestionResult.TotalRecords r) 1)
    (FileIngestionResult.SuccessfulRecords r)
    (FileIngestionResult.FailedRecords r).

Definition countFailed (r : FileIngestionResult.t) : FileIngestionResult.t :=
  FileIngestionResult.mk
    (FileIngestionResult.TotalRecords r)
    (FileIngestionResult.SuccessfulRecords r)
    (GoInt.add (FileIngestionResult.FailedRecords r) 1).

Definition countSuccessful (n : nat) (r : FileIngestionResult.t)
  : FileIngestionResult.t :=
  FileIngestionResult.mk
    (FileIngestionResult.TotalRecords r)
    (GoInt.add (FileIngestionResult.SuccessfulRecords r) (Z.of_nat n))
    (FileIngestionResult.FailedRecords r).

(** The body of [for scanner.Scan()] in [ingestFile], over the lines
    the scanner yields. An [inl] is the error of a failed flush. *)
Fixpoint scanLoop (stationID : string) (batchSize : Z) (ls : list string)
    (st : scanState) (w : World R) : (error + scanState) * World R :=
  match ls with
  | [] => (inr st, w)
  | line :: rest =>
      let res := countTotal (fileResult st) in
      match parseLine line with
      | inr _ =>
          scanLoop stationID batchSize rest
            (mkScanState (countFailed res) (batch st))
            (emit (RecordIngestionError "parse_error") w)
      | inl record =>
          match models.ToObservation (wall (readings w)) record stationID with
          | inr _ =>
              scanLoop stationID batchSize rest
                (mkScanState (countFailed res) (batch st))
                (emit (RecordIngestionError "conversion_error") w)
          | inl observation =>
              let w := snd (now w) in
              let b := batch st ++ [observation] in
              if batchSize <=? Z.of_nat (length b) then
                match CreateObservationsBatch b (repo w) with
                | (Some err, r') =>
                    (inl (Errorf_w "failed to insert batch" err), setRepo r' w)
                | (None, r') =>
                    scanLoop stationID batchSize rest
                      (mkScanState (countSuccessful (length b) res) [])
                      (setRepo r' w)
                end
              else
                scanLoop stationID batchSize rest (mkScanState res b) w
          end
      end
  end.

(** [ingestFile]. *)
Definition ingestFile (filePath : string) (batchSize : Z) (w : World R)
  : result FileIngestionResult.t * World R :=
  let fileName := GoFilepath.Base filePath in
  let stationID := GoStrings.TrimSuffix fileName (GoFilepath.Ext fileName) in
  let '(createdAt, w) := now w in
  let '(updatedAt, w) := now w in
  let station :=
    WeatherStation.mk stationID (extractStateFromStationID stationID)
      createdAt updatedAt in
  match CreateStation station (repo w) with
  | (Some err, r') => (failed (Errorf_w "failed to create station" err), setRepo r' w)
  | (None, r') =>
      let w := setRepo r' w in
      match Open fs filePath with
      | inr err => (failed (Errorf_w "failed to open file" err), w)
      | inl file =>
          if GoRuntime.makeslicePanics batchSize
          then (panicked "makeslice: cap out of range", w)
          else
            match scanLoop stationID batchSize (lines file)
                    (mkScanState (FileIngestionResult.mk 0 0 0) []) w with
            | (inl err, w) => (failed err, w)
            | (inr st, w) =>
                let flushed :=
                  match batch st with
                  | [] => (inr (fileResult st), w)
                  | _ :: _ =>
                      match CreateObservationsBatch (batch st) (repo w) with
                      | (Some err, r') =>
                          (inl (Errorf_w "failed to insert final batch" err),
                           setRepo r' w)
                      | (None, r') =>
                          (inr (countSuccessful (length (batch st)) (fileResult st)),
                           setRepo r' w)
                      end
                  end in
                match flushed with
                | (inl err, w) => (failed err, w)
                | (inr res, w) =>
                    match scanErr file with
                    | Some err => (failed (Errorf_w "error reading file" err), w)
                    | None => (ok res, w)
                    end
                end
            end
      end
  end.

Definition addFileResult (fr : FileIngestionResult.t) (r : IngestionResult.t)
  : IngestionResult.t :=
  IngestionResult.mk
    (IngestionResult.TotalFiles r)
    (GoInt.add (IngestionResult.TotalRecords r) (FileIngestionResult.TotalRecords fr))
    (GoInt.add (IngestionResult.SuccessfulRecords r)
               (FileIngestionResult.SuccessfulRecords fr))
    (GoInt.add (IngestionResult.FailedRecords r) (FileIngestionResult.FailedRecords fr))
    (IngestionResult.StationsCreated r)
    (IngestionResult.Duration r)
    (IngestionResult.Errors r).

Definition addError (errMsg : string) (r : IngestionResult.t) : IngestionResult.t :=
  IngestionResult.mk
    (IngestionResult.TotalFiles r)
    (IngestionResult.TotalRecords r)
    (IngestionResult.SuccessfulRecords r)
    (IngestionResult.FailedRecords r)
    (IngestionResult.StationsCreated r)
    (IngestionResult.Duration r)
    (IngestionResult.Errors r ++ [errMsg]).

Definition setDuration (d : Z) (r : IngestionResult.t) : IngestionResult.t :=
  IngestionResult.mk
    (IngestionResult.TotalFiles r)
    (IngestionResult.TotalRecords r)
    (IngestionResult.SuccessfulRecords r)
    (IngestionResult.FailedRecords r)
    (IngestionResult.StationsCreated r)
    d
    (IngestionResult.Errors r).

(** [fmt.Sprintf("failed to ingest %s: %v", filePath, err)]. *)
Definition ingestErrorMessage (filePath : string) (err : error) : string :=
  "failed to ingest " +:+ filePath +:+ ": " +:+ Error err.

(** The loop [for _, filePath := range files] of [IngestDirectory]. *)
Fixpoint ingestFiles (files : list string) (batchSize : Z)
    (res : IngestionResult.t) (w : World R)
  : result IngestionResult.t * World R :=
  match files with
  | [] => (ok res, w)
  | filePath :: rest =>
      match ingestFile filePath batchSize w with
      | (panicked msg, w) => (panicked msg, w)
      | (failed err, w) =>
          let w :=
            emit (LogError "[INGEST_FILE_ERROR] File ingestion failed"
                    [("file_path", VString filePath);
                     ("stage", VString "FILE_PROCESSING")] err) w in
          let w := emit (RecordIngestionError "file_error") w in
          ingestFiles rest batchSize
            (addError (ingestErrorMessage filePath err) res) w
      | (ok fileResult, w) =>
          let w :=
            emit (LogInfo "[INGEST_FILE_SUCCESS] File ingested successfully"
                    [("file_path", VString filePath);
                     ("total_records", VInt (FileIngestionResult.TotalRecords fileResult));
                     ("successful_records",
                      VInt (FileIngestionResult.SuccessfulRecords fileResult));
                     ("failed_records", VInt (FileIngestionResult.FailedRecords fileResult));
                     ("stage", VString "FILE_COMPLETE")]) w in
          ingestFiles rest batchSize (addFileResult fileResult res) w
      end
  end.

(** [IngestDirectory]. *)
Definition IngestDirectory (dataDir : string) (batchSize : Z) (w : World R)
  : result IngestionResult.t * World R :=
  let '(startTime, w) := now w in
  let w :=
    emit (LogInfo "[INGEST_START] Starting data ingestion"
            [("data_dir", VString dataDir); ("batch_size", VInt batchSize);
             ("stage", VString "INITIALIZATION")]) w in
  match Glob fs dataDir with
  | inr err => (failed (Errorf_w "failed to read directory" err), w)
  | inl [] => (failed (errorString ("no data files found in " +:+ dataDir)), w)
  | inl files =>
      let res :=
        IngestionResult.mk (Z.of_nat (length files)) 0 0 0 0 0 [] in
      let w :=
        emit (LogInfo "[INGEST_FILES] Found data files"
                [("file_count", VInt (Z.of_nat (length files)));
                 ("stage", VString "FILE_DISCOVERY")]) w in
      match ingestFiles files batchSize res w with
      | (ok res, w) =>
          let '(endTime, w) := now w in
          let res := setDuration (endTime - startTime) res in
          let w := emit (ObserveIngestionDuration (IngestionResult.Duration res)) w in
          let w :=
            emit (LogInfo "[INGEST_COMPLETE] Data ingestion completed"
                    [("total_files", VInt (IngestionResult.TotalFiles res));
                     ("total_records", VInt (IngestionResult.TotalRecords res));
                     ("successful_records",
                      VInt (IngestionResult.SuccessfulRecords res));
                     ("failed_records", VInt (IngestionResult.FailedRecords res));
                     ("error_count",
                      VInt (Z.of_nat (length (IngestionResult.Errors res))));
                     ("stage", VString "COMPLETE")]) w in
          (ok res, w)
      | other => other
      end
  end.

(** The years [for year := 1985; year <= 2014; year++] runs through. *)
Definition firstYear : Z := 1985.
Definition lastYear : Z := 2014.
Definition years : list Z := seqZ firstYear (lastYear - firstYear + 1).

(** The body of the loop over the years in [CalculateAllStatistics],
    for one station and one year. [totalStats] counts the statistics
    saved. *)
Definition calculateOne (stationID : string) (year : Z)
    (acc : Z * World R) : Z * World R :=
  let '(totalStats, w) := acc in
  match CalculateYearlyStatistics stationID year (repo w) with
  | (inr err, r') =>
      (totalStats,
       emit (LogError "[STATS_CALC_ERROR] Failed to calculate statistics"
               [("station_id", VString stationID); ("year", VInt year)] err)
            (setRepo r' w))
  | (inl stats, r') =>
      let w := setRepo r' w in
      if 0 <? WeatherStatistics.ObservationCount stats then
        match UpsertStatistics stats (repo w) with
        | (Some err, r') =>
            (totalStats,
             emit (LogError "[STATS_SAVE_ERROR] Failed to save statistics"
                     [("station_id", VString stationID); ("year", VInt year)] err)
                  (setRepo r' w))
        | (None, r') => (GoInt.add totalStats 1, setRepo r' w)
        end
      else (totalStats, w)
  end.

(** The body of the loop over the stations. *)
Definition calculateStation (station : WeatherStation.t)
    (acc : Z * World R) : Z * World R :=
  let '(totalStats, w) :=
    fold_left (fun acc year => calculateOne (WeatherStation.StationID station) year acc)
              years acc in
  (totalStats,
   emit (LogInfo "[STATS_STATION_COMPLETE] Station statistics calculated"
           [("station_id", VString (WeatherStation.StationID station))]) w).

(** [CalculateAllStatistics]. *)
Definition CalculateAllStatistics (w : World R) : option error * World R :=
  let '(startTime, w) := now w in
  let w :=
    emit (LogInfo "[STATS_CALC_START] Starting statistics calculation"
            [("stage", VString "INITIALIZATION")]) w in
  match ListStations 10000 0 (repo w) with
  | (inr err, r') => (Some (Errorf_w "failed to list stations" err), setRepo r' w)
  | (inl stations, r') =>
      let w := setRepo r' w in
      let '(totalStats, w) :=
        fold_left (fun acc station => calculateStation station acc) stations (0, w) in
      let '(endTime, w) := now w in
      let w :=
        emit (LogInfo "[STATS_CALC_COMPLETE] Statistics calculation completed"
                [("total_stations", VInt (Z.of_nat (length stations)));
                 ("total_statistics", VInt totalStats);
                 ("stage", VString "COMPLETE")]) w in
      (None, w)
  end.

End WithRepository.

End services.

(* ===================================================================== *)
(** * cmd/ingester: the report of the errors                              *)
(* ===================================================================== *)

Module ingester.

Definition newline : string := String "010"%char EmptyString.

(** [for i, errMsg := range result.Errors { if i < 10 { ... } }]. *)
Fixpoint printFirst (i : Z) (errors : list string) : list string :=
  match errors with
  | [] => []
  | errMsg :: rest =>
      (if i <? 10 then ["  - " +:+ errMsg +:+ newline] else [])
      ++ printFirst (i + 1) rest
  end.

(** What [main] prints about [result.Errors], one element per call of
    [fmt.Printf]. *)
Definition errorReport (errors : list string) : list string :=
  let n := Z.of_nat (length errors) in
  if 0 <? n then
    [newline +:+ "Errors (" +:+ pretty n +:+ "):" +:+ newline]
    ++ printFirst 0 errors
    ++ (if 10 <? n
        then ["  ... and " +:+ pretty (n - 10) +:+ " more errors" +:+ newline]
        else [])
  else [].

End ingester.

(* ===================================================================== *)
(** * internal/repository: the PostgreSQL implementation                  *)
(* ===================================================================== *)

#[global] Instance Date_eq_dec : EqDecision GoTime.Date.
Proof. solve_decision. Defined.

#[global] Instance Date_countable : Countable GoTime.Date :=
  inj_countable'
    (fun d => (GoTime.year d, GoTime.month d, GoTime.day d))
    (fun t => GoTime.mkDate t.1.1 t.1.2 t.2)
    (fun d => match d with GoTime.mkDate _ _ _ => eq_refl end).

(** A row of [weather_stations], without its key [station_id]. *)
Module StationRow.
Record t : Type := mk {
  state : string;
  created_at : GoTime.Instant;
  updated_at : GoTime.Instant
}.
End StationRow.

(** A row of [weather_observations], without its key
    [(station_id, observation_date)]. A cell holds the value the driver
    was handed; [None] is NULL. *)
Module ObservationRow.
Record t : Type := mk {
  max_temperature_celsius : option Float64.t;
  min_temperature_celsius : option Float64.t;
  precipitation_cm : option Float64.t;
  created_at : GoTime.Instant
}.
End ObservationRow.

(** A row of [weather_statistics], without its key [(station_id, year)]. *)
Module StatisticsRow.
Record t : Type := mk {
  avg_max_temperature_celsius : option Float64.t;
  avg_min_temperature_celsius : option Float64.t;
  total_precipitation_cm : option Float64.t;
  observation_count : Z;
  valid_max_temp_count : Z;
  valid_min_temp_count : Z;
  valid_precipitation_count : Z;
  created_at : GoTime.Instant;
  updated_at : GoTime.Instant
}.
End StatisticsRow.

Module postgres.

Import GoError.

(** The store behind [weatherRepository]: the three tables of the
    schema, each a finite map from its unique key, and the environment
    of the connection. A statement the server or the driver rejects (a
    CHECK or FOREIGN KEY constraint of the schema, a column too narrow,
    a lost connection, a cancelled context, a row the driver cannot
    scan) fails with a message: [rejects n] tells whether the [n]-th
    statement sent does. [clock n] is the [n]-th reading of the clock.
    The surrogate keys [id] are not part of the store: the services
    never read them. *)
Record DB : Type := mkDB {
  weather_stations : gmap string StationRow.t;
  weather_observations : gmap (string * GoTime.Date) ObservationRow.t;
  weather_statistics : gmap (string * Z) StatisticsRow.t;
  rejects : nat -> option string;
  statements : nat;
  clock : nat -> GoTime.Instant;
  clockReadings : nat
}.

Definition setStations (t : gmap string StationRow.t) (db : DB) : DB :=
  mkDB t (weather_observations db) (weather_statistics db)
    (rejects db) (statements db) (clock db) (clockReadings db).

Definition setObservations
    (t : gmap (string * GoTime.Date) ObservationRow.t) (db : DB) : DB :=
  mkDB (weather_stations db) t (weather_statistics db)
    (rejects db) (statements db) (clock db) (clockReadings db).

Definition setStatistics (t : gmap (string * Z) StatisticsRow.t) (db : DB) : DB :=
  mkDB (weather_stations db) (weather_observations db) t
    (rejects db) (statements db) (clock db) (clockReadings db).

(** Sending one statement: the error it fails with, if it does. *)
Definition statement (db : DB) : option error * DB :=
  (errorString <$> rejects db (statements db),
   mkDB (weather_stations db) (weather_observations db) (weather_statistics db)
     (rejects db) (S (statements db)) (clock db) (clockReadings db)).

(** One reading of the clock. *)
Definition readClock (db : DB) : GoTime.Instant * DB :=
  (clock db (clockReadings db),
   mkDB (weather_stations db) (weather_observations db) (weather_statistics db)
     (rejects db) (statements db) (clock db) (S (clockReadings db))).

(** [CreateStation]: INSERT ... ON CONFLICT (station_id) DO NOTHING. *)
Definition CreateStation (station : WeatherStation.t) (db : DB)
  : option error * DB :=
  match statement db with
  | (Some err, db) => (Some (Errorf_w "failed to create station" err), db)
  | (None, db) =>
      match weather_stations db !! WeatherStation.StationID station with
      | Some _ => (None, db)
      | None =>
          (None,
           setStations
             (<[WeatherStation.StationID station :=
                  StationRow.mk (WeatherStation.State station)
                    (WeatherStation.CreatedAt station)
                    (WeatherStation.UpdatedAt station)]>
                (weather_stations db)) db)
      end
  end.

(** The rows of [weather_stations] in the order of [station_id]
    (bytewise, the order of the C collation). *)
Definition stationsInOrder (db : DB) : list WeatherStation.t :=
  (fun id =>
     match weather_stations db !! id with
     | Some row =>
         WeatherStation.mk id (StationRow.state row) (StationRow.created_at row)
           (StationRow.updated_at row)
     | None => WeatherStation.mk id "" 0 0
     end)
  <$> merge_sort String.le (map fst (map_to_list (weather_stations db))).

(** [ListStations]: SELECT ... ORDER BY station_id LIMIT $1 OFFSET $2.
    The server rejects a negative LIMIT or OFFSET. *)
Definition ListStations (limit offset : Z) (db : DB)
  : (list WeatherStation.t + error) * DB :=
  match statement db with
  | (Some err, db) => (inr (Errorf_w "failed to list stations" err), db)
  | (None, db) =>
      if limit <? 0 then
        (inr (Errorf_w "failed to list stations"
                (errorString "pq: LIMIT must not be negative")), db)
      else if offset <? 0 then
        (inr (Errorf_w "failed to list stations"
                (errorString "pq: OFFSET must not be negative")), db)
      else
        (inl (take (Z.to_nat limit) (drop (Z.to_nat offset) (stationsInOrder db))), db)
  end.

(** INSERT ... ON CONFLICT (station_id, observation_date) DO UPDATE
    SET the three measurements: a row with the same key keeps its
    [created_at]. *)
Definition upsertObservation (obs : WeatherObservation.t)
    (t : gmap (string * GoTime.Date) ObservationRow.t)
  : gmap (string * GoTime.Date) ObservationRow.t :=
  let key := (WeatherObservation.StationID obs, WeatherObservation.ObservationDate obs) in
  let createdAt :=
    match t !! key with
    | Some row => ObservationRow.created_at row
    | None => WeatherObservation.CreatedAt obs
    end in
  <[key := ObservationRow.mk
             (WeatherObservation.MaxTemperatureCelsius obs)
             (WeatherObservation.MinTemperatureCelsius obs)
             (WeatherObservation.PrecipitationCm obs)
             createdAt]> t.

(** The loop over the batch inside the transaction: [t] is the table
    as the transaction sees it. *)
Fixpoint execBatch (observations : list WeatherObservation.t)
    (t : gmap (string * GoTime.Date) ObservationRow.t) (db : DB)
  : (error + gmap (string * GoTime.Date) ObservationRow.t) * DB :=
  match observations with
  | [] => (inr t, db)
  | obs :: rest =>
      match statement db with
      | (Some err, db) => (inl (Errorf_w "failed to insert observation" err), db)
      | (None, db) => execBatch rest (upsertObservation obs t) db
      end
  end.

(** [CreateObservationsBatch]: BEGIN, PREPARE, one execution per
    observation, COMMIT. An error on the way leaves through the
    deferred [tx.Rollback()]: the table is what it was. *)
Definition CreateObservationsBatch (observations : list WeatherObservation.t)
    (db : DB) : option error * DB :=
  match observations with
  | [] => (None, db)
  | _ :: _ =>
      match statement db with
      | (Some err, db) => (Some (Errorf_w "failed to begin transaction" err), db)
      | (None, db) =>
          match statement db with
          | (Some err, db) => (Some (Errorf_w "failed to prepare statement" err), db)
          | (None, db) =>
              match execBatch observations (weather_observations db) db with
              | (inl err, db) => (Some err, db)
              | (inr t, db) =>
                  match statement db with
                  | (Some err, db) =>
                      (Some (Errorf_w "failed to commit transaction" err), db)
                  | (None, db) => (None, setObservations t db)
                  end
              end
          end
      end
  end.

(** [UpsertStatistics]: INSERT ... ON CONFLICT (station_id, year) DO
    UPDATE. On a conflict [created_at] stays and the trigger
    [update_weather_statistics_updated_at] sets [updated_at] to NOW(). *)
Definition UpsertStatistics (stats : WeatherStatistics.t) (db : DB)
  : option error * DB :=
  match statement db with
  | (Some err, db) => (Some (Errorf_w "failed to upsert statistics" err), db)
  | (None, db) =>
      let key := (WeatherStatistics.StationID stats, WeatherStatistics.Year stats) in
      let '(serverNow, db) := readClock db in
      let '(createdAt, updatedAt) :=
        match weather_statistics db !! key with
        | Some row => (StatisticsRow.created_at row, serverNow)
        | None => (WeatherStatistics.CreatedAt stats, WeatherStatistics.UpdatedAt stats)
        end in
      (None,
       setStatistics
         (<[key := StatisticsRow.mk
                     (WeatherStatistics.AvgMaxTemperatureCelsius stats)
                     (WeatherStatistics.AvgMinTemperatureCelsius stats)
                     (WeatherStatistics.TotalPrecipitationCm stats)
                     (WeatherStatistics.ObservationCount stats)
                     (WeatherStatistics.ValidMaxTempCount stats)
                     (WeatherStatistics.ValidMinTempCount stats)
                     (WeatherStatistics.ValidPrecipitationCount stats)
                     createdAt updatedAt]> (weather_statistics db)) db)
  end.

Section Aggregates.

(** AVG and SUM over the non-NULL cells of a column, as read back
    into a [float64]. The server computes them in NUMERIC; that
    arithmetic is a parameter here. An aggregate over no cell is
    NULL, whatever the arithmetic. *)
Variable numericAvg numericSum : list Float64.t -> Float64.t.

(** The rows WHERE station_id = $1 AND EXTRACT(YEAR FROM
    observation_date) = $2. *)
Definition selectYear (stationID : string) (year : Z) (db : DB)
  : list ObservationRow.t :=
  snd <$> filter
    (fun kv : string * GoTime.Date * ObservationRow.t =>
       kv.1.1 = stationID /\ GoTime.year kv.1.2 = year)
    (map_to_list (weather_observations db)).

(** COUNT(column): the cells that are not NULL. *)
Definition countColumn (column : ObservationRow.t -> option Float64.t)
    (rows : list ObservationRow.t) : Z :=
  Z.of_nat (length (omap column rows)).

Definition aggregate (f : list Float64.t -> Float64.t)
    (column : ObservationRow.t -> option Float64.t)
    (rows : list ObservationRow.t) : option Float64.t :=
  match omap column rows with
  | [] => None
  | cells => Some (f cells)
  end.

(** [CalculateYearlyStatistics]: one query, whose row of seven
    aggregates [GetContext] scans into a struct declared on the spot.
    The fields of that struct carry no [db] tag, so the driver looks
    for the columns under the names its mapper makes of the field
    names; a scan that finds no field for a column is an error of the
    call like any other, and [rejects] stands for it too. With the
    mapper the program leaves in place, which turns a field name to
    lower case and adds no underscore, no column of this query has a
    field: on the connections the program really opens, [rejects]
    holds an error for every statement this function sends. *)
Definition CalculateYearlyStatistics (stationID : string) (year : Z) (db : DB)
  : (WeatherStatistics.t + error) * DB :=
  match statement db with
  | (Some err, db) => (inr (Errorf_w "failed to calculate statistics" err), db)
  | (None, db) =>
      let rows := selectYear stationID year db in
      let '(createdAt, db) := readClock db in
      let '(updatedAt, db) := readClock db in
      (inl (WeatherStatistics.mk 0 stationID year
              (aggregate numericAvg ObservationRow.max_temperature_celsius rows)
              (aggregate numericAvg ObservationRow.min_temperature_celsius rows)
              (aggregate numericSum ObservationRow.precipitation_cm rows)
              (Z.of_nat (length rows))
              (countColumn ObservationRow.max_temperature_celsius rows)
              (countColumn ObservationRow.min_temperature_celsius rows)
              (countColumn ObservationRow.precipitation_cm rows)
              createdAt updatedAt), db)
  end.

(** [weatherRepository] implements [WeatherRepository]. *)
#[export] Instance weatherRepository : repository.WeatherRepository DB := {|
  repository.CreateStation := CreateStation;
  repository.ListStations := ListStations;
  repository.CreateObservationsBatch := CreateObservationsBatch;
  repository.UpsertStatistics := UpsertStatistics;
  repository.CalculateYearlyStatistics := CalculateYearlyStatistics
|}.

End Aggregates.

(** [GetStation]: SELECT ... WHERE station_id = $1. No row is
    [sql.ErrNoRows], which the method turns into a [NotFoundError]. *)
Definition GetStation (stationID : string) (db : DB)
  : (WeatherStation.t + LookupError) * DB :=
  match statement db with
  | (Some err, db) => (inr (lookupFailed (Errorf_w "failed to get station" err)), db)
  | (None, db) =>
      match weather_stations db !! stationID with
      | Some row =>
          (inl (WeatherStation.mk stationID (StationRow.state row)
                  (StationRow.created_at row) (StationRow.updated_at row)), db)
      | None => (inr (notFound (NotFoundError.mk "weather_station" stationID)), db)
      end
  end.

Section Queries.

(** What the driver reads back and the store does not hold: the
    surrogate key the sequence gave a row of [weather_statistics],
    and the [float64] a NUMERIC column gives back for the value that
    was written to it. *)
Variable statisticsID : string * Z -> Z.
Variable numericOut : Float64.t -> Float64.t.

(** A row of [weather_statistics] scanned into the struct. *)
Definition scanStatistics (kv : string * Z * StatisticsRow.t) : WeatherStatistics.t :=
  WeatherStatistics.mk (statisticsID kv.1) kv.1.1 kv.1.2
    (numericOut <$> StatisticsRow.avg_max_temperature_celsius kv.2)
    (numericOut <$> StatisticsRow.avg_min_temperature_celsius kv.2)
    (numericOut <$> StatisticsRow.total_precipitation_cm kv.2)
    (StatisticsRow.observation_count kv.2)
    (StatisticsRow.valid_max_temp_count kv.2)
    (StatisticsRow.valid_min_temp_count kv.2)
    (StatisticsRow.valid_precipitation_count kv.2)
    (StatisticsRow.created_at kv.2)
    (StatisticsRow.updated_at kv.2).

(** WHERE 1=1 [AND station_id = $n] [AND year = $n]. *)
Definition statisticsMatch (filter : StatisticsFilter.t)
    (kv : string * Z * StatisticsRow.t) : bool :=
  match StatisticsFilter.StationID filter with
  | Some stationID => String.eqb kv.1.1 stationID
  | None => true
  end
  && match StatisticsFilter.Year filter with
     | Some year => kv.1.2 =? year
     | None => true
     end.

(** ORDER BY year DESC, station_id. *)
Definition statisticsBefore (a b : string * Z * StatisticsRow.t) : Prop :=
  b.1.2 < a.1.2 \/ (a.1.2 = b.1.2 /\ String.le a.1.1 b.1.1).

#[local] Instance statisticsBefore_dec : RelDecision statisticsBefore.
Proof. intros a b. unfold statisticsBefore. apply _. Defined.

(** The rows the filter selects, in the order of the query. *)
Definition selectStatistics (filter : StatisticsFilter.t) (db : DB)
  : list (string * Z * StatisticsRow.t) :=
  merge_sort statisticsBefore
    (List.filter (statisticsMatch filter) (map_to_list (weather_statistics db))).

(** [GetStatistics]: the count of the rows the filter selects, then the
    page LIMIT $n OFFSET $n+1 of them. The server rejects a negative
    LIMIT or OFFSET. *)
Definition GetStatistics (filter : StatisticsFilter.t) (db : DB)
  : (list WeatherStatistics.t * Z + error) * DB :=
  match statement db with
  | (Some err, db) => (inr (Errorf_w "failed to count statistics" err), db)
  | (None, db) =>
      let totalCount := Z.of_nat (length (selectStatistics filter db)) in
      match statement db with
      | (Some err, db) => (inr (Errorf_w "failed to get statistics" err), db)
      | (None, db) =>
          if StatisticsFilter.Limit filter <? 0 then
            (inr (Errorf_w "failed to get statistics"
                    (errorString "pq: LIMIT must not be negative")), db)
          else if StatisticsFilter.Offset filter <? 0 then
            (inr (Errorf_w "failed to get statistics"
                    (errorString "pq: OFFSET must not be negative")), db)
          else
            (inl (scanStatistics <$>
                    take (Z.to_nat (StatisticsFilter.Limit filter))
                      (drop (Z.to_nat (StatisticsFilter.Offset filter))
                         (selectStatistics filter db)),
                  totalCount), db)
      end
  end.

#[export] Instance statisticsReader : reader.StatisticsReader DB := {|
  reader.GetStatistics := GetStatistics
|}.

(** The surrogate key of a row of [weather_observations]. *)
Variable observationID : string * GoTime.Date -> Z.

(** A row of [weather_observations] scanned into the struct. *)
Definition scanObservation (kv : string * GoTime.Date * ObservationRow.t)
  : WeatherObservation.t :=
  WeatherObservation.mk (observationID kv.1) kv.1.1 kv.1.2
    (numericOut <$> ObservationRow.max_temperature_celsius kv.2)
    (numericOut <$> ObservationRow.min_temperature_celsius kv.2)
    (numericOut <$> ObservationRow.precipitation_cm kv.2)
    (ObservationRow.created_at kv.2).

(** The order of the dates: [a <= b]. *)
Definition dateLe (a b : GoTime.Date) : bool :=
  (GoTime.year a <? GoTime.year b)
  || (GoTime.year a =? GoTime.year b)
     && ((GoTime.month a <? GoTime.month b)
         || (GoTime.month a =? GoTime.month b) && (GoTime.day a <=? GoTime.day b)).

(** WHERE 1=1 [AND station_id = $n] [AND observation_date >= $n]
    [AND observation_date <= $n]. *)
Definition observationMatch (filter : ObservationFilter.t)
    (kv : string * GoTime.Date * ObservationRow.t) : bool :=
  match ObservationFilter.StationID filter with
  | Some stationID => String.eqb kv.1.1 stationID
  | None => true
  end
  && match ObservationFilter.StartDate filter with
     | Some startDate => dateLe startDate kv.1.2
     | None => true
     end
  && match ObservationFilter.EndDate filter with
     | Some endDate => dateLe kv.1.2 endDate
     | None => true
     end.

(** ORDER BY observation_date DESC, station_id. *)
Definition observationBefore (a b : string * GoTime.Date * ObservationRow.t) : Prop :=
  (dateLe a.1.2 b.1.2 = false) \/ (a.1.2 = b.1.2 /\ String.le a.1.1 b.1.1).

#[local] Instance observationBefore_dec : RelDecision observationBefore.
Proof. intros a b. unfold observationBefore. apply _. Defined.

(** The rows the filter selects, in the order of the query. *)
Definition selectObservations (filter : ObservationFilter.t) (db : DB)
  : list (string * GoTime.Date * ObservationRow.t) :=
  merge_sort observationBefore
    (List.filter (observationMatch filter) (map_to_list (weather_observations db))).

(** [GetObservations]: the count of the rows the filter selects, then
    the page LIMIT $n OFFSET $n+1 of them. *)
Definition GetObservations (filter : ObservationFilter.t) (db : DB)
  : (list WeatherObservation.t * Z + error) * DB :=
  match statement db with
  | (Some err, db) => (inr (Errorf_w "failed to count observations" err), db)
  | (None, db) =>
      let totalCount := Z.of_nat (length (selectObservations filter db)) in
      match statement db with
      | (Some err, db) => (inr (Errorf_w "failed to get observations" err), db)
      | (None, db) =>
          if ObservationFilter.Limit filter <? 0 then
            (inr (Errorf_w "failed to get observations"
                    (errorString "pq: LIMIT must not be negative")), db)
          else if ObservationFilter.Offset filter <? 0 then
            (inr (Errorf_w "failed to get observations"
                    (errorString "pq: OFFSET must not be negative")), db)
          else
            (inl (scanObservation <$>
                    take (Z.to_nat (ObservationFilter.Limit filter))
                      (drop (Z.to_nat (ObservationFilter.Offset filter))
                         (selectObservations filter db)),
                  totalCount), db)
      end
  end.

#[export] Instance observationReader : reader.ObservationReader DB := {|
  reader.GetObservations := GetObservations
|}.

End Queries.

End postgres.

(* ===================================================================== *)
(** * internal/handlers: the API over the statistics and observations     *)
(* ===================================================================== *)

Module handlers.

Import GoError reader.

(** What a handler reads of the request: the path, the method and
    [r.URL.Query().Get(key)], which is empty for a parameter that is
    not given. *)
Record Request : Type := mkRequest {
  Path : string;
  Method : string;
  Query : string -> string
}.

(** [handlers.ErrorResponse]. *)
Module ErrorResponse.
Record t : Type := mk {
  Error : string;
  Message : string;
  Code : Z
}.
End ErrorResponse.

(** [handlers.PaginatedResponse], with the type of [Data]. *)
Module PaginatedResponse.
Record t (A : Type) : Type := mk {
  Data : A;
  Total : Z;
  Page : Z;
  Limit : Z;
  TotalPages : Z
}.
Arguments mk {A} Data Total Page Limit TotalPages.
Arguments Data {A} t.
Arguments Total {A} t.
Arguments Page {A} t.
Arguments Limit {A} t.
Arguments TotalPages {A} t.
End PaginatedResponse.

(** What [sendJSON] encodes. *)
Inductive Body : Type :=
| errorBody (e : ErrorResponse.t)
| statisticsBody (p : PaginatedResponse.t (list WeatherStatistics.t))
| observationsBody (p : PaginatedResponse.t (list WeatherObservation.t)).

(** The answer: the status code written and the body encoded behind
    the header [Content-Type: application/json]. *)
Record Response : Type := mkResponse {
  StatusCode : Z;
  body : Body
}.

(** The calls a handler makes on the collector and the logger. The
    durations and the logged filter are left out. *)
Inductive Call : Type :=
| ObserveAPIRequestDuration (endpoint : string)
| RecordAPIRequest (endpoint method status : string)
| RecordAPIError (errorType endpoint : string)
| LogAPIError (message : string) (err : error).

(** The state a handler runs in: the repository behind the service and
    the calls made so far, latest first. *)
Record Served (R : Type) : Type := mkServed {
  store : R;
  calls : list Call
}.
Arguments mkServed {R} store calls.
Arguments store {R} s.
Arguments calls {R} s.

(** [page := 1; if pageStr != "" { if p, err := strconv.Atoi(pageStr);
    err == nil && p > 0 { page = p } }]. *)
Definition pageOf (pageStr : string) : Z :=
  if String.eqb pageStr "" then 1
  else
    match GoStrconv.Atoi pageStr with
    | inl p => if 0 <? p then p else 1
    | inr _ => 1
    end.

(** [limit := 100; if limitStr != "" { if l, err :=
    strconv.Atoi(limitStr); err == nil && l > 0 && l <= 1000
    { limit = l } }]. *)
Definition limitOf (limitStr : string) : Z :=
  if String.eqb limitStr "" then 100
  else
    match GoStrconv.Atoi limitStr with
    | inl l => if (0 <? l) && (l <=? 1000) then l else 100
    | inr _ => 100
    end.

(** [offset := (page - 1) * limit]. *)
Definition offsetOf (page limit : Z) : Z := GoIntOps.mul (GoIntOps.sub page 1) limit.

(** [totalPages := (total + limit - 1) / limit]. *)
Definition totalPagesOf (total limit : Z) : Z :=
  GoIntOps.quo (GoIntOps.sub (GoInt.add total limit) 1) limit.

(** [if stationID != "" { filter.StationID = &stationID }]. *)
Definition stationOf (stationID : string) : option string :=
  if String.eqb stationID "" then None else Some stationID.

Section WithRepository.

Context {R : Type}.

Definition record (c : Call) (s : Served R) : Served R :=
  mkServed (store s) (c :: calls s).

Definition setStore (r : R) (s : Served R) : Served R := mkServed r (calls s).

(** [sendError]. *)
Definition sendError (r : Request) (message : string) (statusCode : Z) (s : Served R)
  : Response * Served R :=
  (mkResponse statusCode
     (errorBody (ErrorResponse.mk (GoHTTP.StatusText statusCode) message statusCode)),
   record (RecordAPIRequest (Path r) (Method r) (pretty statusCode)) s).

(** The deferred observation of the duration, made when the handler
    returns. *)
Definition observed (endpoint : string) (out : Response * Served R)
  : Response * Served R :=
  (out.1, record (ObserveAPIRequestDuration endpoint) out.2).

(** [GetStatistics]: GET /api/weather/stats. *)
Definition GetStatistics `{StatisticsReader R} (r : Request) (s : Served R)
  : Response * Served R :=
  observed "/api/weather/stats"
    (let stationID := Query r "station_id" in
     let yearStr := Query r "year" in
     let page := pageOf (Query r "page") in
     let limit := limitOf (Query r "limit") in
     let offset := offsetOf page limit in
     let filter := StatisticsFilter.mk (stationOf stationID) None limit offset in
     let checked :=
       if String.eqb yearStr "" then Some filter
       else
         match GoStrconv.Atoi yearStr with
         | inl year =>
             if (year <? 1985) || (2014 <? year) then None
             else Some (StatisticsFilter.mk (stationOf stationID) (Some year) limit offset)
         | inr _ => None
         end in
     match checked with
     | None =>
         sendError r "invalid year, expected integer between 1985 and 2014"
           GoHTTP.StatusBadRequest s
     | Some filter =>
         match reader.GetStatistics filter (store s) with
         | (inr err, r') =>
             let s := setStore r' s in
             let s :=
               record (LogAPIError
                         "[API_GET_STATISTICS_ERROR] Failed to get statistics" err) s in
             let s := record (RecordAPIError "internal_error" "/api/weather/stats") s in
             sendError r "failed to retrieve statistics"
               GoHTTP.StatusInternalServerError s
         | (inl (statistics, total), r') =>
             let s := setStore r' s in
             let response :=
               PaginatedResponse.mk statistics total page limit
                 (totalPagesOf total limit) in
             (mkResponse GoHTTP.StatusOK (statisticsBody response),
              record (RecordAPIRequest "/api/weather/stats" "GET" "200") s)
         end
     end).

(** The two dates of GET /api/weather, [start_date] first: the filter,
    or the message of the answer 400. *)
Definition datesOf (startDateStr endDateStr : string)
  : (option GoTime.Date * option GoTime.Date) + string :=
  let start :=
    if String.eqb startDateStr "" then inl None
    else
      match GoTime.ParseISODate startDateStr with
      | Some d => inl (Some d)
      | None => inr "invalid start_date format, expected YYYY-MM-DD"
      end in
  match start with
  | inr message => inr message
  | inl startDate =>
      if String.eqb endDateStr "" then inl (startDate, None)
      else
        match GoTime.ParseISODate endDateStr with
        | Some d => inl (startDate, Some d)
        | None => inr "invalid end_date format, expected YYYY-MM-DD"
        end
  end.

(** [GetObservations]: GET /api/weather. *)
Definition GetObservations `{ObservationReader R} (r : Request) (s : Served R)
  : Response * Served R :=
  observed "/api/weather"
    (let stationID := Query r "station_id" in
     let page := pageOf (Query r "page") in
     let limit := limitOf (Query r "limit") in
     let offset := offsetOf page limit in
     match datesOf (Query r "start_date") (Query r "end_date") with
     | inr message => sendError r message GoHTTP.StatusBadRequest s
     | inl (startDate, endDate) =>
         let filter :=
           ObservationFilter.mk (stationOf stationID) startDate endDate limit offset in
         match reader.GetObservations filter (store s) with
         | (inr err, r') =>
             let s := setStore r' s in
             let s :=
               record (LogAPIError
                         "[API_GET_OBSERVATIONS_ERROR] Failed to get observations" err) s in
             let s := record (RecordAPIError "internal_error" "/api/weather") s in
             sendError r "failed to retrieve observations"
               GoHTTP.StatusInternalServerError s
         | (inl (observations, total), r') =>
             let s := setStore r' s in
             let response :=
               PaginatedResponse.mk observations total page limit
                 (totalPagesOf total limit) in
             (mkResponse GoHTTP.StatusOK (observationsBody response),
              record (RecordAPIRequest "/api/weather" "GET" "200") s)
         end
     end).

End WithRepository.

End handlers.

(* ===================================================================== *)
(** * The vocabulary of the specification                                 *)
(* ===================================================================== *)

Module Spec.

Import GoError repository.

(** ** Dates and integers as the specification words them *)

Definition isDigit (c : N) : bool := ((48 <=? c) && (c <=? 57))%N.

(** The number a sequence of decimal digits denotes, continuing [n]. *)
Definition decimalFrom (n : Z) (bs : list N) : Z :=
  fold_left (fun n c => n * 10 + (Z.of_N c - 48)) bs n.

Definition decimal (bs : list N) : Z := decimalFrom 0 bs.

Definition leapYear (y : Z) : bool :=
  (y mod 4 =? 0) && (negb (y mod 100 =? 0) || (y mod 400 =? 0)).

Definition daysInMonth (y m : Z) : Z :=
  match m with
  | 2 => if leapYear y then 29 else 28
  | 4 | 6 | 9 | 11 => 30
  | _ => 31
  end.

(** The date a string of exactly eight digits YYYYMMDD denotes, when
    month and day exist in the calendar; [None] for anything else. *)
Definition calendarDate (s : string) : option GoTime.Date :=
  let bs := GoStrings.bytes s in
  if (length bs =? 8)%nat && forallb isDigit bs then
    let y := decimal (firstn 4 bs) in
    let m := decimal (firstn 2 (skipn 4 bs)) in
    let d := decimal (skipn 6 bs) in
    if (1 <=? m) && (m <=? 12) && (1 <=? d) && (d <=? daysInMonth y m)
    then Some (GoTime.mkDate y m d)
    else None
  else None.

(** The integer a string denotes: an optional sign, then one decimal
    digit or more, the value within the range of [int]. *)
Definition integerLiteral (s : string) : option Z :=
  let bs := GoStrings.bytes s in
  let '(neg, digits) :=
    match bs with
    | c :: rest =>
        if (c =? 45)%N then (true, rest)
        else if (c =? 43)%N then (false, rest)
        else (false, bs)
    | [] => (false, [])
    end in
  match digits with
  | [] => None
  | _ :: _ =>
      if forallb isDigit digits then
        let v := if neg then - decimal digits else decimal digits in
        if (GoInt.minInt <=? v) && (v <=? GoInt.maxInt) then Some v else None
      else None
  end.

(** ** Lines and fields *)

(** Putting the separator back between the pieces of a split. *)
Fixpoint joinWith (sep : ascii) (pieces : list string) : string :=
  match pieces with
  | [] => ""
  | [p] => p
  | p :: rest => p +:+ String sep (joinWith sep rest)
  end.

(** How many times a byte occurs in a string. *)
Fixpoint occurrences (sep : ascii) (s : string) : nat :=
  match s with
  | EmptyString => 0
  | String c s' => (if Ascii.eqb c sep then 1 else 0) + occurrences sep s'
  end.

(** The counters of a file hold values of type [int]. *)
Definition wrapped (r : FileIngestionResult.t) : Prop :=
  GoInt.wrap (FileIngestionResult.TotalRecords r) = FileIngestionResult.TotalRecords r /\
  GoInt.wrap (FileIngestionResult.SuccessfulRecords r)
    = FileIngestionResult.SuccessfulRecords r /\
  GoInt.wrap (FileIngestionResult.FailedRecords r) = FileIngestionResult.FailedRecords r.

(** ** Batches *)

Section Batches.

Context {A : Type}.

(** Cutting a sequence into batches as items arrive: [cur] is the
    batch being filled; a batch is closed as soon as it holds [n]
    items. The result is the closed batches and the batch left open. *)
Fixpoint splitBatches (n : nat) (cur : list A) (l : list A)
  : list (list A) * list A :=
  match l with
  | [] => ([], cur)
  | x :: l' =>
      let cur' := cur ++ [x] in
      if (n <=? length cur')%nat
      then let '(bs, r) := splitBatches n [] l' in (cur' :: bs, r)
      else splitBatches n cur' l'
  end.

(** The batches of a whole sequence: the closed ones, then what is
    left when it is not empty. *)
Definition batches (n : nat) (l : list A) : list (list A) :=
  let '(bs, r) := splitBatches n [] l in
  bs ++ match r with [] => [] | _ :: _ => [r] end.

End Batches.

Section WithRepository.

Context {R : Type} `{WeatherRepository R}.
Variable wall : nat -> GoTime.Instant.

(** Parsing then normalising one line. *)
Definition normalize (now : GoTime.Instant) (line stationID : string)
  : option WeatherObservation.t :=
  match services.parseLine line with
  | inl record =>
      match models.ToObservation now record stationID with
      | inl obs => Some obs
      | inr _ => None
      end
  | inr _ => None
  end.

(** The observations the lines of a file yield, in order, when [n]
    readings of the clock have been taken before the first line. *)
Fixpoint observationsOf (stationID : string) (ls : list string) (n : nat)
  : list WeatherObservation.t :=
  match ls with
  | [] => []
  | line :: rest =>
      match normalize (wall n) line stationID with
      | Some obs => obs :: observationsOf stationID rest (S n)
      | None => observationsOf stationID rest n
      end
  end.

(** Flushing batches one after the other, stopping at the first
    flush that fails. *)
Fixpoint flushAll (bs : list (list WeatherObservation.t)) (r : R)
  : option error * R :=
  match bs with
  | [] => (None, r)
  | b :: rest =>
      match CreateObservationsBatch b r with
      | (Some err, r') => (Some err, r')
      | (None, r') => flushAll rest r'
      end
  end.

End WithRepository.

(** ** Stations *)

(** The station a file holds the data of: its base name without the
    extension. *)
Definition stationIDOf (filePath : string) : string :=
  GoStrings.TrimSuffix (GoFilepath.Base filePath)
    (GoFilepath.Ext (GoFilepath.Base filePath)).

(** The station [ingestFile] creates for a file when [n] readings of
    the clock have been taken. *)
Definition stationFor (wall : nat -> GoTime.Instant) (filePath : string) (n : nat)
  : WeatherStation.t :=
  WeatherStation.mk (stationIDOf filePath)
    (services.extractStateFromStationID (stationIDOf filePath))
    (wall n) (wall (S n)).

(** The result of a file all of whose batches were flushed: [total]
    lines, [successful] of them stored. *)
Definition fileCounts (total successful : nat) : FileIngestionResult.t :=
  FileIngestionResult.mk
    (GoInt.wrap (Z.of_nat total))
    (GoInt.wrap (Z.of_nat successful))
    (GoInt.wrap (Z.of_nat total - Z.of_nat successful)).

(** ** The store *)

(** Two states of the store with the same rows. *)
Definition sameTables (db db' : postgres.DB) : Prop :=
  postgres.weather_stations db' = postgres.weather_stations db /\
  postgres.weather_observations db' = postgres.weather_observations db /\
  postgres.weather_statistics db' = postgres.weather_statistics db.

(** The identity of an observation. *)
Definition keyOf (obs : WeatherObservation.t) : string * GoTime.Date :=
  (WeatherObservation.StationID obs, WeatherObservation.ObservationDate obs).

(** The table once every observation of a batch has been upserted. *)
Definition upsertAll (observations : list WeatherObservation.t)
    (t : gmap (string * GoTime.Date) ObservationRow.t)
  : gmap (string * GoTime.Date) ObservationRow.t :=
  fold_left (fun t obs => postgres.upsertObservation obs t) observations t.

(** What a recomputation leaves alone, with respect to the store [db0]
    it started from: the observations, and the statistic of the
    station and year [k]. *)
Definition untouched (db0 : postgres.DB) (k : string * Z) (w : World postgres.DB)
  : Prop :=
  postgres.weather_observations (repo w) = postgres.weather_observations db0 /\
  postgres.weather_statistics (repo w) !! k = postgres.weather_statistics db0 !! k.

(** A server that rejects every statement. *)
Definition rejectsAll (db : postgres.DB) : Prop :=
  forall n, postgres.rejects db n <> None.

(** ** The log of a recomputation *)

(** The fields of an event of the log. *)
Definition fieldsOf (e : Event) : list (string * fieldValue) :=
  match e with
  | LogInfo _ fields => fields
  | LogError _ fields _ => fields
  | _ => []
  end.

(** An event about a station: the station is its field [station_id]. *)
Definition mentions (stationID : string) (e : Event) : Prop :=
  In ("station_id", VString stationID) (fieldsOf e).

(** The event a station is logged with once its years are done. *)
Definition stationComplete (stationID : string) : Event :=
  LogInfo "[STATS_STATION_COMPLETE] Station statistics calculated"
    [("station_id", VString stationID)].

(** The event a calculation that fails with the message [msg] is
    logged with. *)
Definition calculationFailed (stationID : string) (year : Z) (msg : string) : Event :=
  LogError "[STATS_CALC_ERROR] Failed to calculate statistics"
    [("station_id", VString stationID); ("year", VInt year)]
    (Errorf_w "failed to calculate statistics" (errorString msg)).

(** The event a recomputation ends with. *)
Definition calculationComplete (totalStations totalStatistics : Z) : Event :=
  LogInfo "[STATS_CALC_COMPLETE] Statistics calculation completed"
    [("total_stations", VInt totalStations);
     ("total_statistics", VInt totalStatistics);
     ("stage", VString "COMPLETE")].

(** [grown ids old evs]: the log [evs] is the log [old] with events
    added, each about no station outside [ids]. *)
Definition grown (ids : list string) (old evs : list Event) : Prop :=
  exists new,
    evs = new ++ old /\
    forall e id, In e new -> mentions id e -> In id ids.

(** ** The report *)

(** The line [main] prints for one error string. *)
Definition reportLine (errMsg : string) : string :=
  "  - " +:+ errMsg +:+ ingester.newline.

(** ** Aggregates in binary64, to run the PostgreSQL repository on
    examples *)

Definition binary64Sum (cells : list Float64.t) : Float64.t :=
  fold_left Float64.add cells (Float64.ofInt 0).

Definition binary64Avg (cells : list Float64.t) : Float64.t :=
  Float64.div (binary64Sum cells) (Float64.ofInt (Z.of_nat (length cells))).

(** An empty store on a connection that rejects nothing. *)
Definition emptyDB : postgres.DB :=
  postgres.mkDB ∅ ∅ ∅ (fun _ => None) 0 (fun n => Z.of_nat n) 0.

(** The same store behind a server that cannot be reached. *)
Definition unreachableDB : postgres.DB :=
  postgres.mkDB ∅ ∅ ∅ (fun _ => Some "dial tcp: connection refused") 0
    (fun n => Z.of_nat n) 0.

(** ** A catalogue of 10001 stations *)

(** ["S00000"], ..., ["S10000"]: the identifier of the [i]-th station. *)
Definition stationName (i : nat) : string :=
  let digits := pretty (Z.of_nat i) in
  "S" +:+ string_of_list_ascii (replicate (5 - String.length digits) "0"%char) +:+ digits.

Definition june1st2000 : GoTime.Date := GoTime.mkDate 2000 6 1.

(** A reading of 25.0 / 15.0 degrees and 1.0 cm. *)
Definition sampleRow : ObservationRow.t :=
  ObservationRow.mk (Some (Float64.ofInt 25)) (Some (Float64.ofInt 15))
    (Some (Float64.ofInt 1)) 0.

(** A store with [n] stations; the first and the last of them have one
    observation each, on 1 June 2000. Its clock stands still. *)
Definition catalogue (n : nat) : postgres.DB :=
  postgres.mkDB
    (list_to_map ((fun i => (stationName i, StationRow.mk "S0" 0 0)) <$> seq 0 n))
    (<[(stationName 0, june1st2000) := sampleRow]>
       (<[(stationName (n - 1), june1st2000) := sampleRow]> ∅))
    ∅ (fun _ => None) 0 (fun _ => 0) 0.

Definition bigCatalogue : postgres.DB := catalogue (Z.to_nat 10001).

(** What the example of the cut at [n] stations rests on, checked on a
    store: the table holds [n + 1] stations, [missingID] is one of
    them, and the first [n] in order are [n] stations, [listedID] one
    of them and [missingID] none of them. *)
Definition cutOff (db : postgres.DB) (n : nat) (listedID missingID : string) : bool :=
  let listed := WeatherStation.StationID <$> take n (postgres.stationsInOrder db) in
  (size (postgres.weather_stations db) =? S n)%nat
  && match postgres.weather_stations db !! missingID with
     | Some _ => true
     | None => false
     end
  && (length listed =? n)%nat
  && existsb (String.eqb listedID) listed
  && forallb (fun id => negb (String.eqb missingID id)) listed.

(** ** Directories *)

(** The paths of [n] data files. *)
Definition dataFiles (n : nat) : list string :=
  (fun i => "/wx_data/" +:+ stationName i +:+ ".txt") <$> seq 0 n.

(** A directory of [n] files, each empty. *)
Definition directoryOf (n : nat) : FileSystem :=
  mkFileSystem (fun _ => inl (dataFiles n)) (fun _ => inl (mkScannedFile [] None)).

(** A line of an input file from its four fields. *)
Definition tabbed (date maxT minT precip : string) : string :=
  date +:+ String GoStrings.tab (maxT +:+ String GoStrings.tab
    (minT +:+ String GoStrings.tab precip)).


(** A file of five lines for station USC00110072: two good readings, a
    reading with a missing maximum, a date in the wrong shape and a
    line that is not a record. *)
Definition sampleFile : ScannedFile :=
  mkScannedFile
    [tabbed "20000115" "250" "150" "100";
     tabbed "20000116" "-9999" "150" "100";
     tabbed "2000-01-17" "250" "150" "100";
     "not a record";
     tabbed "20010101" "255" "144" "123"]
    None.

Definition samplePath : string := "/wx_data/USC00110072.txt".

(** A directory holding that file alone. *)
Definition sampleDirectory : FileSystem :=
  mkFileSystem (fun _ => inl [samplePath]) (fun _ => inl sampleFile).

(** An empty store on a connection that rejects its [n]-th statement
    and no other. *)
Definition rejectingAt (n : nat) : postgres.DB :=
  postgres.mkDB ∅ ∅ ∅
    (fun k => if Nat.eqb k n then Some "pq: numeric field overflow" else None)
    0 (fun n => Z.of_nat n) 0.

Definition secondPath : string := "/wx_data/USC00110187.txt".

(** A directory of two files, each with the lines of the sample file. *)
Definition twoFiles : FileSystem :=
  mkFileSystem (fun _ => inl [samplePath; secondPath]) (fun _ => inl sampleFile).

(** The repository of the examples, and the world they start in. *)
Definition sampleRepository : WeatherRepository postgres.DB :=
  postgres.weatherRepository binary64Avg binary64Sum.

Definition stillClock : nat -> GoTime.Instant := fun _ => 0.

Definition emptyWorld : World postgres.DB := mkWorld emptyDB [] 0.

(** ** The files of a run *)

Section Run.

Context {R : Type} `{WeatherRepository R}.
Variable wall : nat -> GoTime.Instant.
Variable fs : FileSystem.
Variable batchSize : Z.

(** [fileOutcomes files w outs]: from the world [w], the files are
    ingested one after the other and [outs] are the outcomes of
    [ingestFile], in the order of the files; each file starts on the
    repository and at the clock reading the file before it left. *)
Inductive fileOutcomes
  : list string -> World R -> list (result FileIngestionResult.t) -> Prop :=
| outcomes_nil (w : World R) : fileOutcomes [] w []
| outcomes_cons (filePath : string) (rest : list string) (w w1 w2 : World R)
    (out : result FileIngestionResult.t) (outs : list (result FileIngestionResult.t)) :
    services.ingestFile wall fs filePath batchSize w = (out, w1) ->
    repo w2 = repo w1 ->
    readings w2 = readings w1 ->
    fileOutcomes rest w2 outs ->
    fileOutcomes (filePath :: rest) w (out :: outs).

End Run.

(** The error string of a file in the result of a run: none unless the
    file failed. *)
Definition errorOf (filePath : string) (out : result FileIngestionResult.t)
  : option string :=
  match out with
  | failed err => Some ("failed to ingest " +:+ filePath +:+ ": " +:+ Error err)
  | _ => None
  end.

(** The error strings of the files that failed, in the order of the
    files. *)
Fixpoint errorsOf (files : list string) (outs : list (result FileIngestionResult.t))
  : list string :=
  match files, outs with
  | filePath :: files, out :: outs =>
      match errorOf filePath out with
      | Some msg => msg :: errorsOf files outs
      | None => errorsOf files outs
      end
  | _, _ => []
  end.

(** How many of the files failed. *)
Definition failures (outs : list (result FileIngestionResult.t)) : nat :=
  length (List.filter (fun out => match out with failed _ => true | _ => false end) outs).

(** The result [IngestDirectory] starts its loop with. *)
Definition noFileYet (files : list string) : IngestionResult.t :=
  IngestionResult.mk (Z.of_nat (length files)) 0 0 0 0 0 [].

End Spec.

(* ===================================================================== *)
(** * Examples to run the code on                                         *)
(* ===================================================================== *)

Module Examples.

(** A reading of 15 January 2000 at station USC00110072: 25.0 and 15.0
    degrees, 1.0 cm, handed to the repository at [createdAt]. *)
Definition reading (createdAt : GoTime.Instant) : WeatherObservation.t :=
  WeatherObservation.mk 0 "USC00110072" (GoTime.mkDate 2000 1 15)
    (Some (Float64.ofInt 25)) (Some (Float64.ofInt 15)) (Some (Float64.ofInt 1))
    createdAt.

(** Station USC00110072 with a given state, created at [createdAt]. *)
Definition station (state : string) (createdAt : GoTime.Instant) : WeatherStation.t :=
  WeatherStation.mk "USC00110072" state createdAt createdAt.

(** The statistic of station USC00110072 for 2000 over two observations,
    one of them without a maximum and without precipitation. *)
Definition statistic : WeatherStatistics.t :=
  WeatherStatistics.mk 0 "USC00110072" 2000
    (Some (Float64.ofInt 25)) (Some (Float64.ofInt 14)) (Some (Float64.ofInt 1))
    2 1 2 1 5 5.

(** The store once that statistic is saved. *)
Definition withStatistic : postgres.DB :=
  (postgres.UpsertStatistics statistic Spec.emptyDB).2.

(** The store once that statistic and the one of 2001 at the same
    station are saved, the older one last. *)
Definition withTwoStatistics : postgres.DB :=
  (postgres.UpsertStatistics statistic
     (postgres.UpsertStatistics
        (WeatherStatistics.mk 0 "USC00110072" 2001 None None None 0 0 0 0 6 6)
        Spec.emptyDB).2).2.

(** The error of the driver for a row it finds no field for. *)
Definition missingDestination : string :=
  "missing destination name observation_count in *struct { ObservationCount int; " +:+
  "ValidMaxTempCount int; ValidMinTempCount int; ValidPrecipitationCount int; " +:+
  "AvgMaxTemperatureCelsius *float64; AvgMinTemperatureCelsius *float64; " +:+
  "TotalPrecipitationCm *float64 }".

(** Two stations with an observation each and no statistic, on a
    connection that accepts the first statement, the listing of the
    stations, and fails every later one with that error. *)
Definition unscannable : postgres.DB :=
  postgres.mkDB (postgres.weather_stations (Spec.catalogue 2))
    (postgres.weather_observations (Spec.catalogue 2)) ∅
    (fun n => match n with O => None | S _ => Some missingDestination end)
    0 (fun _ => 0) 0.

(** A GET request from its path and its query parameters. *)
Definition get (path : string) (params : list (string * string)) : handlers.Request :=
  handlers.mkRequest path "GET"
    (fun key =>
       match List.find (fun kv => String.eqb kv.1 key) params with
       | Some kv => kv.2
       | None => ""
       end).

(** The repository of the examples as the API reads it: every row has
    the surrogate key 1 and a NUMERIC gives back what was written. *)
Definition sampleReader : reader.StatisticsReader postgres.DB :=
  postgres.statisticsReader (fun _ => 1) (fun x => x).

Definition sampleObservationReader : reader.ObservationReader postgres.DB :=
  postgres.observationReader (fun x => x) (fun _ => 1).

(** The store once the sample file is ingested in batches of two. *)
Definition ingested : postgres.DB :=
  repo (services.ingestFile (H := Spec.sampleRepository) Spec.stillClock
          Spec.sampleDirectory Spec.samplePath 2 Spec.emptyWorld).2.

End Examples.

(* ===================================================================== *)
(** * The vocabulary of the further properties                            *)
(* ===================================================================== *)

Module Terms.

(** The date a string of ten bytes YYYY-MM-DD denotes, when its digits
    are digits and month and day exist in the calendar; [None] for
    anything else. *)
Definition isoDate (s : string) : option GoTime.Date :=
  match GoStrings.bytes s with
  | [y1; y2; y3; y4; h1; m1; m2; h2; d1; d2] =>
      if ((h1 =? 45) && (h2 =? 45))%N
         && forallb Spec.isDigit [y1; y2; y3; y4; m1; m2; d1; d2]
      then
        let y := Spec.decimal [y1; y2; y3; y4] in
        let m := Spec.decimal [m1; m2] in
        let d := Spec.decimal [d1; d2] in
        if (1 <=? m) && (m <=? 12) && (1 <=? d) && (d <=? Spec.daysInMonth y m)
        then Some (GoTime.mkDate y m d)
        else None
      else None
  | _ => None
  end.


(** An observation answers the query of a request: its station is the
    one asked for, and its date is not before [start_date] and not
    after [end_date], when they are asked for. *)
Definition within (stationID startDateStr endDateStr : string)
    (obs : WeatherObservation.t) : Prop :=
  (stationID <> "" -> WeatherObservation.StationID obs = stationID) /\
  (startDateStr <> "" ->
   exists d, isoDate startDateStr = Some d /\
             postgres.dateLe d (WeatherObservation.ObservationDate obs) = true) /\
  (endDateStr <> "" ->
   exists d, isoDate endDateStr = Some d /\
             postgres.dateLe (WeatherObservation.ObservationDate obs) d = true).

(** [a] may be listed before [b] in the order of the years, the latest
    first, and of the stations within a year. *)
Definition listedBefore (a b : WeatherStatistics.t) : Prop :=
  WeatherStatistics.Year b < WeatherStatistics.Year a \/
  (WeatherStatistics.Year a = WeatherStatistics.Year b /\
   String.le (WeatherStatistics.StationID a) (WeatherStatistics.StationID b)).

(** [a] is listed before [b] when the newest come first. *)
Definition notOlder (a b : WeatherObservation.t) : Prop :=
  postgres.dateLe (WeatherObservation.ObservationDate b)
    (WeatherObservation.ObservationDate a) = true.

End Terms.

(* ===================================================================== *)
(** * Properties: machine integers and decimal digits *)
(* ===================================================================== *)

Import GoError repository.

(** ** Machine integers *)

Lemma wrap_small z : GoInt.minInt <= z <= GoInt.maxInt -> GoInt.wrap z = z.
Proof.
  unfold GoInt.minInt, GoInt.maxInt, GoInt.wrap. intros Hz.
  rewrite Z.mod_small by lia. lia.
Qed.

Lemma wrap_range z : GoInt.minInt <= GoInt.wrap z <= GoInt.maxInt.
Proof.
  unfold GoInt.minInt, GoInt.maxInt, GoInt.wrap.
  pose proof (Z.mod_pos_bound (z + 2 ^ 63) (2 ^ 64) ltac:(lia)). lia.
Qed.

Lemma wrap_add_l a b : GoInt.wrap (GoInt.wrap a + b) = GoInt.wrap (a + b).
Proof.
  unfold GoInt.wrap.
  replace ((a + 2 ^ 63) mod 2 ^ 64 - 2 ^ 63 + b + 2 ^ 63)
    with ((a + 2 ^ 63) mod 2 ^ 64 + b) by lia.
  rewrite Zplus_mod_idemp_l. do 2 f_equal. lia.
Qed.

Lemma wrap_add_r a b : GoInt.wrap (a + GoInt.wrap b) = GoInt.wrap (a + b).
Proof. rewrite (Z.add_comm a (GoInt.wrap b)), wrap_add_l, (Z.add_comm b a). reflexivity. Qed.

Lemma wrap_wrap a : GoInt.wrap (GoInt.wrap a) = GoInt.wrap a.
Proof. pose proof (wrap_add_l a 0) as H. rewrite !Z.add_0_r in H. exact H. Qed.

Lemma add_wrap_l a b : GoInt.add (GoInt.wrap a) b = GoInt.wrap (a + b).
Proof. apply wrap_add_l. Qed.

Lemma add_wrap_wrap a b : GoInt.add (GoInt.wrap a) (GoInt.wrap b) = GoInt.wrap (a + b).
Proof. unfold GoInt.add. rewrite wrap_add_l, wrap_add_r. reflexivity. Qed.

(** ** Decimal digits *)

Lemma isDigit_val c : Spec.isDigit c = true -> 0 <= Z.of_N c - 48 <= 9.
Proof.
  unfold Spec.isDigit. intros H%andb_true_iff. destruct H as [H1%N.leb_le H2%N.leb_le]. lia.
Qed.

Lemma decimalFrom_bounds bs : forall n,
  0 <= n -> forallb Spec.isDigit bs = true ->
  n * 10 ^ Z.of_nat (length bs) <= Spec.decimalFrom n bs
    < (n + 1) * 10 ^ Z.of_nat (length bs).
Proof.
  induction bs as [|c bs IH]; intros n Hn Hall.
  - cbn. lia.
  - cbn [forallb] in Hall. apply andb_true_iff in Hall as [Hc Hall].
    pose proof (isDigit_val c Hc) as Hd.
    change (Spec.decimalFrom n (c :: bs)) with (Spec.decimalFrom (n * 10 + (Z.of_N c - 48)) bs).
    specialize (IH (n * 10 + (Z.of_N c - 48)) ltac:(lia) Hall).
    cbn [length]. rewrite Nat2Z.inj_succ, Z.pow_succ_r by lia.
    assert (0 < 10 ^ Z.of_nat (length bs)) by (apply Z.pow_pos_nonneg; lia).
    nia.
Qed.

Lemma decimalFrom_ge bs n :
  0 <= n -> forallb Spec.isDigit bs = true -> n <= Spec.decimalFrom n bs.
Proof.
  intros Hn Hall. pose proof (decimalFrom_bounds bs n Hn Hall).
  assert (0 < 10 ^ Z.of_nat (length bs)) by (apply Z.pow_pos_nonneg; lia). nia.
Qed.

(** ** [strconv.Atoi] accepts the integer literals *)

Lemma fastLoop_spec bs : forall n,
  0 <= n -> (n + 1) * 10 ^ Z.of_nat (length bs) <= 2 ^ 63 ->
  GoStrconv.fastLoop bs n =
    if forallb Spec.isDigit bs then Some (Spec.decimalFrom n bs) else None.
Proof.
  induction bs as [|c bs IH]; intros n Hn Hb; [reflexivity|].
  cbn [GoStrconv.fastLoop forallb]. change (GoStrconv.isDigit c) with (Spec.isDigit c).
  destruct (Spec.isDigit c) eqn:Hc; [|reflexivity]. cbn [andb].
  pose proof (isDigit_val c Hc) as Hd.
  cbn [length] in Hb. rewrite Nat2Z.inj_succ, Z.pow_succ_r in Hb by lia.
  assert (0 < 10 ^ Z.of_nat (length bs)) by (apply Z.pow_pos_nonneg; lia).
  unfold GoStrconv.digitVal. rewrite add_wrap_l.
  rewrite wrap_small by (unfold GoInt.minInt, GoInt.maxInt; nia).
  rewrite IH by nia. reflexivity.
Qed.

Lemma parseUintLoop_spec bs : forall n,
  0 <= n <= GoStrconv.maxUint64 ->
  match GoStrconv.parseUintLoop bs n with
  | inl v =>
      forallb Spec.isDigit bs = true /\ v = Spec.decimalFrom n bs /\
      v <= GoStrconv.maxUint64
  | inr GoStrconv.ErrSyntax => forallb Spec.isDigit bs = false
  | inr GoStrconv.ErrRange =>
      forallb Spec.isDigit bs = false \/ GoStrconv.maxUint64 < Spec.decimalFrom n bs
  end.
Proof.
  induction bs as [|c bs IH]; intros n Hn.
  - cbn. lia.
  - cbn [GoStrconv.parseUintLoop forallb]. change (GoStrconv.isDigit c) with (Spec.isDigit c).
    destruct (Spec.isDigit c) eqn:Hc; [|reflexivity]. cbn [andb].
    pose proof (isDigit_val c Hc) as Hd.
    change (Spec.decimalFrom n (c :: bs)) with (Spec.decimalFrom (n * 10 + (Z.of_N c - 48)) bs).
    unfold GoStrconv.digitVal, GoStrconv.maxUint64 in *.
    destruct (Z.leb_spec ((2 ^ 64 - 1) / 10 + 1) n) as [Hcut|Hcut].
    + destruct (forallb Spec.isDigit bs) eqn:Hall; [right|left; reflexivity].
      pose proof (decimalFrom_ge bs (n * 10 + (Z.of_N c - 48)) ltac:(lia) Hall).
      change ((2 ^ 64 - 1) / 10 + 1) with 1844674407370955162 in Hcut. lia.
    + change ((2 ^ 64 - 1) / 10 + 1) with 1844674407370955162 in Hcut.
      rewrite (Z.mod_small (n * 10)) by lia.
      destruct (Z.lt_ge_cases (n * 10 + (Z.of_N c - 48)) (2 ^ 64)) as [Hfit|Hover].
      * rewrite (Z.mod_small (n * 10 + (Z.of_N c - 48))) by lia.
        destruct (Z.ltb_spec (n * 10 + (Z.of_N c - 48)) (n * 10)); [lia|].
        destruct (Z.ltb_spec (2 ^ 64 - 1) (n * 10 + (Z.of_N c - 48))); [lia|].
        cbn [orb]. apply IH. lia.
      * assert ((n * 10 + (Z.of_N c - 48)) mod 2 ^ 64 = n * 10 + (Z.of_N c - 48) - 2 ^ 64) as ->.
        { symmetry. apply Z.mod_unique with (q := 1); lia. }
        destruct (Z.ltb_spec (n * 10 + (Z.of_N c - 48) - 2 ^ 64) (n * 10)); [|lia].
        cbn [orb].
        destruct (forallb Spec.isDigit bs) eqn:Hall; [right|left; reflexivity].
        pose proof (decimalFrom_ge bs (n * 10 + (Z.of_N c - 48)) ltac:(lia) Hall). lia.
Qed.

Lemma pow10_18_le n : (n < 19)%nat -> 10 ^ Z.of_nat n <= 10 ^ 18.
Proof. intros Hn. apply Z.pow_le_mono_r; lia. Qed.

Lemma fastPath_digits digits :
  (length digits < 19)%nat ->
  GoStrconv.fastLoop digits 0 =
    (if forallb Spec.isDigit digits then Some (Spec.decimal digits) else None) /\
  (forallb Spec.isDigit digits = true -> 0 <= Spec.decimal digits < 10 ^ 18).
Proof.
  intros Hlen. pose proof (pow10_18_le _ Hlen) as Hp. split.
  - apply fastLoop_spec; [lia|]. change (2 ^ 63) with 9223372036854775808.
    change (10 ^ 18) with 1000000000000000000 in Hp. lia.
  - intros Hall. pose proof (decimalFrom_bounds digits 0 ltac:(lia) Hall) as Hb.
    unfold Spec.decimal. lia.
Qed.

Lemma fastPath_result (neg : bool) digits (s : string) :
  (length digits < 19)%nat ->
  match
    match digits with
    | [] => inr (GoStrconv.syntaxError "Atoi" s)
    | _ :: _ =>
        match GoStrconv.fastLoop digits 0 with
        | Some n => inl (if neg then GoInt.neg n else n)
        | None => inr (GoStrconv.syntaxError "Atoi" s)
        end
    end
  with
  | inl n =>
      match digits with
      | [] => None
      | _ :: _ =>
          if forallb Spec.isDigit digits
          then
            let v := if neg then - Spec.decimal digits else Spec.decimal digits in
            if (GoInt.minInt <=? v) && (v <=? GoInt.maxInt) then Some v else None
          else None
      end = Some n
  | inr e =>
      match digits with
      | [] => None
      | _ :: _ =>
          if forallb Spec.isDigit digits
          then
            let v := if neg then - Spec.decimal digits else Spec.decimal digits in
            if (GoInt.minInt <=? v) && (v <=? GoInt.maxInt) then Some v else None
          else None
      end = None /\ e = GoStrconv.mkNumError "Atoi" s (GoStrconv.Err e)
  end.
Proof.
  intros Hlen. destruct (fastPath_digits digits Hlen) as [Hloop Hrange].
  destruct digits as [|d ds]; [split; reflexivity|].
  rewrite Hloop. destruct (forallb Spec.isDigit (d :: ds)) eqn:Hall; [|split; reflexivity].
  specialize (Hrange eq_refl). change (10 ^ 18) with 1000000000000000000 in Hrange.
  cbv zeta. unfold GoInt.neg.
  assert (GoInt.minInt = -9223372036854775808) as Hmin by reflexivity.
  assert (GoInt.maxInt = 9223372036854775807) as Hmax by reflexivity.
  destruct neg.
  - rewrite wrap_small by lia.
    destruct (Z.leb_spec GoInt.minInt (- Spec.decimal (d :: ds))); [|lia].
    destruct (Z.leb_spec (- Spec.decimal (d :: ds)) GoInt.maxInt); [|lia]. reflexivity.
  - destruct (Z.leb_spec GoInt.minInt (Spec.decimal (d :: ds))); [|lia].
    destruct (Z.leb_spec (Spec.decimal (d :: ds)) GoInt.maxInt); [|lia]. reflexivity.
Qed.

Lemma slowPath_result (neg : bool) digits :
  match
    match GoStrconv.ParseUint digits with
    | inr GoStrconv.ErrSyntax => inr GoStrconv.ErrSyntax
    | inr GoStrconv.ErrRange => inr GoStrconv.ErrRange
    | inl un =>
        if negb neg && (2 ^ 63 <=? un) then inr GoStrconv.ErrRange
        else if neg && (2 ^ 63 <? un) then inr GoStrconv.ErrRange
        else inl (GoInt.wrap (if neg then - GoInt.wrap un else GoInt.wrap un))
    end
  with
  | inl n =>
      match digits with
      | [] => None
      | _ :: _ =>
          if forallb Spec.isDigit digits
          then
            let v := if neg then - Spec.decimal digits else Spec.decimal digits in
            if (GoInt.minInt <=? v) && (v <=? GoInt.maxInt) then Some v else None
          else None
      end = Some n
  | inr e =>
      match digits with
      | [] => None
      | _ :: _ =>
          if forallb Spec.isDigit digits
          then
            let v := if neg then - Spec.decimal digits else Spec.decimal digits in
            if (GoInt.minInt <=? v) && (v <=? GoInt.maxInt) then Some v else None
          else None
      end = None
  end.
Proof.
  assert (GoInt.minInt = -9223372036854775808) as Hmin by reflexivity.
  assert (GoInt.maxInt = 9223372036854775807) as Hmax by reflexivity.
  assert (GoStrconv.maxUint64 = 18446744073709551615) as Hmu by reflexivity.
  destruct digits as [|d ds]; [reflexivity|].
  unfold GoStrconv.ParseUint.
  pose proof (parseUintLoop_spec (d :: ds) 0 ltac:(lia)) as Hloop.
  fold (Spec.decimal (d :: ds)) in Hloop.
  destruct (GoStrconv.parseUintLoop (d :: ds) 0) as [un|[|]].
  - destruct Hloop as (Hall & -> & Hle). rewrite Hall. cbv zeta.
    pose proof (decimalFrom_ge (d :: ds) 0 ltac:(lia) Hall) as Hge.
    fold (Spec.decimal (d :: ds)) in Hge.
    change (2 ^ 63) with 9223372036854775808.
    destruct neg; cbn [negb andb].
    + destruct (Z.ltb_spec 9223372036854775808 (Spec.decimal (d :: ds))).
      * destruct (Z.leb_spec GoInt.minInt (- Spec.decimal (d :: ds))); [lia|reflexivity].
      * destruct (Z.leb_spec GoInt.minInt (- Spec.decimal (d :: ds))); [|lia].
        destruct (Z.leb_spec (- Spec.decimal (d :: ds)) GoInt.maxInt); [|lia].
        cbn [andb]. f_equal.
        destruct (Z.eq_dec (Spec.decimal (d :: ds)) 9223372036854775808) as [->|Hne].
        -- reflexivity.
        -- rewrite (wrap_small (Spec.decimal (d :: ds))) by lia. symmetry. apply wrap_small. lia.
    + destruct (Z.leb_spec 9223372036854775808 (Spec.decimal (d :: ds))).
      * destruct (Z.leb_spec GoInt.minInt (Spec.decimal (d :: ds))); [|lia].
        destruct (Z.leb_spec (Spec.decimal (d :: ds)) GoInt.maxInt); [lia|reflexivity].
      * destruct (Z.leb_spec GoInt.minInt (Spec.decimal (d :: ds))); [|lia].
        destruct (Z.leb_spec (Spec.decimal (d :: ds)) GoInt.maxInt); [|lia].
        cbn [andb]. f_equal. rewrite wrap_wrap. symmetry. apply wrap_small. lia.
  - rewrite Hloop. reflexivity.
  - destruct Hloop as [Hall|Hbig]; [rewrite Hall; reflexivity|].
    destruct (forallb Spec.isDigit (d :: ds)); [|reflexivity]. cbv zeta.
    fold (Spec.decimal (d :: ds)) in Hbig.
    destruct neg.
    + destruct (Z.leb_spec GoInt.minInt (- Spec.decimal (d :: ds))); [lia|reflexivity].
    + destruct (Z.leb_spec GoInt.minInt (Spec.decimal (d :: ds))); [|lia].
      destruct (Z.leb_spec (Spec.decimal (d :: ds)) GoInt.maxInt); [lia|reflexivity].
Qed.

Lemma Atoi_integerLiteral s :
  match GoStrconv.Atoi s with
  | inl n => Spec.integerLiteral s = Some n
  | inr e => Spec.integerLiteral s = None /\ e = GoStrconv.mkNumError "Atoi" s (GoStrconv.Err e)
  end.
Proof.
  unfold GoStrconv.Atoi, Spec.integerLiteral.
  destruct (GoStrings.bytes s) as [|c rest] eqn:Hbs; [split; reflexivity|].
  destruct ((0 <? length (c :: rest))%nat && (length (c :: rest) <? 19)%nat) eqn:Hfast.
  - apply andb_true_iff in Hfast as [_ Hlen%Nat.ltb_lt]. cbn [length] in Hlen.
    destruct (c =? 45)%N eqn:H45; [|destruct (c =? 43)%N eqn:H43]; cbn [orb].
    + apply (fastPath_result true rest s). lia.
    + apply (fastPath_result false rest s). lia.
    + apply (fastPath_result false (c :: rest) s). cbn [length]. lia.
  - unfold GoStrconv.ParseInt.
    destruct (c =? 45)%N eqn:H45; [|destruct (c =? 43)%N eqn:H43]; cbn [orb].
    + rewrite orb_true_r.
      pose proof (slowPath_result true rest) as Hs. cbv zeta.
      destruct (GoStrconv.ParseUint rest) as [un|[|]]; cbn [negb andb] in *.
      * destruct (2 ^ 63 <? un); [split; [exact Hs|reflexivity] | exact Hs].
      * split; [exact Hs|reflexivity].
      * split; [exact Hs|reflexivity].
    + pose proof (slowPath_result false rest) as Hs. cbv zeta.
      destruct (GoStrconv.ParseUint rest) as [un|[|]]; cbn [negb andb] in *.
      * destruct (2 ^ 63 <=? un); [split; [exact Hs|reflexivity] | exact Hs].
      * split; [exact Hs|reflexivity].
      * split; [exact Hs|reflexivity].
    + pose proof (slowPath_result false (c :: rest)) as Hs. cbv zeta.
      destruct (GoStrconv.ParseUint (c :: rest)) as [un|[|]]; cbn [negb andb] in *.
      * destruct (2 ^ 63 <=? un); [split; [exact Hs|reflexivity] | exact Hs].
      * split; [exact Hs|reflexivity].
      * split; [exact Hs|reflexivity].
Qed.

(* ===================================================================== *)
(** * Properties: dates and normalisation *)
(* ===================================================================== *)

Lemma daysIn_daysInMonth m y : 1 <= m <= 12 -> GoTime.daysIn m y = Spec.daysInMonth y m.
Proof.
  intros Hm. unfold GoTime.daysIn, Spec.daysInMonth, GoTime.isLeap, Spec.leapYear.
  assert (m = 1 \/ m = 2 \/ m = 3 \/ m = 4 \/ m = 5 \/ m = 6 \/ m = 7 \/ m = 8 \/ m = 9 \/ m = 10 \/ m = 11 \/ m = 12) as Hc by lia.
  destruct Hc as [->|[->|[->|[->|[->|[->|[->|[->|[->|[->|[->| ->]]]]]]]]]]]; simpl; try reflexivity.
Qed.

Lemma digit_not_sign c : Spec.isDigit c = true -> ((c =? 45) || (c =? 43))%N = false.
Proof.
  unfold Spec.isDigit. intros H%andb_true_iff. destruct H as [H1%N.leb_le H2%N.leb_le].
  apply orb_false_iff; split; apply N.eqb_neq; lia.
Qed.

Lemma leadingInt_spec bs x :
  GoTime.leadingInt bs x =
    if forallb Spec.isDigit bs then (Spec.decimalFrom x bs, [])
    else GoTime.leadingInt bs x.
Proof.
  revert x. induction bs as [|c bs IH]; intros x; [reflexivity|].
  cbn [forallb]. destruct (Spec.isDigit c) eqn:Hc; [|reflexivity].
  cbn [andb GoTime.leadingInt]. unfold Spec.isDigit in Hc. rewrite Hc.
  rewrite IH. destruct (forallb Spec.isDigit bs); reflexivity.
Qed.

Lemma leadingInt_rest bs x :
  forallb Spec.isDigit bs = false -> (GoTime.leadingInt bs x).2 <> [].
Proof.
  revert x. induction bs as [|c bs IH]; intros x; [discriminate|].
  cbn [forallb GoTime.leadingInt]. fold (Spec.isDigit c).
  destruct (Spec.isDigit c); cbn [andb]; [apply IH | discriminate].
Qed.

Lemma atoi_digits bs :
  GoTime.isDigit bs 0 = true ->
  GoTime.atoi bs = if forallb Spec.isDigit bs then Some (Spec.decimal bs) else None.
Proof.
  destruct bs as [|c bs]; [discriminate|].
  unfold GoTime.isDigit. cbn [nth_error]. fold (Spec.isDigit c). intros Hc.
  unfold GoTime.atoi. rewrite (digit_not_sign c Hc).
  destruct (forallb Spec.isDigit (c :: bs)) eqn:Hall.
  - rewrite leadingInt_spec, Hall. reflexivity.
  - pose proof (leadingInt_rest (c :: bs) 0 Hall) as Hne.
    destruct (GoTime.leadingInt (c :: bs) 0) as [q [|r rs]]; [contradiction | reflexivity].
Qed.

Lemma getnum_fixed bs :
  GoTime.getnum bs true =
    match bs with
    | c :: d :: rest =>
        if Spec.isDigit c && Spec.isDigit d then Some (Spec.decimal [c; d], rest) else None
    | _ => None
    end.
Proof.
  unfold GoTime.getnum, GoTime.isDigit.
  destruct bs as [|c [|d rest]]; cbn [nth_error].
  - reflexivity.
  - fold (Spec.isDigit c). destruct (Spec.isDigit c); reflexivity.
  - fold (Spec.isDigit c) (Spec.isDigit d). destruct (Spec.isDigit c), (Spec.isDigit d); cbn; reflexivity.
Qed.

Ltac digit_cases :=
  repeat first
    [ reflexivity
    | rewrite getnum_fixed
    | match goal with
      | |- context [Spec.isDigit ?x] => destruct (Spec.isDigit x) eqn:?
      end
    | rewrite daysIn_daysInMonth by lia
    | progress cbn -[GoTime.daysIn Spec.daysInMonth Spec.decimal Z.leb Z.ltb]
    | match goal with
      | |- context [(?x <=? ?y)] => destruct (Z.leb_spec x y)
      | |- context [(?x <? ?y)] => destruct (Z.ltb_spec x y)
      end
    | exfalso; lia ].

Lemma Parse_calendarDate s :
  GoTime.Parse GoTime.layout20060102 s = Spec.calendarDate s.
Proof.
  unfold GoTime.Parse, Spec.calendarDate. generalize (GoStrings.bytes s). intros bs.
  destruct bs as [|a [|b [|c [|d [|e [|f [|g [|h [|i r]]]]]]]]];
    try reflexivity.
  all: cbn [GoTime.parseLoop GoTime.layout20060102 GoTime.parseChunk length Nat.ltb Nat.leb orb
            firstn skipn]; try reflexivity.
  all: unfold GoTime.isDigit at 1; cbn [nth_error negb]; fold (Spec.isDigit a).
  all: destruct (Spec.isDigit a) eqn:Ha; cbn [negb forallb andb Nat.eqb length]; try reflexivity.
  all: try rewrite atoi_digits by (unfold GoTime.isDigit; cbn [nth_error]; exact Ha).
  all: cbn [forallb]; try rewrite Ha; cbn [andb].
  all: digit_cases.
Qed.

Lemma ToObservation_cases now r stationID :
  models.ToObservation now r stationID =
    match Spec.calendarDate (RawWeatherRecord.Date r) with
    | None => inr (models.invalidDate (RawWeatherRecord.Date r))
    | Some date =>
        inl (WeatherObservation.mk 0 stationID date
               (if decide (RawWeatherRecord.MaxTemperatureTenths r = models.sentinel) then None
                else Some (Float64.div (Float64.ofInt (RawWeatherRecord.MaxTemperatureTenths r))
                                       (Float64.ofInt 10)))
               (if decide (RawWeatherRecord.MinTemperatureTenths r = models.sentinel) then None
                else Some (Float64.div (Float64.ofInt (RawWeatherRecord.MinTemperatureTenths r))
                                       (Float64.ofInt 10)))
               (if decide (RawWeatherRecord.PrecipitationTenths r = models.sentinel) then None
                else Some (Float64.div (Float64.ofInt (RawWeatherRecord.PrecipitationTenths r))
                                       (Float64.ofInt 100)))
               now)
    end.
Proof.
  unfold models.ToObservation, models.sentinel. rewrite Parse_calendarDate.
  destruct (Spec.calendarDate _); [|reflexivity].
  repeat case_decide;
    repeat match goal with
           | H : ?x = -9999 |- _ => rewrite H
           | H : ?x <> -9999 |- _ => apply Z.eqb_neq in H; rewrite H
           end; reflexivity.
Qed.


(* ===================================================================== *)
(** * Properties: binary64 *)
(* ===================================================================== *)

(** ** The sign of a binary64 quotient *)

Lemma shr_1_nonneg mrs : 0 <= shr_m mrs -> 0 <= shr_m (shr_1 mrs).
Proof.
  destruct mrs as [m r s]. cbn [shr_m]. intros Hm.
  destruct m as [|p|p]; [cbn; lia | | lia]. destruct p; cbn; lia.
Qed.

Lemma iter_pos_nonneg p : forall mrs,
  0 <= shr_m mrs -> 0 <= shr_m (SpecFloat.iter_pos shr_1 p mrs).
Proof.
  induction p as [p IH|p IH|]; intros mrs Hm; cbn [SpecFloat.iter_pos].
  - apply IH, IH, shr_1_nonneg, Hm.
  - apply IH, IH, Hm.
  - apply shr_1_nonneg, Hm.
Qed.

Lemma shr_fexp_nonneg prec emax m e l :
  0 <= m -> 0 <= shr_m (shr_fexp prec emax m e l).1.
Proof.
  intros Hm. unfold shr_fexp, shr.
  assert (0 <= shr_m (shr_record_of_loc m l)) as Hrec.
  { destruct l as [|[| |]]; exact Hm. }
  destruct (fexp prec emax (Zdigits2 m + e) - e) as [|p|p]; cbn [fst]; try exact Hrec.
  apply iter_pos_nonneg, Hrec.
Qed.

Lemma round_nearest_even_nonneg m l : 0 <= m -> 0 <= round_nearest_even m l.
Proof.
  intros Hm. destruct l as [|[| |]]; cbn [round_nearest_even]; try lia.
  destruct (Z.even m); lia.
Qed.

(** Rounding a magnitude keeps the sign it is given. *)
Lemma binary_round_aux_sign prec emax s m e l :
  0 <= m ->
  binary_round_aux prec emax s m e l <> S754_nan /\
  Float64.signBit (binary_round_aux prec emax s m e l) = s.
Proof.
  intros Hm. unfold binary_round_aux.
  pose proof (shr_fexp_nonneg prec emax m e l Hm) as H1.
  destruct (shr_fexp prec emax m e l) as [mrs' e']. cbn [fst] in H1.
  pose proof (shr_fexp_nonneg prec emax
                (round_nearest_even (shr_m mrs') (loc_of_shr_record mrs')) e' loc_Exact
                (round_nearest_even_nonneg _ _ H1)) as H2.
  destruct (shr_fexp prec emax _ e' loc_Exact) as [mrs'' e'']. cbn [fst] in H2.
  destruct (shr_m mrs'') as [|p|p]; [split; [discriminate|reflexivity] | | lia].
  destruct (e'' <=? emax - prec); split; (discriminate || reflexivity).
Qed.

Lemma ofInt_sign v :
  v <> 0 -> Float64.ofInt v <> S754_nan /\ Float64.signBit (Float64.ofInt v) = (v <? 0).
Proof.
  intros Hv. unfold Float64.ofInt, binary_normalize.
  destruct v as [|p|p]; [contradiction| |]; unfold binary_round;
    destruct (shl_align _ _ _) as [mz ez]; apply binary_round_aux_sign; lia.
Qed.

Lemma SFdiv_core_binary_nonneg prec emax m1 e1 m2 e2 :
  0 <= (SFdiv_core_binary prec emax (Z.pos m1) e1 (Z.pos m2) e2).1.1.
Proof.
  unfold SFdiv_core_binary. cbv zeta.
  set (s := e1 - e2 - _).
  set (m' := match s with Z.pos _ => Z.shiftl (Z.pos m1) s | 0 => Z.pos m1 | Z.neg _ => 0 end).
  assert (0 <= m') as Hm'.
  { subst m'. destruct s; [lia | apply Z.shiftl_nonneg; lia | lia]. }
  pose proof (Z_div_mod m' (Z.pos m2) ltac:(lia)) as Hdiv.
  destruct (Z.div_eucl m' (Z.pos m2)) as [q r]. cbn [fst]. nia.
Qed.

(** Dividing by a positive finite number keeps the sign. *)
Lemma div_sign x my ey :
  x <> S754_nan ->
  Float64.div x (S754_finite false my ey) <> S754_nan /\
  Float64.signBit (Float64.div x (S754_finite false my ey)) = Float64.signBit x.
Proof.
  intros Hx. unfold Float64.div, SFdiv.
  destruct x as [s|s| |s mx ex]; [| |contradiction|].
  - split; [discriminate | cbn; apply xorb_false_r].
  - split; [discriminate | cbn; apply xorb_false_r].
  - pose proof (SFdiv_core_binary_nonneg Float64.prec Float64.emax mx ex my ey) as Hq.
    destruct (SFdiv_core_binary Float64.prec Float64.emax (Z.pos mx) ex (Z.pos my) ey)
      as [[mz ez] lz]. cbn [fst] in Hq.
    rewrite xorb_false_r. apply binary_round_aux_sign, Hq.
Qed.

Lemma tenths_sign v :
  v <> 0 ->
  Float64.signBit (Float64.div (Float64.ofInt v) (Float64.ofInt 10)) = (v <? 0) /\
  Float64.signBit (Float64.div (Float64.ofInt v) (Float64.ofInt 100)) = (v <? 0).
Proof.
  intros Hv. destruct (ofInt_sign v Hv) as [Hnan Hsign].
  change (Float64.ofInt 10) with (S754_finite false 5629499534213120 (-49)).
  change (Float64.ofInt 100) with (S754_finite false 7036874417766400 (-46)).
  split; rewrite (proj2 (div_sign _ _ _ Hnan)); exact Hsign.
Qed.

(* ===================================================================== *)
(** * Properties: lines and fields *)
(* ===================================================================== *)

Lemma Atoi_inl s n : GoStrconv.Atoi s = inl n <-> Spec.integerLiteral s = Some n.
Proof.
  pose proof (Atoi_integerLiteral s) as H. destruct (GoStrconv.Atoi s) as [m|e].
  - rewrite H. split; congruence.
  - destruct H as [H _]. rewrite H. split; discriminate.
Qed.

Lemma Atoi_inr s e :
  GoStrconv.Atoi s = inr e ->
  Spec.integerLiteral s = None /\ GoStrconv.Func e = "Atoi" /\ GoStrconv.Num e = s.
Proof.
  pose proof (Atoi_integerLiteral s) as H. intros Heq. rewrite Heq in H.
  destruct H as [H ->]. repeat split. exact H.
Qed.

(** ** [strings.Split] *)

Lemma Split_nonempty s sep : GoStrings.Split s sep <> [].
Proof.
  induction s as [|c s IH]; cbn [GoStrings.Split]; [discriminate|].
  destruct (Ascii.eqb c sep); [discriminate|].
  destruct (GoStrings.Split s sep); discriminate.
Qed.

Lemma Split_length s sep : length (GoStrings.Split s sep) = S (Spec.occurrences sep s).
Proof.
  induction s as [|c s IH]; cbn [GoStrings.Split Spec.occurrences]; [reflexivity|].
  destruct (Ascii.eqb c sep); cbn [length Nat.add]; [rewrite IH; reflexivity|].
  pose proof (Split_nonempty s sep).
  destruct (GoStrings.Split s sep); [contradiction | exact IH].
Qed.

Lemma Split_join s sep : Spec.joinWith sep (GoStrings.Split s sep) = s.
Proof.
  induction s as [|c s IH]; cbn [GoStrings.Split]; [reflexivity|].
  destruct (Ascii.eqb_spec c sep) as [->|Hne].
  - pose proof (Split_nonempty s sep).
    destruct (GoStrings.Split s sep) as [|p ps] eqn:Hs; [contradiction|].
    cbn [Spec.joinWith]. cbn [Spec.joinWith] in IH. rewrite IH. reflexivity.
  - pose proof (Split_nonempty s sep).
    destruct (GoStrings.Split s sep) as [|p ps] eqn:Hs; [contradiction|].
    destruct ps as [|q ps]; cbn [Spec.joinWith] in *; rewrite <- IH; reflexivity.
Qed.

Lemma Split_pieces s sep :
  Forall (fun p => Spec.occurrences sep p = 0%nat) (GoStrings.Split s sep).
Proof.
  induction s as [|c s IH]; cbn [GoStrings.Split]; [repeat constructor|].
  destruct (Ascii.eqb c sep) eqn:Hc; [constructor; [reflexivity | exact IH]|].
  destruct (GoStrings.Split s sep) as [|p ps]; [repeat constructor; cbn; rewrite Hc; reflexivity|].
  inversion IH; subst. constructor; [cbn; rewrite Hc; assumption | assumption].
Qed.

(** ** [parseLine] *)

Lemma parseLine_inl line record :
  services.parseLine line = inl record <->
  exists date a b c x y z,
    GoStrings.Split line GoStrings.tab = [date; a; b; c] /\
    Spec.integerLiteral (GoStrings.TrimSpace a) = Some x /\
    Spec.integerLiteral (GoStrings.TrimSpace b) = Some y /\
    Spec.integerLiteral (GoStrings.TrimSpace c) = Some z /\
    record = RawWeatherRecord.mk (GoStrings.TrimSpace date) x y z.
Proof.
  unfold services.parseLine. split.
  - destruct (GoStrings.Split line GoStrings.tab) as [|p0 [|p1 [|p2 [|p3 [|p4 ps]]]]];
      try discriminate.
    destruct (GoStrconv.Atoi (GoStrings.TrimSpace p1)) as [x|e] eqn:H1; [|discriminate].
    destruct (GoStrconv.Atoi (GoStrings.TrimSpace p2)) as [y|e] eqn:H2; [|discriminate].
    destruct (GoStrconv.Atoi (GoStrings.TrimSpace p3)) as [z|e] eqn:H3; [|discriminate].
    intros [= <-]. exists p0, p1, p2, p3, x, y, z.
    apply Atoi_inl in H1, H2, H3. repeat split; assumption.
  - intros (date & a & b & c & x & y & z & -> & H1 & H2 & H3 & ->).
    apply Atoi_inl in H1, H2, H3. rewrite H1, H2, H3. reflexivity.
Qed.

Lemma parseLine_inr line e :
  services.parseLine line = inr e ->
  (length (GoStrings.Split line GoStrings.tab) <> 4%nat /\
   e = invalidLineFormat (length (GoStrings.Split line GoStrings.tab)))
  \/
  (exists date a b c field cause,
     GoStrings.Split line GoStrings.tab = [date; a; b; c] /\
     Spec.integerLiteral (GoStrings.TrimSpace field) = None /\
     GoStrconv.Func cause = "Atoi" /\
     GoStrconv.Num cause = GoStrings.TrimSpace field /\
     ((field = a /\ e = invalidMaxTemperature cause) \/
      (field = b /\ e = invalidMinTemperature cause) \/
      (field = c /\ e = invalidPrecipitation cause))).
Proof.
  unfold services.parseLine.
  destruct (GoStrings.Split line GoStrings.tab) as [|p0 [|p1 [|p2 [|p3 [|p4 ps]]]]];
    try (intros [= <-]; left; split; [cbn [length]; lia | reflexivity]).
  right. exists p0, p1, p2, p3.
  destruct (GoStrconv.Atoi (GoStrings.TrimSpace p1)) as [x|e1] eqn:H1.
  2: { injection H as <-. apply Atoi_inr in H1 as (? & ? & ?).
       exists p1, e1. repeat split; auto. }
  destruct (GoStrconv.Atoi (GoStrings.TrimSpace p2)) as [y|e2] eqn:H2.
  2: { injection H as <-. apply Atoi_inr in H2 as (? & ? & ?).
       exists p2, e2. repeat split; auto. }
  destruct (GoStrconv.Atoi (GoStrings.TrimSpace p3)) as [z|e3] eqn:H3; [discriminate|].
  injection H as <-. apply Atoi_inr in H3 as (? & ? & ?).
  exists p3, e3. repeat split; auto.
Qed.

(** The error of [Atoi] on a text of fewer than 19 bytes is a syntax
    error: a number that short is in the range of [int]. *)
Lemma Atoi_short s e :
  (String.length s < 19)%nat ->
  GoStrconv.Atoi s = inr e -> e = GoStrconv.mkNumError "Atoi" s GoStrconv.ErrSyntax.
Proof.
  intros Hlen. unfold GoStrconv.Atoi.
  assert (length (GoStrings.bytes s) = String.length s) as Hbytes.
  { unfold GoStrings.bytes. rewrite length_map.
    clear Hlen. induction s as [|c s IH]; cbn; [reflexivity | rewrite IH; reflexivity]. }
  rewrite Hbytes.
  destruct (GoStrings.bytes s) as [|c rest] eqn:Hbs.
  - cbn in Hbytes. rewrite <- Hbytes. cbn. intros [= <-]. reflexivity.
  - destruct (Nat.ltb_spec 0 (String.length s)); [|cbn [length] in Hbytes; lia].
    destruct (Nat.ltb_spec (String.length s) 19); [|lia]. cbn [andb].
    destruct (if ((c =? 45) || (c =? 43))%N then rest else c :: rest) as [|d ds];
      [intros [= <-]; reflexivity|].
    destruct (GoStrconv.fastLoop (d :: ds) 0); [discriminate|].
    intros [= <-]. reflexivity.
Qed.

(** The error of [parseLine]: the number of fields found, or the error
    of [Atoi] on the first of the three numeric fields that is not an
    integer. *)
Lemma parseLine_error line e :
  services.parseLine line = inr e <->
  (length (GoStrings.Split line GoStrings.tab) <> 4%nat /\
   e = invalidLineFormat (length (GoStrings.Split line GoStrings.tab)))
  \/
  (exists date a b c cause,
     GoStrings.Split line GoStrings.tab = [date; a; b; c] /\
     ((GoStrconv.Atoi (GoStrings.TrimSpace a) = inr cause /\
       e = invalidMaxTemperature cause) \/
      (is_Some (Spec.integerLiteral (GoStrings.TrimSpace a)) /\
       GoStrconv.Atoi (GoStrings.TrimSpace b) = inr cause /\
       e = invalidMinTemperature cause) \/
      (is_Some (Spec.integerLiteral (GoStrings.TrimSpace a)) /\
       is_Some (Spec.integerLiteral (GoStrings.TrimSpace b)) /\
       GoStrconv.Atoi (GoStrings.TrimSpace c) = inr cause /\
       e = invalidPrecipitation cause))).
Proof.
  unfold services.parseLine. split.
  - destruct (GoStrings.Split line GoStrings.tab) as [|p0 [|p1 [|p2 [|p3 [|p4 ps]]]]];
      try (intros [= <-]; left; split; [cbn [length]; lia | reflexivity]).
    intros Herr. right. exists p0, p1, p2, p3.
    destruct (GoStrconv.Atoi (GoStrings.TrimSpace p1)) as [x|e1] eqn:H1.
    2: { injection Herr as <-. exists e1. split; [reflexivity|]. left. split; reflexivity. }
    apply Atoi_inl in H1.
    destruct (GoStrconv.Atoi (GoStrings.TrimSpace p2)) as [y|e2] eqn:H2.
    2: { injection Herr as <-. exists e2. split; [reflexivity|]. right. left.
         split; [eexists; exact H1|]. split; reflexivity. }
    apply Atoi_inl in H2.
    destruct (GoStrconv.Atoi (GoStrings.TrimSpace p3)) as [z|e3] eqn:H3; [discriminate|].
    injection Herr as <-. exists e3. split; [reflexivity|]. right. right.
    split; [eexists; exact H1|]. split; [eexists; exact H2|]. split; reflexivity.
  - intros [[Hlen ->]|(date & a & b & c & cause & -> & Hcase)].
    + destruct (GoStrings.Split line GoStrings.tab) as [|p0 [|p1 [|p2 [|p3 [|p4 ps]]]]];
        try reflexivity.
      cbn [length] in Hlen. lia.
    + destruct Hcase as [[Ha ->]|[([x Hx] & Hb & ->)|([x Hx] & [y Hy] & Hc & ->)]].
      * rewrite Ha. reflexivity.
      * apply Atoi_inl in Hx. rewrite Hx, Hb. reflexivity.
      * apply Atoi_inl in Hx, Hy. rewrite Hx, Hy, Hc. reflexivity.
Qed.


(* ===================================================================== *)
(** * Properties: batches *)
(* ===================================================================== *)

Section Batches.
Context {A : Type}.

Lemma splitBatches_concat (n : nat) (l : list A) : forall cur,
  concat (Spec.splitBatches n cur l).1 ++ (Spec.splitBatches n cur l).2 = cur ++ l.
Proof.
  induction l as [|x l IH]; intros cur; cbn [Spec.splitBatches].
  - cbn. rewrite app_nil_r. reflexivity.
  - destruct (n <=? length (cur ++ [x]))%nat.
    + specialize (IH []). destruct (Spec.splitBatches n [] l) as [bs r].
      cbn [fst snd concat] in *. rewrite <- !app_assoc, IH. reflexivity.
    + rewrite IH, <- app_assoc. reflexivity.
Qed.

Lemma splitBatches_sizes (n : nat) (l : list A) : forall cur,
  (length cur < Nat.max 1 n)%nat ->
  Forall (fun b => length b = Nat.max 1 n) (Spec.splitBatches n cur l).1 /\
  (length (Spec.splitBatches n cur l).2 < Nat.max 1 n)%nat.
Proof.
  induction l as [|x l IH]; intros cur Hcur; cbn [Spec.splitBatches].
  - cbn. split; [constructor | exact Hcur].
  - destruct (Nat.leb_spec n (length (cur ++ [x]))) as [Hfull|Hopen].
    + specialize (IH [] ltac:(cbn; lia)). destruct (Spec.splitBatches n [] l) as [bs r].
      cbn [fst snd] in *. destruct IH as [IH1 IH2]. split; [|exact IH2].
      constructor; [|exact IH1]. rewrite length_app in *. cbn [length] in *. lia.
    + apply IH. rewrite length_app in *. cbn [length] in *. lia.
Qed.

Lemma batches_concat (n : nat) (l : list A) : concat (Spec.batches n l) = l.
Proof.
  unfold Spec.batches. pose proof (splitBatches_concat n l []) as H.
  destruct (Spec.splitBatches n [] l) as [bs r]. cbn [fst snd] in H.
  cbn [app] in H. rewrite concat_app, <- H. f_equal. destruct r; cbn; [reflexivity|].
  rewrite app_nil_r. reflexivity.
Qed.

(** Every batch holds at least one item and at most [max 1 n]; every
    batch but the last holds exactly [max 1 n]. *)
Lemma batches_sizes (n : nat) (l : list A) :
  Forall (fun b => (1 <= length b <= Nat.max 1 n)%nat) (Spec.batches n l) /\
  Forall (fun b => length b = Nat.max 1 n) (removelast (Spec.batches n l)).
Proof.
  unfold Spec.batches.
  pose proof (splitBatches_sizes n l [] ltac:(cbn; lia)) as [Hfull Hrest].
  destruct (Spec.splitBatches n [] l) as [bs r]. cbn [fst snd] in *.
  split.
  - apply Forall_app. split.
    + eapply Forall_impl; [exact Hfull|]. cbn. intros b Hb. lia.
    + destruct r; constructor; [cbn [length] in *; lia | constructor].
  - destruct r as [|x r].
    + rewrite app_nil_r. clear Hrest. induction Hfull as [|b bs' Hb Hbs IH]; [constructor|].
      cbn [removelast]. destruct bs'; [constructor|]. constructor; [exact Hb | exact IH].
    + rewrite removelast_app by discriminate. cbn [removelast]. rewrite app_nil_r.
      exact Hfull.
Qed.
End Batches.

(* ===================================================================== *)
(** * Properties: the ingestion of a file *)
(* ===================================================================== *)

Section Ingestion.

Context {R : Type} `{WeatherRepository R}.
Variable wall : nat -> GoTime.Instant.
Variable fs : FileSystem.

(** A line that does not yield an observation costs one failed record
    and nothing else: the batch and the repository stay as they are and
    the scan goes on. *)
Lemma scanLoop_skip stationID batchSize line rest st (w : World R) :
  Spec.normalize (wall (readings w)) line stationID = None ->
  exists kind,
    services.scanLoop wall stationID batchSize (line :: rest) st w =
      services.scanLoop wall stationID batchSize rest
        (services.mkScanState
           (services.countFailed (services.countTotal (services.fileResult st)))
           (services.batch st))
        (services.emit (RecordIngestionError kind) w) /\
    kind = match services.parseLine line with
           | inr _ => "parse_error"
           | inl _ => "conversion_error"
           end.
Proof.
  unfold Spec.normalize. intros Hn. cbn [services.scanLoop].
  destruct (services.parseLine line) as [record|e].
  - destruct (models.ToObservation _ record stationID) as [obs|e]; [discriminate|].
    eexists. split; reflexivity.
  - eexists. split; reflexivity.
Qed.

Lemma wrapped_mk t s f :
  GoInt.wrap t = t -> GoInt.wrap s = s -> GoInt.wrap f = f ->
  Spec.wrapped (FileIngestionResult.mk t s f).
Proof. intros. repeat split; assumption. Qed.

Lemma wrapped_countTotal r : Spec.wrapped r -> Spec.wrapped (services.countTotal r).
Proof.
  intros (Ht & Hs & Hf). repeat split; cbn; [apply wrap_wrap | exact Hs | exact Hf].
Qed.

Lemma wrapped_countFailed r : Spec.wrapped r -> Spec.wrapped (services.countFailed r).
Proof.
  intros (Ht & Hs & Hf). repeat split; cbn; [exact Ht | exact Hs | apply wrap_wrap].
Qed.

Lemma wrapped_countSuccessful n r : Spec.wrapped r -> Spec.wrapped (services.countSuccessful n r).
Proof.
  intros (Ht & Hs & Hf). repeat split; cbn; [exact Ht | apply wrap_wrap | exact Hf].
Qed.

Lemma scanResult_eq t t' s s' f f' (b : list WeatherObservation.t) (w : World R) :
  t = t' -> s = s' -> f = f' ->
  (inr (services.mkScanState
          (FileIngestionResult.mk (GoInt.wrap t) (GoInt.wrap s) (GoInt.wrap f)) b), w)
  = (inr (services.mkScanState
            (FileIngestionResult.mk (GoInt.wrap t') (GoInt.wrap s') (GoInt.wrap f')) b), w)
    :> (error + services.scanState) * World R.
Proof. intros -> -> ->. reflexivity. Qed.

Lemma scanLoop_spec stationID batchSize ls : forall st (w : World R),
  Spec.wrapped (services.fileResult st) ->
  let obs := Spec.observationsOf wall stationID ls (readings w) in
  let split := Spec.splitBatches (Z.to_nat batchSize) (services.batch st) obs in
  match Spec.flushAll split.1 (repo w) with
  | (Some err, r') =>
      exists w',
        services.scanLoop wall stationID batchSize ls st w =
          (inl (Errorf_w "failed to insert batch" err), w') /\
        repo w' = r'
  | (None, r') =>
      exists w',
        services.scanLoop wall stationID batchSize ls st w =
          (inr (services.mkScanState
                  (FileIngestionResult.mk
                     (GoInt.wrap (FileIngestionResult.TotalRecords (services.fileResult st)
                                  + Z.of_nat (length ls)))
                     (GoInt.wrap (FileIngestionResult.SuccessfulRecords (services.fileResult st)
                                  + Z.of_nat (length (concat split.1))))
                     (GoInt.wrap (FileIngestionResult.FailedRecords (services.fileResult st)
                                  + (Z.of_nat (length ls) - Z.of_nat (length obs)))))
                  split.2), w') /\
        repo w' = r' /\
        readings w' = (readings w + length obs)%nat
  end.
Proof.
  induction ls as [|line rest IH]; intros st w Hw; cbv zeta.
  - cbn [Spec.observationsOf Spec.splitBatches fst snd Spec.flushAll length concat].
    exists w. destruct st as [[t s f] b]. destruct Hw as (Ht & Hs & Hf).
    cbn [services.fileResult services.batch FileIngestionResult.TotalRecords
         FileIngestionResult.SuccessfulRecords FileIngestionResult.FailedRecords] in *.
    cbn -[GoInt.wrap]. rewrite !Z.add_0_r, Ht, Hs, Hf.
    repeat split; lia.
  - cbn [Spec.observationsOf].
    destruct (Spec.normalize (wall (readings w)) line stationID) as [o|] eqn:Hn.
    + (* the line yields an observation *)
      unfold Spec.normalize in Hn. cbn [services.scanLoop].
      destruct (services.parseLine line) as [record|e]; [|discriminate].
      destruct (models.ToObservation (wall (readings w)) record stationID)
        as [o'|e]; [|discriminate].
      injection Hn as ->.
      cbn [Spec.splitBatches].
      assert ((batchSize <=? Z.of_nat (length (services.batch st ++ [o])))
              = (Z.to_nat batchSize <=? length (services.batch st ++ [o]))%nat) as ->.
      { destruct (Z.leb_spec batchSize (Z.of_nat (length (services.batch st ++ [o]))));
          destruct (Nat.leb_spec (Z.to_nat batchSize) (length (services.batch st ++ [o])));
          try reflexivity; lia. }
      destruct (Z.to_nat batchSize <=? length (services.batch st ++ [o]))%nat.
      * (* the batch is full: flush *)
        cbn [services.now snd repo].
        destruct (Spec.splitBatches (Z.to_nat batchSize) []
                    (Spec.observationsOf wall stationID rest (S (readings w))))
          as [bs r] eqn:Hsplit.
        cbn [fst snd Spec.flushAll].
        destruct (CreateObservationsBatch (services.batch st ++ [o]) (repo w))
          as [[err|] r'] eqn:Hflush.
        -- eexists. split; reflexivity.
        -- specialize (IH
             (services.mkScanState
                (services.countSuccessful (length (services.batch st ++ [o]))
                   (services.countTotal (services.fileResult st))) [])
             (services.setRepo r' (mkWorld (repo w) (events w) (S (readings w))))).
           cbv zeta in IH.
           cbn [services.setRepo readings repo services.batch services.fileResult] in IH.
           rewrite Hsplit in IH. cbn [fst snd] in IH.
           destruct st as [[t s f] b]. destruct Hw as (Ht & Hs & Hf).
           cbn [services.fileResult services.batch services.countSuccessful
                services.countTotal FileIngestionResult.TotalRecords
                FileIngestionResult.SuccessfulRecords FileIngestionResult.FailedRecords] in *.
           specialize (IH ltac:(auto using wrapped_countTotal, wrapped_countFailed, wrapped_countSuccessful, wrapped_mk)).
           destruct (Spec.flushAll bs r') as [[err|] r''].
           ++ destruct IH as (w' & -> & Hr). exists w'. split; [reflexivity | exact Hr].
           ++ destruct IH as (w' & -> & Hr & Hrd). exists w'.
              split; [|split; [exact Hr | cbn [length]; lia]].
              unfold GoInt.add. rewrite !wrap_add_l.
              apply scanResult_eq; cbn [length concat]; rewrite ?(length_app (b ++ [o])); lia.
      * (* the batch stays open *)
        cbn [services.now snd].
        specialize (IH
          (services.mkScanState (services.countTotal (services.fileResult st))
             (services.batch st ++ [o]))
          (services.now wall w).2).
        cbv zeta in IH. cbn [services.now snd readings repo services.batch
                             services.fileResult] in IH.
        destruct st as [[t s f] b]. destruct Hw as (Ht & Hs & Hf).
        cbn [services.fileResult services.batch services.countTotal
             FileIngestionResult.TotalRecords FileIngestionResult.SuccessfulRecords
             FileIngestionResult.FailedRecords] in *.
        specialize (IH ltac:(auto using wrapped_countTotal, wrapped_countFailed, wrapped_countSuccessful, wrapped_mk)).
        destruct (Spec.flushAll
                    (Spec.splitBatches (Z.to_nat batchSize) (b ++ [o])
                       (Spec.observationsOf wall stationID rest (S (readings w)))).1
                    (repo w)) as [[err|] r''].
        -- destruct IH as (w' & -> & Hr). exists w'. split; [reflexivity | exact Hr].
        -- destruct IH as (w' & -> & Hr & Hrd). exists w'.
           split; [|split; [exact Hr | cbn [length]; lia]].
           unfold GoInt.add. rewrite !wrap_add_l.
           apply scanResult_eq; cbn [length]; lia.
    + (* the line is skipped *)
      destruct (scanLoop_skip stationID batchSize line rest st w Hn) as (kind & -> & _).
      specialize (IH
        (services.mkScanState
           (services.countFailed (services.countTotal (services.fileResult st)))
           (services.batch st))
        (services.emit (RecordIngestionError kind) w)).
      cbv zeta in IH. cbn [services.emit readings repo services.batch
                           services.fileResult] in IH.
      destruct st as [[t s f] b]. destruct Hw as (Ht & Hs & Hf).
      cbn [services.fileResult services.batch services.countTotal services.countFailed
           FileIngestionResult.TotalRecords FileIngestionResult.SuccessfulRecords
           FileIngestionResult.FailedRecords] in *.
      specialize (IH ltac:(auto using wrapped_countTotal, wrapped_countFailed, wrapped_countSuccessful, wrapped_mk)).
      destruct (Spec.flushAll
                  (Spec.splitBatches (Z.to_nat batchSize) b
                     (Spec.observationsOf wall stationID rest (readings w))).1
                  (repo w)) as [[err|] r''].
      * destruct IH as (w' & -> & Hr). exists w'. split; [reflexivity | exact Hr].
      * destruct IH as (w' & -> & Hr & Hrd). exists w'.
        split; [|split; [exact Hr | exact Hrd]].
        unfold GoInt.add. rewrite !wrap_add_l.
        apply scanResult_eq; cbn [length]; lia.
Qed.

End Ingestion.

Section IngestFile.

Context {R : Type} `{WeatherRepository R}.
Variable wall : nat -> GoTime.Instant.
Variable fs : FileSystem.

Lemma flushAll_app (bs1 bs2 : list (list WeatherObservation.t)) (r : R) :
  Spec.flushAll (bs1 ++ bs2) r =
    match Spec.flushAll bs1 r with
    | (Some err, r') => (Some err, r')
    | (None, r') => Spec.flushAll bs2 r'
    end.
Proof.
  revert r. induction bs1 as [|b bs1 IH]; intros r; cbn [app Spec.flushAll].
  - reflexivity.
  - destruct (CreateObservationsBatch b r) as [[err|] r']; [reflexivity | apply IH].
Qed.

(** [ingestFile] once the station exists and the file is open: the
    batches of the observations of the file are flushed in order, and
    the outcome is that of the flushes, then that of the scan. *)
Lemma ingestFile_spec filePath batchSize (w : World R) r1 file :
  CreateStation (Spec.stationFor wall filePath (readings w)) (repo w) = (None, r1) ->
  Open fs filePath = inl file ->
  GoRuntime.makeslicePanics batchSize = false ->
  let obs :=
    Spec.observationsOf wall (Spec.stationIDOf filePath) (lines file)
      (S (S (readings w))) in
  let split := Spec.splitBatches (Z.to_nat batchSize) [] obs in
  exists w',
    repo w' = (Spec.flushAll (Spec.batches (Z.to_nat batchSize) obs) r1).2 /\
    services.ingestFile wall fs filePath batchSize w =
      (match Spec.flushAll split.1 r1 with
       | (Some err, _) => failed (Errorf_w "failed to insert batch" err)
       | (None, r2) =>
           match
             match split.2 with
             | [] => None
             | _ :: _ => (CreateObservationsBatch split.2 r2).1
             end
           with
           | Some err => failed (Errorf_w "failed to insert final batch" err)
           | None =>
               match scanErr file with
               | Some err => failed (Errorf_w "error reading file" err)
               | None => ok (Spec.fileCounts (length (lines file)) (length obs))
               end
           end
       end, w').
Proof.
  intros Hstation Hopen Hmake. cbv zeta.
  unfold services.ingestFile. cbn [services.now readings repo events].
  fold (Spec.stationIDOf filePath).
  change (WeatherStation.mk (Spec.stationIDOf filePath)
            (services.extractStateFromStationID (Spec.stationIDOf filePath))
            (wall (readings w)) (wall (S (readings w))))
    with (Spec.stationFor wall filePath (readings w)).
  cbn [repo]. rewrite Hstation, Hopen, Hmake.
  pose proof (scanLoop_spec wall (Spec.stationIDOf filePath) batchSize (lines file)
                (services.mkScanState (FileIngestionResult.mk 0 0 0) [])
                (services.setRepo r1
                   (mkWorld (repo w) (events w) (S (S (readings w)))))
                ltac:(repeat split; reflexivity)) as Hloop.
  cbv zeta in Hloop.
  cbn [services.setRepo readings repo services.batch services.fileResult
       FileIngestionResult.TotalRecords FileIngestionResult.SuccessfulRecords
       FileIngestionResult.FailedRecords] in Hloop.
  unfold Spec.batches.
  pose proof (splitBatches_concat (Z.to_nat batchSize)
                (Spec.observationsOf wall (Spec.stationIDOf filePath) (lines file)
                   (S (S (readings w)))) []) as Hconcat.
  destruct (Spec.splitBatches (Z.to_nat batchSize) []
              (Spec.observationsOf wall (Spec.stationIDOf filePath) (lines file)
                 (S (S (readings w))))) as [closed rest] eqn:Hsplit.
  cbn [fst snd app] in *. rewrite flushAll_app.
  cbn [services.setRepo] in *.
  destruct (Spec.flushAll closed r1) as [[err|] r2].
  - destruct Hloop as (w' & -> & Hr). exists w'. split; [exact Hr | reflexivity].
  - destruct Hloop as (w' & -> & Hr & Hrd). cbn [services.batch services.fileResult].
    destruct rest as [|o rest].
    + cbn [Spec.flushAll snd]. rewrite app_nil_r in Hconcat.
      eexists. split; [|destruct (scanErr file); [reflexivity|]].
      * destruct (scanErr file); exact Hr.
      * unfold Spec.fileCounts. rewrite <- Hconcat, !Z.add_0_l. reflexivity.
    + cbn [Spec.flushAll]. rewrite Hr.
      destruct (CreateObservationsBatch (o :: rest) r2) as [[err|] r3]; cbn [fst snd].
      * eexists. split; [|reflexivity]. reflexivity.
      * eexists. split; [|destruct (scanErr file); [reflexivity|]].
        -- destruct (scanErr file); reflexivity.
        -- unfold Spec.fileCounts, services.countSuccessful, GoInt.add.
           cbn [FileIngestionResult.TotalRecords FileIngestionResult.SuccessfulRecords
                FileIngestionResult.FailedRecords].
           rewrite wrap_add_l, <- Hconcat, !Z.add_0_l, length_app, Nat2Z.inj_add.
           reflexivity.
Qed.

(** The ways [ingestFile] ends before it reads a line. *)
Lemma ingestFile_early filePath batchSize (w : World R) :
  match CreateStation (Spec.stationFor wall filePath (readings w)) (repo w) with
  | (Some err, r') =>
      exists w', repo w' = r' /\
        services.ingestFile wall fs filePath batchSize w =
          (failed (Errorf_w "failed to create station" err), w')
  | (None, r1) =>
      match Open fs filePath with
      | inr err =>
          exists w', repo w' = r1 /\
            services.ingestFile wall fs filePath batchSize w =
              (failed (Errorf_w "failed to open file" err), w')
      | inl file =>
          GoRuntime.makeslicePanics batchSize = true ->
          exists w', repo w' = r1 /\
            services.ingestFile wall fs filePath batchSize w =
              (panicked "makeslice: cap out of range", w')
      end
  end.
Proof.
  unfold services.ingestFile. cbn [services.now readings repo events].
  fold (Spec.stationIDOf filePath).
  change (WeatherStation.mk (Spec.stationIDOf filePath)
            (services.extractStateFromStationID (Spec.stationIDOf filePath))
            (wall (readings w)) (wall (S (readings w))))
    with (Spec.stationFor wall filePath (readings w)).
  destruct (CreateStation _ (repo w)) as [[err|] r1].
  - eexists. split; [|reflexivity]. reflexivity.
  - destruct (Open fs filePath) as [file|err].
    + intros ->. eexists. split; [|reflexivity]. reflexivity.
    + eexists. split; [|reflexivity]. reflexivity.
Qed.

(** A file ingested without an error: every line was counted once, as
    stored or as failed. *)
Lemma ingestFile_ok filePath batchSize (w w' : World R) res :
  services.ingestFile wall fs filePath batchSize w = (ok res, w') ->
  exists file,
    Open fs filePath = inl file /\
    scanErr file = None /\
    res = Spec.fileCounts (length (lines file))
            (length (Spec.observationsOf wall (Spec.stationIDOf filePath) (lines file)
                       (S (S (readings w))))).
Proof.
  intros Hok. pose proof (ingestFile_early filePath batchSize w) as Hearly.
  destruct (CreateStation _ (repo w)) as [[err|] r1] eqn:Hstation.
  { destruct Hearly as (w1 & _ & Heq). rewrite Heq in Hok. discriminate. }
  destruct (Open fs filePath) as [file|err] eqn:Hopen.
  2: { destruct Hearly as (w1 & _ & Heq). rewrite Heq in Hok. discriminate. }
  destruct (GoRuntime.makeslicePanics batchSize) eqn:Hmake.
  { destruct (Hearly eq_refl) as (w1 & _ & Heq). rewrite Heq in Hok. discriminate. }
  destruct (ingestFile_spec filePath batchSize w r1 file Hstation Hopen Hmake)
    as (w1 & _ & Heq).
  rewrite Heq in Hok. exists file. split; [reflexivity|].
  destruct (Spec.flushAll _ r1) as [[err|] r2]; [discriminate|].
  destruct (match _ with [] => None | _ :: _ => _ end) as [err|]; [discriminate|].
  destruct (scanErr file) as [err|]; [discriminate|].
  split; [reflexivity|]. congruence.
Qed.

Lemma fileCounts_sum total successful :
  FileIngestionResult.TotalRecords (Spec.fileCounts total successful) =
    GoInt.add (FileIngestionResult.SuccessfulRecords (Spec.fileCounts total successful))
              (FileIngestionResult.FailedRecords (Spec.fileCounts total successful)).
Proof.
  unfold Spec.fileCounts.
  cbn [FileIngestionResult.TotalRecords FileIngestionResult.SuccessfulRecords
       FileIngestionResult.FailedRecords].
  rewrite add_wrap_wrap. f_equal. lia.
Qed.

End IngestFile.

(* ===================================================================== *)
(** * Properties: the ingestion of a directory *)
(* ===================================================================== *)

Section IngestDirectory.

Context {R : Type} `{WeatherRepository R}.
Variable wall : nat -> GoTime.Instant.
Variable fs : FileSystem.

Lemma ingestFile_panics filePath batchSize (w w' : World R) msg :
  services.ingestFile wall fs filePath batchSize w = (panicked msg, w') ->
  GoRuntime.makeslicePanics batchSize = true.
Proof.
  intros Hp. pose proof (ingestFile_early wall fs filePath batchSize w) as Hearly.
  destruct (CreateStation _ (repo w)) as [[err|] r1] eqn:Hstation.
  { destruct Hearly as (w1 & _ & Heq). rewrite Heq in Hp. discriminate. }
  destruct (Open fs filePath) as [file|err] eqn:Hopen.
  2: { destruct Hearly as (w1 & _ & Heq). rewrite Heq in Hp. discriminate. }
  destruct (GoRuntime.makeslicePanics batchSize) eqn:Hmake; [reflexivity|].
  destruct (ingestFile_spec wall fs filePath batchSize w r1 file Hstation Hopen Hmake)
    as (w1 & _ & Heq).
  rewrite Heq in Hp.
  destruct (Spec.flushAll _ r1) as [[err|] r2]; [discriminate|].
  destruct (match _ with [] => None | _ :: _ => _ end) as [err|]; [discriminate|].
  destruct (scanErr file) as [err|]; discriminate.
Qed.

(** A file that fails leaves one error string in the result, and the
    loop goes on with the files that remain. *)
Lemma ingestFiles_failed filePath rest batchSize res (w w1 : World R) err :
  services.ingestFile wall fs filePath batchSize w = (failed err, w1) ->
  exists w2,
    repo w2 = repo w1 /\ readings w2 = readings w1 /\
    services.ingestFiles wall fs (filePath :: rest) batchSize res w =
      services.ingestFiles wall fs rest batchSize
        (services.addError (services.ingestErrorMessage filePath err) res) w2.
Proof.
  intros Hf. cbn [services.ingestFiles]. rewrite Hf.
  eexists. split; [|split; [|reflexivity]]; reflexivity.
Qed.

Lemma ingestFiles_succeeded filePath rest batchSize res (w w1 : World R) fileResult :
  services.ingestFile wall fs filePath batchSize w = (ok fileResult, w1) ->
  exists w2,
    repo w2 = repo w1 /\ readings w2 = readings w1 /\
    services.ingestFiles wall fs (filePath :: rest) batchSize res w =
      services.ingestFiles wall fs rest batchSize
        (services.addFileResult fileResult res) w2.
Proof.
  intros Hf. cbn [services.ingestFiles]. rewrite Hf.
  eexists. split; [|split; [|reflexivity]]; reflexivity.
Qed.

(** The loop over the files only ever appends to the errors, at most
    one string per file, each naming its file. *)
Lemma ingestFiles_errors files batchSize : forall res (w : World R) res' w',
  services.ingestFiles wall fs files batchSize res w = (ok res', w') ->
  IngestionResult.TotalFiles res' = IngestionResult.TotalFiles res /\
  exists new,
    IngestionResult.Errors res' = IngestionResult.Errors res ++ new /\
    (length new <= length files)%nat /\
    Forall (fun msg => exists filePath err,
              In filePath files /\ msg = services.ingestErrorMessage filePath err) new.
Proof.
  induction files as [|filePath rest IH]; intros res w res' w' Hrun.
  - cbn in Hrun. injection Hrun as <- <-. split; [reflexivity|].
    exists []. rewrite app_nil_r. repeat split; [cbn; lia | constructor].
  - cbn [services.ingestFiles] in Hrun.
    destruct (services.ingestFile wall fs filePath batchSize w) as [[fr|err|msg] w1].
    + apply IH in Hrun as (Htotal & new & Herr & Hlen & Hall).
      split; [exact Htotal|]. exists new. cbn [services.addFileResult IngestionResult.Errors] in Herr.
      split; [exact Herr|]. split; [cbn [length]; lia|].
      eapply Forall_impl; [exact Hall|]. cbn. intros msg (f & e & Hin & ->).
      exists f, e. split; [right; exact Hin | reflexivity].
    + apply IH in Hrun as (Htotal & new & Herr & Hlen & Hall).
      split; [exact Htotal|].
      exists (services.ingestErrorMessage filePath err :: new).
      cbn [services.addError IngestionResult.Errors] in Herr.
      rewrite <- app_assoc in Herr. split; [exact Herr|]. split; [cbn [length]; lia|].
      constructor.
      * exists filePath, err. split; [left; reflexivity | reflexivity].
      * eapply Forall_impl; [exact Hall|]. cbn. intros msg (f & e & Hin & ->).
        exists f, e. split; [right; exact Hin | reflexivity].
    + discriminate.
Qed.

(** No failure of a file ends the loop: it runs to the last file. *)
Lemma ingestFiles_completes files batchSize :
  GoRuntime.makeslicePanics batchSize = false ->
  forall res (w : World R),
    exists res' w', services.ingestFiles wall fs files batchSize res w = (ok res', w').
Proof.
  intros Hmake. induction files as [|filePath rest IH]; intros res w.
  - eexists. eexists. reflexivity.
  - cbn [services.ingestFiles].
    destruct (services.ingestFile wall fs filePath batchSize w) as [[fr|err|msg] w1] eqn:Hf.
    + apply IH.
    + apply IH.
    + apply ingestFile_panics in Hf. congruence.
Qed.

Lemma errorsOf_length files : forall outs,
  length outs = length files -> length (Spec.errorsOf files outs) = Spec.failures outs.
Proof.
  unfold Spec.failures.
  induction files as [|f files IH]; intros [|out outs] Hlen; try discriminate;
    [reflexivity|].
  injection Hlen as Hlen. cbn [Spec.errorsOf List.filter].
  destruct out as [fr|err|msg]; cbn [Spec.errorOf length]; rewrite IH by exact Hlen;
    reflexivity.
Qed.

Lemma errorsOf_app before : forall rest outs1 outs2,
  length outs1 = length before ->
  Spec.errorsOf (before ++ rest) (outs1 ++ outs2)
  = Spec.errorsOf before outs1 ++ Spec.errorsOf rest outs2.
Proof.
  induction before as [|f before IH]; intros rest [|out outs1] outs2 Hlen;
    try discriminate; [reflexivity|].
  injection Hlen as Hlen. cbn [app Spec.errorsOf].
  destruct (Spec.errorOf f out); cbn [app]; rewrite IH by exact Hlen; reflexivity.
Qed.

(** The loop over the files ingests each of them once, in order, and
    leaves in the result the error string of each file that failed, in
    that order, and nothing else. *)
Lemma ingestFiles_trace files batchSize : forall res (w : World R) res' w',
  services.ingestFiles wall fs files batchSize res w = (ok res', w') ->
  exists outs,
    Spec.fileOutcomes wall fs batchSize files w outs /\
    length outs = length files /\
    IngestionResult.Errors res' = IngestionResult.Errors res ++ Spec.errorsOf files outs.
Proof.
  induction files as [|filePath rest IH]; intros res w res' w' Hrun.
  - cbn in Hrun. injection Hrun as <- <-. exists []. split; [constructor|].
    split; [reflexivity|]. cbn. rewrite app_nil_r. reflexivity.
  - cbn [services.ingestFiles] in Hrun.
    destruct (services.ingestFile wall fs filePath batchSize w) as [[fr|err|msg] w1] eqn:Hf.
    + apply IH in Hrun as (outs & Hout & Hlen & Herr).
      exists (ok fr :: outs). split; [|split].
      * eapply Spec.outcomes_cons; [exact Hf| | |exact Hout]; reflexivity.
      * cbn [length]. rewrite Hlen. reflexivity.
      * exact Herr.
    + apply IH in Hrun as (outs & Hout & Hlen & Herr).
      exists (failed err :: outs). split; [|split].
      * eapply Spec.outcomes_cons; [exact Hf| | |exact Hout]; reflexivity.
      * cbn [length]. rewrite Hlen. reflexivity.
      * cbn [services.addError IngestionResult.Errors] in Herr.
        rewrite <- app_assoc in Herr. exact Herr.
    + discriminate.
Qed.

Lemma ingestFiles_app before batchSize rest : forall res (w : World R) res1 w1,
  services.ingestFiles wall fs before batchSize res w = (ok res1, w1) ->
  services.ingestFiles wall fs (before ++ rest) batchSize res w
  = services.ingestFiles wall fs rest batchSize res1 w1.
Proof.
  induction before as [|filePath before IH]; intros res w res1 w1 Hrun.
  - cbn in Hrun. injection Hrun as <- <-. reflexivity.
  - cbn [app services.ingestFiles] in *.
    destruct (services.ingestFile wall fs filePath batchSize w) as [[fr|err|msg] w2].
    + apply IH. exact Hrun.
    + apply IH. exact Hrun.
    + discriminate.
Qed.

(** The run returns the result of its loop, with the duration set. *)
Lemma IngestDirectory_loop dataDir batchSize (w w' : World R) res :
  services.IngestDirectory wall fs dataDir batchSize w = (ok res, w') ->
  exists files start loopResult loopWorld,
    Glob fs dataDir = inl files /\ files <> [] /\
    repo start = repo w /\ readings start = S (readings w) /\
    services.ingestFiles wall fs files batchSize (Spec.noFileYet files) start
      = (ok loopResult, loopWorld) /\
    repo w' = repo loopWorld /\
    res = services.setDuration (IngestionResult.Duration res) loopResult.
Proof.
  unfold services.IngestDirectory. cbn [services.now].
  destruct (Glob fs dataDir) as [[|f files]|err]; [discriminate| |discriminate].
  destruct (services.ingestFiles wall fs (f :: files) batchSize _ _)
    as [[res1|err|msg] w1] eqn:Hrun; [|discriminate|discriminate].
  intros Hok. injection Hok as <- <-.
  match type of Hrun with
  | services.ingestFiles _ _ _ _ _ ?start = _ => exists (f :: files), start, res1, w1
  end.
  split; [reflexivity|]. split; [discriminate|]. split; [reflexivity|].
  split; [reflexivity|]. split; [exact Hrun|]. split; reflexivity.
Qed.

Lemma IngestDirectory_ok dataDir batchSize (w w' : World R) res :
  services.IngestDirectory wall fs dataDir batchSize w = (ok res, w') ->
  exists files,
    Glob fs dataDir = inl files /\ files <> [] /\
    IngestionResult.TotalFiles res = Z.of_nat (length files) /\
    (length (IngestionResult.Errors res) <= length files)%nat /\
    Forall (fun msg => exists filePath err,
              In filePath files /\ msg = services.ingestErrorMessage filePath err)
           (IngestionResult.Errors res).
Proof.
  unfold services.IngestDirectory. cbn [services.now].
  destruct (Glob fs dataDir) as [[|f files]|err]; [discriminate| |discriminate].
  destruct (services.ingestFiles wall fs (f :: files) batchSize _ _)
    as [[res1|err|msg] w1] eqn:Hrun; [|discriminate|discriminate].
  intros Hok. injection Hok as <- <-.
  apply ingestFiles_errors in Hrun as (Htotal & new & Herr & Hlen & Hall).
  cbn [IngestionResult.TotalFiles IngestionResult.Errors app] in *.
  exists (f :: files). split; [reflexivity|]. split; [discriminate|].
  cbn [services.setDuration IngestionResult.TotalFiles IngestionResult.Errors].
  rewrite Herr. repeat split; assumption.
Qed.

Lemma IngestDirectory_completes dataDir batchSize (w : World R) files :
  Glob fs dataDir = inl files -> files <> [] ->
  GoRuntime.makeslicePanics batchSize = false ->
  exists res w', services.IngestDirectory wall fs dataDir batchSize w = (ok res, w').
Proof.
  intros Hglob Hne Hmake. unfold services.IngestDirectory. cbn [services.now].
  rewrite Hglob. destruct files as [|f files]; [contradiction|].
  edestruct (ingestFiles_completes (f :: files) batchSize Hmake) as (res1 & w1 & ->).
  eexists. eexists. reflexivity.
Qed.

End IngestDirectory.

(* ===================================================================== *)
(** * Properties: the report of the errors *)
(* ===================================================================== *)



Lemma printFirst_take errors : forall i,
  0 <= i -> ingester.printFirst i errors = Spec.reportLine <$> take (Z.to_nat (10 - i)) errors.
Proof.
  induction errors as [|e errors IH]; intros i Hi; cbn [ingester.printFirst].
  - rewrite take_nil. reflexivity.
  - rewrite IH by lia. destruct (Z.ltb_spec i 10).
    + replace (Z.to_nat (10 - i)) with (S (Z.to_nat (10 - (i + 1)))) by lia. reflexivity.
    + replace (Z.to_nat (10 - i)) with 0%nat by lia.
      replace (Z.to_nat (10 - (i + 1))) with 0%nat by lia. reflexivity.
Qed.

Lemma errorReport_spec errors :
  ingester.errorReport errors =
    match errors with
    | [] => []
    | _ :: _ =>
        (ingester.newline +:+ "Errors (" +:+ pretty (Z.of_nat (length errors)) +:+ "):"
           +:+ ingester.newline)
        :: (Spec.reportLine <$> take 10 errors)
        ++ (if (10 <? length errors)%nat
            then ["  ... and " +:+ pretty (Z.of_nat (length errors) - 10)
                    +:+ " more errors" +:+ ingester.newline]
            else [])
    end.
Proof.
  unfold ingester.errorReport. destruct errors as [|e errors]; [reflexivity|].
  destruct (Z.ltb_spec 0 (Z.of_nat (length (e :: errors)))); [|cbn [length] in *; lia].
  rewrite printFirst_take by lia. change (Z.to_nat (10 - 0)) with 10%nat.
  cbn [app]. do 2 f_equal.
  destruct (Z.ltb_spec 10 (Z.of_nat (length (e :: errors))));
    destruct (Nat.ltb_spec 10 (length (e :: errors))); try reflexivity; lia.
Qed.

Section Observations.
Context {R : Type} `{WeatherRepository R}.
Variable wall : nat -> GoTime.Instant.

Lemma observationsOf_length stationID ls : forall n,
  (length (Spec.observationsOf wall stationID ls n) <= length ls)%nat.
Proof.
  induction ls as [|l ls IH]; intros n; cbn [Spec.observationsOf length]; [lia|].
  destruct (Spec.normalize _ l stationID); cbn [length]; [specialize (IH (S n)) | specialize (IH n)]; lia.
Qed.
End Observations.

(* ===================================================================== *)
(** * Properties: the PostgreSQL repository *)
(* ===================================================================== *)

(** ** The PostgreSQL repository *)

Lemma sameTables_refl db : Spec.sameTables db db.
Proof. repeat split. Qed.

Lemma sameTables_trans db1 db2 db3 :
  Spec.sameTables db1 db2 -> Spec.sameTables db2 db3 -> Spec.sameTables db1 db3.
Proof. intros (?&?&?) (?&?&?). repeat split; congruence. Qed.

Lemma statement_tables db : Spec.sameTables db (postgres.statement db).2.
Proof. repeat split. Qed.

Lemma readClock_tables db : Spec.sameTables db (postgres.readClock db).2.
Proof. repeat split. Qed.

(** *** The batch upsert *)

Lemma execBatch_spec observations : forall t db,
  match postgres.execBatch observations t db with
  | (inl _, db') => Spec.sameTables db db'
  | (inr t', db') => Spec.sameTables db db' /\ t' = Spec.upsertAll observations t
  end.
Proof.
  induction observations as [|obs rest IH]; intros t db; cbn [postgres.execBatch].
  - split; [apply sameTables_refl | reflexivity].
  - unfold postgres.statement at 1.
    destruct (postgres.rejects db (postgres.statements db)) as [msg|]; cbn [fmap option_fmap option_map].
    + repeat split.
    + specialize (IH (postgres.upsertObservation obs t)
                     (postgres.mkDB (postgres.weather_stations db)
                        (postgres.weather_observations db) (postgres.weather_statistics db)
                        (postgres.rejects db) (S (postgres.statements db))
                        (postgres.clock db) (postgres.clockReadings db))).
      destruct (postgres.execBatch rest _ _) as [[err|t'] db'].
      * exact IH.
      * destruct IH as [Hsame ->]. split; [exact Hsame | reflexivity].
Qed.

(** The batch is stored whole or not at all. *)
Lemma CreateObservationsBatch_atomic observations db :
  match postgres.CreateObservationsBatch observations db with
  | (Some _, db') => Spec.sameTables db db'
  | (None, db') =>
      postgres.weather_stations db' = postgres.weather_stations db /\
      postgres.weather_statistics db' = postgres.weather_statistics db /\
      postgres.weather_observations db' =
        Spec.upsertAll observations (postgres.weather_observations db)
  end.
Proof.
  unfold postgres.CreateObservationsBatch.
  destruct observations as [|obs rest]; [repeat split|].
  unfold postgres.statement at 1.
  destruct (postgres.rejects db (postgres.statements db)) as [msg|];
    cbn [fmap option_fmap option_map]; [repeat split|].
  unfold postgres.statement at 1. cbn [postgres.rejects postgres.statements].
  destruct (postgres.rejects db (S (postgres.statements db))) as [msg|];
    cbn [fmap option_fmap option_map]; [repeat split|].
  match goal with
  | |- context [postgres.execBatch ?l ?t ?d] =>
      pose proof (execBatch_spec l t d) as Hexec;
      destruct (postgres.execBatch l t d) as [[err|t'] db1]
  end.
  - exact Hexec.
  - destruct Hexec as [(Hs & Ho & Hst) ->]. cbn in Hs, Ho, Hst.
    unfold postgres.statement.
    destruct (postgres.rejects db1 (postgres.statements db1)) as [msg|];
      cbn [fmap option_fmap option_map].
    + repeat split; assumption.
    + cbn. repeat split; assumption.
Qed.

Lemma upsertObservation_lookup_ne obs t k :
  k <> Spec.keyOf obs -> postgres.upsertObservation obs t !! k = t !! k.
Proof. intros Hne. unfold postgres.upsertObservation. apply lookup_insert_ne. auto. Qed.

Lemma upsertObservation_lookup obs t :
  exists createdAt,
    postgres.upsertObservation obs t !! Spec.keyOf obs =
      Some (ObservationRow.mk (WeatherObservation.MaxTemperatureCelsius obs)
              (WeatherObservation.MinTemperatureCelsius obs)
              (WeatherObservation.PrecipitationCm obs) createdAt) /\
    createdAt = match t !! Spec.keyOf obs with
                | Some row => ObservationRow.created_at row
                | None => WeatherObservation.CreatedAt obs
                end.
Proof.
  unfold postgres.upsertObservation. eexists. split; [apply lookup_insert_eq | reflexivity].
Qed.

(** A key no observation of the batch has keeps its row. *)
Lemma upsertAll_lookup_other observations : forall t k,
  Forall (fun obs => Spec.keyOf obs <> k) observations ->
  Spec.upsertAll observations t !! k = t !! k.
Proof.
  induction observations as [|obs rest IH]; intros t k Hall; [reflexivity|].
  inversion Hall as [|? ? Hobs Hrest]; subst. cbn [Spec.upsertAll fold_left].
  change (fold_left _ rest ?t0) with (Spec.upsertAll rest t0).
  rewrite IH by exact Hrest. apply upsertObservation_lookup_ne. congruence.
Qed.

(** The row of a key holds the measurements of the last observation of
    the batch with that key. *)
Lemma upsertAll_lookup_last before obs after t :
  Forall (fun o => Spec.keyOf o <> Spec.keyOf obs) after ->
  exists createdAt,
    Spec.upsertAll (before ++ obs :: after) t !! Spec.keyOf obs =
      Some (ObservationRow.mk (WeatherObservation.MaxTemperatureCelsius obs)
              (WeatherObservation.MinTemperatureCelsius obs)
              (WeatherObservation.PrecipitationCm obs) createdAt).
Proof.
  intros Hafter. unfold Spec.upsertAll. rewrite fold_left_app. cbn [fold_left].
  change (fold_left _ after ?t0) with (Spec.upsertAll after t0).
  rewrite upsertAll_lookup_other by exact Hafter.
  destruct (upsertObservation_lookup obs
              (fold_left (fun t0 o => postgres.upsertObservation o t0) before t))
    as (createdAt & Hrow & _).
  exists createdAt. exact Hrow.
Qed.

(** A row that exists keeps its [created_at]. *)
Lemma upsertAll_created_at observations : forall t k row,
  t !! k = Some row ->
  exists row', Spec.upsertAll observations t !! k = Some row' /\
               ObservationRow.created_at row' = ObservationRow.created_at row.
Proof.
  induction observations as [|obs rest IH]; intros t k row Hrow.
  - exists row. split; [exact Hrow | reflexivity].
  - cbn [Spec.upsertAll fold_left]. change (fold_left _ rest ?t0) with (Spec.upsertAll rest t0).
    destruct (decide (k = Spec.keyOf obs)) as [->|Hne].
    + destruct (upsertObservation_lookup obs t) as (c & Hnew & Hc). rewrite Hrow in Hc.
      destruct (IH _ _ _ Hnew) as (row' & Hrow' & Hcreated).
      exists row'. split; [exact Hrow'|]. rewrite Hcreated. cbn. exact Hc.
    + apply IH. rewrite upsertObservation_lookup_ne by exact Hne. exact Hrow.
Qed.

Section Statistics.

Variable numericAvg numericSum : list Float64.t -> Float64.t.

Lemma selectYear_tables stationID year db db' :
  postgres.weather_observations db' = postgres.weather_observations db ->
  postgres.selectYear stationID year db' = postgres.selectYear stationID year db.
Proof. unfold postgres.selectYear. intros ->. reflexivity. Qed.

Lemma countColumn_le column rows :
  0 <= postgres.countColumn column rows <= Z.of_nat (length rows).
Proof.
  unfold postgres.countColumn. split; [lia|]. apply inj_le.
  induction rows as [|row rows IH]; cbn; [lia|].
  destruct (column row); cbn; lia.
Qed.

(** What the aggregate query returns. *)
Lemma CalculateYearlyStatistics_spec stationID year db :
  match postgres.CalculateYearlyStatistics numericAvg numericSum stationID year db with
  | (inl stats, db') =>
      Spec.sameTables db db' /\
      WeatherStatistics.StationID stats = stationID /\
      WeatherStatistics.Year stats = year /\
      WeatherStatistics.ObservationCount stats =
        Z.of_nat (length (postgres.selectYear stationID year db)) /\
      WeatherStatistics.ValidMaxTempCount stats =
        postgres.countColumn ObservationRow.max_temperature_celsius
          (postgres.selectYear stationID year db) /\
      WeatherStatistics.ValidMinTempCount stats =
        postgres.countColumn ObservationRow.min_temperature_celsius
          (postgres.selectYear stationID year db) /\
      WeatherStatistics.ValidPrecipitationCount stats =
        postgres.countColumn ObservationRow.precipitation_cm
          (postgres.selectYear stationID year db)
  | (inr _, db') => Spec.sameTables db db'
  end.
Proof.
  unfold postgres.CalculateYearlyStatistics, postgres.statement.
  destruct (postgres.rejects db (postgres.statements db)) as [msg|];
    cbn [fmap option_fmap option_map]; [repeat split|].
  cbn. repeat split.
Qed.

(** The upsert touches the row of its key and no other. *)
Lemma UpsertStatistics_spec stats db :
  match postgres.UpsertStatistics stats db with
  | (Some _, db') => Spec.sameTables db db'
  | (None, db') =>
      postgres.weather_stations db' = postgres.weather_stations db /\
      postgres.weather_observations db' = postgres.weather_observations db /\
      (forall k, k <> (WeatherStatistics.StationID stats, WeatherStatistics.Year stats) ->
         postgres.weather_statistics db' !! k = postgres.weather_statistics db !! k)
  end.
Proof.
  unfold postgres.UpsertStatistics, postgres.statement.
  destruct (postgres.rejects db (postgres.statements db)) as [msg|];
    cbn [fmap option_fmap option_map]; [repeat split|].
  cbn [postgres.readClock postgres.weather_statistics].
  destruct (postgres.weather_statistics db !! _) as [row|]; cbn.
  all: repeat split; intros k Hk; apply lookup_insert_ne; congruence.
Qed.

Lemma ListStations_spec limit offset db :
  match postgres.ListStations limit offset db with
  | (inl stations, db') =>
      Spec.sameTables db db' /\ 0 <= limit /\ 0 <= offset /\
      stations = take (Z.to_nat limit) (drop (Z.to_nat offset) (postgres.stationsInOrder db))
  | (inr _, db') => Spec.sameTables db db'
  end.
Proof.
  unfold postgres.ListStations, postgres.statement.
  destruct (postgres.rejects db (postgres.statements db)) as [msg|];
    cbn [fmap option_fmap option_map]; [repeat split|].
  destruct (Z.ltb_spec limit 0); [repeat split|].
  destruct (Z.ltb_spec offset 0); [repeat split|].
  repeat split; assumption.
Qed.

#[local] Existing Instance postgres.weatherRepository.
Let pg := postgres.weatherRepository numericAvg numericSum.

Lemma calculateOne_untouched db0 k stationID year totalStats w :
  stationID <> k.1 \/ postgres.selectYear k.1 k.2 db0 = [] ->
  Spec.untouched db0 k w ->
  Spec.untouched db0 k (@services.calculateOne _ pg stationID year (totalStats, w)).2.
Proof.
  intros Hnone [Hobs Hstat]. unfold services.calculateOne.
  cbn [CalculateYearlyStatistics UpsertStatistics pg postgres.weatherRepository].
  pose proof (CalculateYearlyStatistics_spec stationID year (repo w)) as Hcalc.
  destruct (postgres.CalculateYearlyStatistics numericAvg numericSum stationID year (repo w))
    as [[stats|err] db1].
  - destruct Hcalc as ((Hs1 & Ho1 & Hst1) & Hid & Hyear & Hcount & _).
    cbn [services.setRepo repo].
    destruct (Z.ltb_spec 0 (WeatherStatistics.ObservationCount stats)) as [Hpos|Hzero].
    + pose proof (UpsertStatistics_spec stats db1) as Hup.
      destruct (postgres.UpsertStatistics stats db1) as [[err|] db2]; cbn [snd].
      * destruct Hup as (Hs2 & Ho2 & Hst2).
        split; cbn [snd repo services.emit services.setRepo]; congruence.
      * destruct Hup as (Hs2 & Ho2 & Hst2).
        split; cbn [snd repo services.emit services.setRepo]; [congruence|].
        rewrite Hst2, Hst1; [exact Hstat|].
        intros ->. rewrite Hid, Hyear in *. cbn [fst snd] in Hnone.
        destruct Hnone as [Hne|Hnone]; [congruence|].
        rewrite (selectYear_tables _ _ db0 (repo w) Hobs) in Hcount.
        rewrite Hnone in Hcount. cbn in Hcount. lia.
    + split; cbn [snd repo services.emit services.setRepo]; congruence.
  - destruct Hcalc as (Hs1 & Ho1 & Hst1).
    split; cbn [snd repo services.emit services.setRepo]; congruence.
Qed.

Lemma fold_left_invariant {A B : Type} (P : A -> Prop) (Q : B -> Prop)
    (f : A -> B -> A) (l : list B) :
  (forall a b, Q b -> P a -> P (f a b)) ->
  Forall Q l -> forall a, P a -> P (fold_left f l a).
Proof.
  intros Hf Hl. induction Hl as [|b l Hb Hl IH]; intros a Ha; cbn; auto.
Qed.

Lemma calculateStation_untouched db0 k station acc :
  WeatherStation.StationID station <> k.1 \/ postgres.selectYear k.1 k.2 db0 = [] ->
  Spec.untouched db0 k acc.2 ->
  Spec.untouched db0 k (@services.calculateStation _ pg station acc).2.
Proof.
  intros Hnone Hacc. unfold services.calculateStation.
  pose proof (fold_left_invariant
                (fun a : Z * World postgres.DB => Spec.untouched db0 k a.2) (fun _ => True)
                (fun acc year => services.calculateOne (WeatherStation.StationID station) year acc)
                services.years
                ltac:(intros [n w] y _ Ha; apply calculateOne_untouched; assumption)
                ltac:(apply Forall_forall; auto)
                acc Hacc) as Hfold.
  destruct (fold_left _ services.years acc) as [n w]. exact Hfold.
Qed.

(** The statistic of a station and year stays as it is through the
    whole recomputation when the station is not among those listed, or
    has no observation in that year. *)
Lemma CalculateAllStatistics_untouched wall (w : World postgres.DB) stationID year :
  stationID ∉ (WeatherStation.StationID <$>
                 take (Z.to_nat 10000) (postgres.stationsInOrder (repo w)))
  \/ postgres.selectYear stationID year (repo w) = [] ->
  postgres.weather_statistics
    (repo (@services.CalculateAllStatistics _ pg wall w).2) !! (stationID, year)
  = postgres.weather_statistics (repo w) !! (stationID, year).
Proof.
  intros Hnone. unfold services.CalculateAllStatistics. cbn [services.now].
  cbn [ListStations pg postgres.weatherRepository services.emit repo].
  pose proof (ListStations_spec 10000 0 (repo w)) as Hlist.
  destruct (postgres.ListStations 10000 0 (repo w)) as [[stations|err] db1].
  - destruct Hlist as ((Hs & Ho & Hst) & _ & _ & Hstations).
    change (Z.to_nat 0) with 0%nat in Hstations. cbn [drop] in Hstations.
    assert (Forall (fun station =>
                      WeatherStation.StationID station <> stationID \/
                      postgres.selectYear stationID year (repo w) = []) stations) as Hall.
    { apply Forall_forall. intros station Hin.
      destruct Hnone as [Hout|Hnone]; [left|right; exact Hnone].
      intros <-. apply Hout. apply list_elem_of_fmap. exists station.
      split; [reflexivity|]. rewrite Hstations in Hin. exact Hin. }
    pose proof (fold_left_invariant
                  (fun a : Z * World postgres.DB => Spec.untouched (repo w) (stationID, year) a.2)
                  (fun station =>
                     WeatherStation.StationID station <> stationID \/
                     postgres.selectYear stationID year (repo w) = [])
                  (fun acc station => services.calculateStation station acc)
                  stations
                  ltac:(intros a st Hst' Ha; apply calculateStation_untouched; assumption)
                  Hall) as Hfold.
    match goal with
    | |- context [fold_left ?f stations ?a] =>
        specialize (Hfold a ltac:(split; cbn [snd repo services.emit services.setRepo]; congruence));
        destruct (fold_left f stations a) as [n w1]
    end.
    cbn [snd repo services.emit services.setRepo] in *. exact (proj2 Hfold).
  - destruct Hlist as (Hs & Ho & Hst). cbn [snd repo services.emit services.setRepo].
    congruence.
Qed.

End Statistics.

Section Unreachable.

Variable numericAvg numericSum : list Float64.t -> Float64.t.
Variable wall : nat -> GoTime.Instant.
Variable fs : FileSystem.

Let pg := postgres.weatherRepository numericAvg numericSum.

Lemma ingestFile_rejected filePath batchSize (w : World postgres.DB) :
  Spec.rejectsAll (repo w) ->
  exists err w',
    @services.ingestFile _ pg wall fs filePath batchSize w = (failed err, w') /\
    Spec.rejectsAll (repo w').
Proof.
  intros Hrej. pose proof (@ingestFile_early _ pg wall fs filePath batchSize w) as Hearly.
  cbn [CreateStation pg postgres.weatherRepository] in Hearly.
  unfold postgres.CreateStation, postgres.statement in Hearly.
  destruct (postgres.rejects (repo w) (postgres.statements (repo w))) as [msg|] eqn:Hmsg.
  - cbn [fmap option_fmap option_map] in Hearly.
    destruct Hearly as (w' & Hrepo & Heq). eexists. exists w'. split; [exact Heq|].
    rewrite Hrepo. exact Hrej.
  - exfalso. exact (Hrej _ Hmsg).
Qed.

Lemma ingestFiles_rejected files batchSize : forall res (w : World postgres.DB),
  Spec.rejectsAll (repo w) ->
  exists res' w',
    @services.ingestFiles _ pg wall fs files batchSize res w = (ok res', w') /\
    length (IngestionResult.Errors res')
      = (length (IngestionResult.Errors res) + length files)%nat.
Proof.
  induction files as [|filePath rest IH]; intros res w Hrej.
  - exists res, w. split; [reflexivity | cbn; lia].
  - destruct (ingestFile_rejected filePath batchSize w Hrej) as (err & w1 & Hf & Hrej1).
    destruct (@ingestFiles_failed _ pg wall fs filePath rest batchSize res w w1 err Hf)
      as (w2 & Hrepo & _ & ->).
    destruct (IH (services.addError (services.ingestErrorMessage filePath err) res) w2
                ltac:(rewrite Hrepo; exact Hrej1)) as (res' & w' & -> & Hlen).
    exists res', w'. split; [reflexivity|]. rewrite Hlen.
    cbn [services.addError IngestionResult.Errors]. rewrite length_app. cbn [length]. lia.
Qed.

Lemma IngestDirectory_rejected dataDir batchSize (w : World postgres.DB) files :
  Glob fs dataDir = inl files -> files <> [] ->
  Spec.rejectsAll (repo w) ->
  exists res w',
    @services.IngestDirectory _ pg wall fs dataDir batchSize w = (ok res, w') /\
    length (IngestionResult.Errors res) = length files.
Proof.
  intros Hglob Hne Hrej. unfold services.IngestDirectory. cbn [services.now].
  rewrite Hglob. destruct files as [|f files]; [contradiction|].
  match goal with
  | |- context [services.ingestFiles wall fs ?fl batchSize ?r ?w0] =>
      destruct (ingestFiles_rejected fl batchSize r w0 ltac:(exact Hrej))
        as (res' & w' & -> & Hlen)
  end.
  eexists. eexists. split; [reflexivity|].
  cbn [services.setDuration IngestionResult.Errors]. rewrite Hlen. cbn. lia.
Qed.

End Unreachable.


(* ===================================================================== *)
(** * Properties: the recomputation of the statistics                     *)
(* ===================================================================== *)

Section Recomputation.

Context {R : Type} `{WeatherRepository R}.
Variable wall : nat -> GoTime.Instant.

(** A pair whose aggregate cannot be computed is logged and left. *)
Lemma calculateOne_calculation_fails stationID year totalStats (w : World R) err r' :
  CalculateYearlyStatistics stationID year (repo w) = (inr err, r') ->
  services.calculateOne stationID year (totalStats, w) =
    (totalStats,
     mkWorld r'
       (LogError "[STATS_CALC_ERROR] Failed to calculate statistics"
          [("station_id", VString stationID); ("year", VInt year)] err :: events w)
       (readings w)).
Proof. intros Hcalc. unfold services.calculateOne. rewrite Hcalc. reflexivity. Qed.

(** A pair whose statistic cannot be saved is logged and left. *)
Lemma calculateOne_save_fails stationID year totalStats (w : World R) stats r1 err r2 :
  CalculateYearlyStatistics stationID year (repo w) = (inl stats, r1) ->
  0 < WeatherStatistics.ObservationCount stats ->
  UpsertStatistics stats r1 = (Some err, r2) ->
  services.calculateOne stationID year (totalStats, w) =
    (totalStats,
     mkWorld r2
       (LogError "[STATS_SAVE_ERROR] Failed to save statistics"
          [("station_id", VString stationID); ("year", VInt year)] err :: events w)
       (readings w)).
Proof.
  intros Hcalc Hpos Hsave. unfold services.calculateOne. rewrite Hcalc.
  cbn [services.setRepo repo]. apply Z.ltb_lt in Hpos. rewrite Hpos, Hsave. reflexivity.
Qed.

(** A pair with observations whose statistic is saved counts for one. *)
Lemma calculateOne_saved stationID year totalStats (w : World R) stats r1 r2 :
  CalculateYearlyStatistics stationID year (repo w) = (inl stats, r1) ->
  0 < WeatherStatistics.ObservationCount stats ->
  UpsertStatistics stats r1 = (None, r2) ->
  services.calculateOne stationID year (totalStats, w) =
    (GoInt.add totalStats 1, mkWorld r2 (events w) (readings w)).
Proof.
  intros Hcalc Hpos Hsave. unfold services.calculateOne. rewrite Hcalc.
  cbn [services.setRepo repo]. apply Z.ltb_lt in Hpos. rewrite Hpos, Hsave. reflexivity.
Qed.

(** Once the stations are listed, no failure on a pair ends the
    recomputation with an error. *)
Lemma CalculateAllStatistics_completes (w : World R) stations r' :
  ListStations 10000 0 (repo w) = (inl stations, r') ->
  (services.CalculateAllStatistics wall w).1 = None.
Proof.
  intros Hlist. unfold services.CalculateAllStatistics. cbn [services.now].
  cbn [services.emit repo]. rewrite Hlist.
  destruct (fold_left _ stations _) as [totalStats w1]. reflexivity.
Qed.

(** *** The log of the recomputation *)

Lemma grown_refl ids old : Spec.grown ids old old.
Proof. exists []. split; [reflexivity|]. intros e id []. Qed.

Lemma grown_trans ids1 ids2 old mid evs :
  Spec.grown ids1 old mid -> Spec.grown ids2 mid evs -> Spec.grown (ids1 ++ ids2) old evs.
Proof.
  intros (new1 & -> & H1) (new2 & -> & H2). exists (new2 ++ new1).
  split; [apply app_assoc|]. intros e id Hin Hm. apply in_app_iff.
  apply in_app_iff in Hin as [Hin|Hin]; [right; eapply H2 | left; eapply H1]; eassumption.
Qed.

Lemma grown_incl ids ids' old evs :
  (forall id, In id ids -> In id ids') -> Spec.grown ids old evs -> Spec.grown ids' old evs.
Proof. intros Hincl (new & -> & Hnew). exists new. split; [reflexivity|]. eauto. Qed.

Lemma grown_In ids old evs e : Spec.grown ids old evs -> In e old -> In e evs.
Proof. intros (new & -> & _) Hin. apply in_app_iff. right. exact Hin. Qed.

Lemma calculateOne_log stationID year totalStats (w : World R) :
  Spec.grown [stationID] (events w) (events (services.calculateOne stationID year (totalStats, w)).2).
Proof.
  unfold services.calculateOne.
  assert (forall message err,
            Spec.grown [stationID] (events w)
              (LogError message [("station_id", VString stationID); ("year", VInt year)] err
               :: events w)) as Herror.
  { intros message err. eexists [_]. split; [reflexivity|].
    intros e id [<-|[]] [Hid|[Hid|[]]]; [|discriminate].
    injection Hid as <-. left. reflexivity. }
  destruct (CalculateYearlyStatistics stationID year (repo w)) as [[stats|err] r'];
    cbn [snd events services.emit services.setRepo]; [|apply Herror].
  destruct (0 <? WeatherStatistics.ObservationCount stats); [|apply grown_refl].
  destruct (UpsertStatistics stats _) as [[err|] r2];
    cbn [snd events services.emit services.setRepo repo]; [apply Herror | apply grown_refl].
Qed.

Lemma calculateYears_log stationID ys : forall (acc : Z * World R),
  Spec.grown [stationID] (events acc.2)
    (events (fold_left (fun acc year => services.calculateOne stationID year acc) ys acc).2).
Proof.
  induction ys as [|y ys IH]; intros [totalStats w]; cbn [fold_left]; [apply grown_refl|].
  eapply grown_incl; [|eapply grown_trans; [apply (calculateOne_log stationID y totalStats w)
                                            | apply IH]].
  intros id [<-|[<-|[]]]; left; reflexivity.
Qed.

Lemma calculateStation_log station (acc : Z * World R) :
  exists new,
    events (services.calculateStation station acc).2 = new ++ events acc.2 /\
    (forall e id, In e new -> Spec.mentions id e ->
                  id = WeatherStation.StationID station) /\
    In (Spec.stationComplete (WeatherStation.StationID station)) new.
Proof.
  unfold services.calculateStation.
  destruct (calculateYears_log (WeatherStation.StationID station) services.years acc)
    as (new & Hnew & Habout).
  destruct (fold_left _ services.years acc) as [totalStats w].
  cbn [snd events services.emit] in *.
  exists (Spec.stationComplete (WeatherStation.StationID station) :: new).
  rewrite Hnew. split; [reflexivity|]. split; [|left; reflexivity].
  intros e id [<-|Hin] Hm.
  - destruct Hm as [Hid|[]]. injection Hid as <-. reflexivity.
  - destruct (Habout e id Hin Hm) as [<-|[]]. reflexivity.
Qed.

Lemma calculateStations_log stations : forall (acc : Z * World R),
  exists new,
    events (fold_left (fun acc station => services.calculateStation station acc)
              stations acc).2 = new ++ events acc.2 /\
    (forall e id, In e new -> Spec.mentions id e ->
                  In id (WeatherStation.StationID <$> stations)) /\
    (forall station, In station stations ->
                     In (Spec.stationComplete (WeatherStation.StationID station)) new).
Proof.
  induction stations as [|st rest IH]; intros acc; cbn [fold_left].
  - exists []. split; [reflexivity|]. split; [intros e id []|intros station []].
  - destruct (calculateStation_log st acc) as (new1 & Hnew1 & Habout1 & Hdone1).
    destruct (IH (services.calculateStation st acc)) as (new2 & Hnew2 & Habout2 & Hdone2).
    exists (new2 ++ new1). rewrite Hnew2, Hnew1. split; [apply app_assoc|]. split.
    + intros e id Hin Hm. cbn [fmap list_fmap].
      apply in_app_iff in Hin as [Hin|Hin].
      * right. exact (Habout2 e id Hin Hm).
      * left. symmetry. exact (Habout1 e id Hin Hm).
    + intros station [<-|Hin]; apply in_app_iff;
        [right; exact Hdone1 | left; apply Hdone2; exact Hin].
Qed.

(** The log of a recomputation that lists its stations: the start, then
    events about the stations listed only, among them one for each
    station once it is done, then the end with the number of stations
    listed. *)
Lemma CalculateAllStatistics_log (w : World R) stations r' :
  ListStations 10000 0 (repo w) = (inl stations, r') ->
  exists total new,
    events (services.CalculateAllStatistics wall w).2
    = Spec.calculationComplete (Z.of_nat (length stations)) total
      :: new
      ++ LogInfo "[STATS_CALC_START] Starting statistics calculation"
           [("stage", VString "INITIALIZATION")]
      :: events w /\
    (forall e id, In e new -> Spec.mentions id e ->
                  In id (WeatherStation.StationID <$> stations)) /\
    (forall station, In station stations ->
                     In (Spec.stationComplete (WeatherStation.StationID station)) new).
Proof.
  intros Hlist. unfold services.CalculateAllStatistics. cbn [services.now].
  cbn [services.emit repo]. rewrite Hlist.
  match goal with
  | |- context [fold_left ?f stations ?a] =>
      destruct (calculateStations_log stations a) as (new & Hnew & Habout & Hdone);
      destruct (fold_left f stations a) as [totalStats w1]
  end.
  cbn [snd events services.setRepo services.emit] in *.
  exists totalStats, new. rewrite Hnew. split; [reflexivity|]. split; assumption.
Qed.

(** A recomputation that cannot list its stations logs its start and
    returns the error. *)
Lemma CalculateAllStatistics_not_listed (w : World R) err r' :
  ListStations 10000 0 (repo w) = (inr err, r') ->
  services.CalculateAllStatistics wall w
  = (Some (Errorf_w "failed to list stations" err),
     mkWorld r'
       (LogInfo "[STATS_CALC_START] Starting statistics calculation"
          [("stage", VString "INITIALIZATION")] :: events w)
       (S (readings w))).
Proof.
  intros Hlist. unfold services.CalculateAllStatistics. cbn [services.now].
  cbn [services.emit repo]. rewrite Hlist. reflexivity.
Qed.

(** The thirty years of the range, in order. *)
Lemma years_range : services.years = seqZ 1985 30 /\
  forall y, y ∈ services.years <-> 1985 <= y <= 2014.
Proof.
  split; [reflexivity|]. intros y. unfold services.years, services.firstYear,
    services.lastYear. rewrite elem_of_seqZ. lia.
Qed.

End Recomputation.

(** The query of the stations returns at most [limit] of them. *)
Lemma ListStations_at_most limit offset db stations db' :
  postgres.ListStations limit offset db = (inl stations, db') ->
  Z.of_nat (length stations) <= limit.
Proof.
  intros Hlist. pose proof (ListStations_spec limit offset db) as Hspec.
  rewrite Hlist in Hspec. destruct Hspec as (_ & Hlimit & _ & ->).
  rewrite length_take. lia.
Qed.

Section Outcome.

Context {R : Type} `{WeatherRepository R}.
Variable wall : nat -> GoTime.Instant.
Variable fs : FileSystem.

(** The outcome of [ingestFile] in terms of the flushes of all the
    batches, the last one included. *)
Lemma ingestFile_outcome filePath batchSize (w : World R) r1 file :
  CreateStation (Spec.stationFor wall filePath (readings w)) (repo w) = (None, r1) ->
  Open fs filePath = inl file ->
  GoRuntime.makeslicePanics batchSize = false ->
  let obs :=
    Spec.observationsOf wall (Spec.stationIDOf filePath) (lines file)
      (S (S (readings w))) in
  let flushed := Spec.batches (Z.to_nat batchSize) obs in
  exists outcome w',
    services.ingestFile wall fs filePath batchSize w = (outcome, w') /\
    repo w' = (Spec.flushAll flushed r1).2 /\
    match (Spec.flushAll flushed r1).1 with
    | Some err =>
        outcome = failed (Errorf_w "failed to insert batch" err) \/
        outcome = failed (Errorf_w "failed to insert final batch" err)
    | None =>
        outcome = match scanErr file with
                  | Some err => failed (Errorf_w "error reading file" err)
                  | None => ok (Spec.fileCounts (length (lines file)) (length obs))
                  end
    end.
Proof.
  intros Hstation Hopen Hmake. cbv zeta.
  destruct (ingestFile_spec wall fs filePath batchSize w r1 file Hstation Hopen Hmake)
    as (w' & Hrepo & Hrun).
  eexists. exists w'. split; [exact Hrun|]. split; [exact Hrepo|].
  unfold Spec.batches.
  destruct (Spec.splitBatches (Z.to_nat batchSize) [] _) as [closed rest].
  cbn [fst snd]. rewrite flushAll_app.
  destruct (Spec.flushAll closed r1) as [[err|] r2]; cbn [fst].
  - left. reflexivity.
  - destruct rest as [|o rest]; cbn [Spec.flushAll fst]; [reflexivity|].
    destruct (CreateObservationsBatch (o :: rest) r2) as [[err|] r3]; cbn [fst].
    + right. reflexivity.
    + reflexivity.
Qed.

End Outcome.


(* ===================================================================== *)
(** * The specification, statement by statement                          *)
(* ===================================================================== *)

(** C1. For a record whose date is a valid eight-digit YYYYMMDD date,
    [ToObservation] succeeds and maps a raw field [v] other than -9999
    to [float64(v) / 10.0] for the two temperatures, each on its own,
    and to [float64(v) / 100.0] for the precipitation; the quotient has
    the sign of [v]. The line 20230115<TAB>250<TAB>150<TAB>100 yields
    25.0, 15.0 and 1.0 for station TEST001. *)
Theorem ToObservation_unit_conversion :
  forall (now : GoTime.Instant) (r : RawWeatherRecord.t) (stationID : string),
    is_Some (Spec.calendarDate (RawWeatherRecord.Date r)) ->
    (exists obs,
       models.ToObservation now r stationID = inl obs /\
       (RawWeatherRecord.MaxTemperatureTenths r <> -9999 ->
        WeatherObservation.MaxTemperatureCelsius obs =
          Some (Float64.div (Float64.ofInt (RawWeatherRecord.MaxTemperatureTenths r))
                            (Float64.ofInt 10))) /\
       (RawWeatherRecord.MinTemperatureTenths r <> -9999 ->
        WeatherObservation.MinTemperatureCelsius obs =
          Some (Float64.div (Float64.ofInt (RawWeatherRecord.MinTemperatureTenths r))
                            (Float64.ofInt 10))) /\
       (RawWeatherRecord.PrecipitationTenths r <> -9999 ->
        WeatherObservation.PrecipitationCm obs =
          Some (Float64.div (Float64.ofInt (RawWeatherRecord.PrecipitationTenths r))
                            (Float64.ofInt 100)))) /\
    (forall v : Z,
       v <> 0 ->
       Float64.signBit (Float64.div (Float64.ofInt v) (Float64.ofInt 10)) = (v <? 0) /\
       Float64.signBit (Float64.div (Float64.ofInt v) (Float64.ofInt 100)) = (v <? 0)) /\
    (exists record obs,
       services.parseLine (Spec.tabbed "20230115" "250" "150" "100") = inl record /\
       models.ToObservation now record "TEST001" = inl obs /\
       WeatherObservation.ObservationDate obs = GoTime.mkDate 2023 1 15 /\
       WeatherObservation.MaxTemperatureCelsius obs = Some (Float64.ofInt 25) /\
       WeatherObservation.MinTemperatureCelsius obs = Some (Float64.ofInt 15) /\
       WeatherObservation.PrecipitationCm obs = Some (Float64.ofInt 1)).
Proof.
  intros now r stationID [date Hdate]. split; [|split].
  - rewrite ToObservation_cases, Hdate. eexists. split; [reflexivity|].
    cbn [WeatherObservation.MaxTemperatureCelsius WeatherObservation.MinTemperatureCelsius
         WeatherObservation.PrecipitationCm].
    unfold models.sentinel. repeat split; intros Hv; case_decide; congruence.
  - exact tenths_sign.
  - eexists. eexists. split; [vm_compute; reflexivity|].
    split; [vm_compute; reflexivity|]. repeat split.
Qed.

Lemma ToObservation_unit_conversion_witness :
  is_Some (Spec.calendarDate "20230115") /\
  exists obs,
    models.ToObservation 0 (RawWeatherRecord.mk "20230115" (-50) (-100) 0) "TEST001"
      = inl obs /\
    WeatherObservation.MaxTemperatureCelsius obs
      = Some (Float64.div (Float64.ofInt (-50)) (Float64.ofInt 10)) /\
    WeatherObservation.PrecipitationCm obs
      = Some (Float64.div (Float64.ofInt 0) (Float64.ofInt 100)).
Proof.
  assert (is_Some (Spec.calendarDate "20230115")) as Hdate
    by (vm_compute; eexists; reflexivity).
  split; [exact Hdate|].
  destruct (ToObservation_unit_conversion 0
              (RawWeatherRecord.mk "20230115" (-50) (-100) 0) "TEST001" Hdate)
    as [(obs & Hobs & Hmax & _ & Hprecip) _].
  exists obs. split; [exact Hobs|]. split.
  - apply Hmax. vm_compute. discriminate.
  - apply Hprecip. vm_compute. discriminate.
Defined.

(** C2. For a record with a valid date, [ToObservation] succeeds and a
    raw field equal to the sentinel -9999 leaves its observation field
    absent, whatever the two other fields hold (a field is absent only
    then); a record whose three fields are the sentinel yields an
    observation with the three fields absent and no error. *)
Theorem ToObservation_sentinel_absent :
  forall (now : GoTime.Instant) (r : RawWeatherRecord.t) (stationID : string),
    is_Some (Spec.calendarDate (RawWeatherRecord.Date r)) ->
    (exists obs,
       models.ToObservation now r stationID = inl obs /\
       (RawWeatherRecord.MaxTemperatureTenths r = -9999 <->
        WeatherObservation.MaxTemperatureCelsius obs = None) /\
       (RawWeatherRecord.MinTemperatureTenths r = -9999 <->
        WeatherObservation.MinTemperatureCelsius obs = None) /\
       (RawWeatherRecord.PrecipitationTenths r = -9999 <->
        WeatherObservation.PrecipitationCm obs = None)) /\
    (exists date,
       Spec.calendarDate (RawWeatherRecord.Date r) = Some date /\
       models.ToObservation now
         (RawWeatherRecord.mk (RawWeatherRecord.Date r) (-9999) (-9999) (-9999)) stationID
       = inl (WeatherObservation.mk 0 stationID date None None None now)).
Proof.
  intros now r stationID [date Hdate]. split.
  - rewrite ToObservation_cases, Hdate. eexists. split; [reflexivity|].
    cbn [WeatherObservation.MaxTemperatureCelsius WeatherObservation.MinTemperatureCelsius
         WeatherObservation.PrecipitationCm].
    unfold models.sentinel.
    repeat split; intros Hv; case_decide; congruence.
  - exists date. split; [exact Hdate|].
    rewrite ToObservation_cases. cbn [RawWeatherRecord.Date]. rewrite Hdate. reflexivity.
Qed.

Lemma ToObservation_sentinel_absent_witness :
  is_Some (Spec.calendarDate "20230115") /\
  exists obs,
    models.ToObservation 0 (RawWeatherRecord.mk "20230115" (-9999) 150 100) "TEST001"
      = inl obs /\
    WeatherObservation.MaxTemperatureCelsius obs = None /\
    WeatherObservation.MinTemperatureCelsius obs <> None.
Proof.
  assert (is_Some (Spec.calendarDate "20230115")) as Hdate
    by (vm_compute; eexists; reflexivity).
  split; [exact Hdate|].
  destruct (ToObservation_sentinel_absent 0
              (RawWeatherRecord.mk "20230115" (-9999) 150 100) "TEST001" Hdate)
    as [(obs & Hobs & Hmax & Hmin & _) _].
  exists obs. split; [exact Hobs|]. split.
  - apply Hmax. reflexivity.
  - intros Hnone. apply Hmin in Hnone. vm_compute in Hnone. discriminate.
Defined.

(** C3, as the code has it. [parseLine] returns a record exactly when
    the line splits on the tab into four fields of which the last three,
    trimmed, are integers; otherwise it fails, and its error is the
    number of fields it found or, with four fields, the error of [Atoi]
    on the first of the three numeric fields that is not an integer:
    the maximum when it is not one, else the minimum when it is not
    one, else the precipitation. That error holds the trimmed text of
    the field, not the line, and is a syntax error when the text is
    shorter than 19 bytes. In the loop of [ingestFile] such a failure
    adds one to the total and one to the failed records, leaves the
    batch and the repository as they are, and the scan goes on with the
    next line. *)
Theorem parseLine_four_integer_fields :
  forall (line : string),
    (forall record,
       services.parseLine line = inl record <->
       exists date a b c x y z,
         GoStrings.Split line GoStrings.tab = [date; a; b; c] /\
         Spec.integerLiteral (GoStrings.TrimSpace a) = Some x /\
         Spec.integerLiteral (GoStrings.TrimSpace b) = Some y /\
         Spec.integerLiteral (GoStrings.TrimSpace c) = Some z /\
         record = RawWeatherRecord.mk (GoStrings.TrimSpace date) x y z) /\
    (forall e,
       services.parseLine line = inr e <->
       (length (GoStrings.Split line GoStrings.tab) <> 4%nat /\
        e = invalidLineFormat (length (GoStrings.Split line GoStrings.tab)))
       \/
       (exists date a b c cause,
          GoStrings.Split line GoStrings.tab = [date; a; b; c] /\
          ((GoStrconv.Atoi (GoStrings.TrimSpace a) = inr cause /\
            e = invalidMaxTemperature cause) \/
           (is_Some (Spec.integerLiteral (GoStrings.TrimSpace a)) /\
            GoStrconv.Atoi (GoStrings.TrimSpace b) = inr cause /\
            e = invalidMinTemperature cause) \/
           (is_Some (Spec.integerLiteral (GoStrings.TrimSpace a)) /\
            is_Some (Spec.integerLiteral (GoStrings.TrimSpace b)) /\
            GoStrconv.Atoi (GoStrings.TrimSpace c) = inr cause /\
            e = invalidPrecipitation cause)))) /\
    (forall (field : string) (cause : GoStrconv.NumError),
       GoStrconv.Atoi field = inr cause ->
       Spec.integerLiteral field = None /\
       GoStrconv.Func cause = "Atoi" /\
       GoStrconv.Num cause = field /\
       ((String.length field < 19)%nat -> GoStrconv.Err cause = GoStrconv.ErrSyntax)) /\
    (forall (R : Type) (Repo : WeatherRepository R) (wall : nat -> GoTime.Instant)
            (stationID : string) (batchSize : Z) (rest : list string)
            (total successful failedRecords : Z) (batch : list WeatherObservation.t)
            (w : World R) (e : ParseError),
       services.parseLine line = inr e ->
       services.scanLoop wall stationID batchSize (line :: rest)
         (services.mkScanState
            (FileIngestionResult.mk total successful failedRecords) batch) w
       = services.scanLoop wall stationID batchSize rest
           (services.mkScanState
              (FileIngestionResult.mk (GoInt.add total 1) successful
                 (GoInt.add failedRecords 1)) batch)
           (mkWorld (repo w) (RecordIngestionError "parse_error" :: events w)
              (readings w))).
Proof.
  intros line. split; [|split; [|split]].
  - intros record. apply parseLine_inl.
  - intros e. apply parseLine_error.
  - intros field cause Hcause. destruct (Atoi_inr field cause Hcause) as (Hnone & Hfunc & Hnum).
    repeat split; try assumption.
    intros Hshort. rewrite (Atoi_short field cause Hshort Hcause). reflexivity.
  - intros R Repo wall stationID batchSize rest total successful failedRecords batch w e He.
    cbn [services.scanLoop]. rewrite He. reflexivity.
Qed.

Lemma parseLine_four_integer_fields_witness :
  services.parseLine "not a record" = inr (invalidLineFormat 1) /\
  services.parseLine (Spec.tabbed "20230115" "25x" "150" "1y0")
    = inr (invalidMaxTemperature (GoStrconv.mkNumError "Atoi" "25x" GoStrconv.ErrSyntax)) /\
  services.parseLine (Spec.tabbed "20230115" "250" " 15.0 " "1y0")
    = inr (invalidMinTemperature (GoStrconv.mkNumError "Atoi" "15.0" GoStrconv.ErrSyntax)) /\
  (fst (services.scanLoop (R := postgres.DB) (H := Spec.sampleRepository) Spec.stillClock
          "USC00110072" 1000 ["not a record"]
          (services.mkScanState (FileIngestionResult.mk 0 0 0) []) Spec.emptyWorld))
    = inr (services.mkScanState (FileIngestionResult.mk 1 0 1) []).
Proof.
  assert (services.parseLine "not a record" = inr (invalidLineFormat 1)) as Hbad
    by (vm_compute; reflexivity).
  split; [exact Hbad|]. split; [vm_compute; reflexivity|]. split; [vm_compute; reflexivity|].
  destruct (parseLine_four_integer_fields "not a record") as (_ & _ & _ & Hloop).
  rewrite (Hloop postgres.DB Spec.sampleRepository Spec.stillClock "USC00110072" 1000 []
             0 0 0 [] Spec.emptyWorld _ Hbad).
  vm_compute. reflexivity.
Defined.

(** C3, the part that fails: the error of [parseLine] does not carry the
    offending line. Two different lines fail with the same error, whose
    text gives the number of fields only, so whatever is read from the
    error, some failing line is not what is read. *)
Lemma parseLine_error_forgets_line :
  services.parseLine "20230115 250 150 100" = inr (invalidLineFormat 1) /\
  services.parseLine "not a record" = inr (invalidLineFormat 1) /\
  services.invalidLineFormatMessage 1 = "invalid line format: expected 4 fields, got 1" /\
  (forall lineOf : ParseError -> string,
     exists line e, services.parseLine line = inr e /\ lineOf e <> line).
Proof.
  assert (services.parseLine "20230115 250 150 100" = inr (invalidLineFormat 1)) as H1
    by (vm_compute; reflexivity).
  assert (services.parseLine "not a record" = inr (invalidLineFormat 1)) as H2
    by (vm_compute; reflexivity).
  split; [exact H1|]. split; [exact H2|]. split; [vm_compute; reflexivity|].
  intros lineOf.
  destruct (String.string_dec (lineOf (invalidLineFormat 1)) "not a record") as [Heq|Hne].
  - exists "20230115 250 150 100", (invalidLineFormat 1). split; [exact H1|].
    rewrite Heq. discriminate.
  - exists "not a record", (invalidLineFormat 1). split; [exact H2 | exact Hne].
Qed.

(** C4. With the station created, the file open and a batch size [make]
    accepts, [ingestFile] cuts the observations of the file, in order,
    into batches of the configured size (of one observation when the
    size is 0) and a last batch of what remains when that is not empty,
    and hands each batch to one call of [CreateObservationsBatch]. The
    first flush that fails ends the file: no later batch is flushed and
    [ingestFile] returns the error. When the file fails, wherever it
    stands among the files of the run, the loop of [IngestDirectory]
    goes on with the files after it and ends with a result, whose error
    strings are those it had before the file, then "failed to ingest
    FILE: ERROR" for the file, then one string for each later file
    that fails; and [IngestDirectory] returns the result of its loop
    with these error strings. In the PostgreSQL
    repository a batch is stored
    whole or not at all, and it is an upsert on (station, date): the row
    of a key holds the measurements of the last observation of the batch
    with that key, and the rows of other keys stay. *)
Theorem ingestFile_flushes_batches :
  forall (R : Type) (Repo : WeatherRepository R) (wall : nat -> GoTime.Instant)
         (fs : FileSystem) (filePath : string) (batchSize : Z) (w : World R)
         (r1 : R) (file : ScannedFile),
    CreateStation (Spec.stationFor wall filePath (readings w)) (repo w) = (None, r1) ->
    Open fs filePath = inl file ->
    GoRuntime.makeslicePanics batchSize = false ->
    let obs :=
      Spec.observationsOf wall (Spec.stationIDOf filePath) (lines file)
        (S (S (readings w))) in
    let flushed := Spec.batches (Z.to_nat batchSize) obs in
    let size := Nat.max 1 (Z.to_nat batchSize) in
    (concat flushed = obs /\
     Forall (fun b => length b = size) (removelast flushed) /\
     Forall (fun b => (1 <= length b <= size)%nat) flushed) /\
    (exists outcome w',
       services.ingestFile wall fs filePath batchSize w = (outcome, w') /\
       repo w' = (Spec.flushAll flushed r1).2 /\
       match (Spec.flushAll flushed r1).1 with
       | Some err =>
           outcome = failed (Errorf_w "failed to insert batch" err) \/
           outcome = failed (Errorf_w "failed to insert final batch" err)
       | None =>
           outcome = match scanErr file with
                     | Some err => failed (Errorf_w "error reading file" err)
                     | None => ok (Spec.fileCounts (length (lines file)) (length obs))
                     end
       end) /\
    (forall (before rest : list string) (res0 resBefore : IngestionResult.t)
            (w0 w1 : World R) (err : error),
       services.ingestFiles wall fs before batchSize res0 w0 = (ok resBefore, w) ->
       services.ingestFile wall fs filePath batchSize w = (failed err, w1) ->
       exists res' w' next outs,
         services.ingestFiles wall fs (before ++ filePath :: rest) batchSize res0 w0
           = (ok res', w') /\
         repo next = repo w1 /\ readings next = readings w1 /\
         Spec.fileOutcomes wall fs batchSize rest next outs /\
         length outs = length rest /\
         IngestionResult.Errors res'
           = IngestionResult.Errors resBefore
             ++ ("failed to ingest " +:+ filePath +:+ ": " +:+ Error err)
                :: Spec.errorsOf rest outs) /\
    (forall (dataDir : string) (files : list string) (w0 : World R),
       Glob fs dataDir = inl files -> files <> [] ->
       exists res w' start loopResult loopWorld,
         services.IngestDirectory wall fs dataDir batchSize w0 = (ok res, w') /\
         repo start = repo w0 /\ readings start = S (readings w0) /\
         services.ingestFiles wall fs files batchSize (Spec.noFileYet files) start
           = (ok loopResult, loopWorld) /\
         IngestionResult.Errors res = IngestionResult.Errors loopResult) /\
    (forall (observations : list WeatherObservation.t) (db : postgres.DB),
       match postgres.CreateObservationsBatch observations db with
       | (Some _, db') => Spec.sameTables db db'
       | (None, db') =>
           (forall before obs after,
              observations = before ++ obs :: after ->
              Forall (fun o => Spec.keyOf o <> Spec.keyOf obs) after ->
              exists createdAt,
                postgres.weather_observations db' !! Spec.keyOf obs =
                  Some (ObservationRow.mk
                          (WeatherObservation.MaxTemperatureCelsius obs)
                          (WeatherObservation.MinTemperatureCelsius obs)
                          (WeatherObservation.PrecipitationCm obs) createdAt)) /\
           (forall k,
              Forall (fun o => Spec.keyOf o <> k) observations ->
              postgres.weather_observations db' !! k
                = postgres.weather_observations db !! k)
       end).
Proof.
  intros R Repo wall fs filePath batchSize w r1 file Hstation Hopen Hmake. cbv zeta.
  split; [|split; [|split; [|split]]].
  - split; [apply batches_concat | apply and_comm, batches_sizes].
  - apply ingestFile_outcome; assumption.
  - intros before rest res0 resBefore w0 w1 err Hbefore Hfailed.
    destruct (ingestFiles_failed wall fs filePath rest batchSize resBefore w w1 err Hfailed)
      as (w2 & Hrepo & Hreadings & Hloop).
    destruct (ingestFiles_completes wall fs rest batchSize Hmake
                (services.addError (services.ingestErrorMessage filePath err) resBefore) w2)
      as (res' & w' & Hrun).
    destruct (ingestFiles_trace wall fs rest batchSize _ _ _ _ Hrun)
      as (outs & Houts & Hlength & Herrors).
    exists res', w', w2, outs.
    split. { rewrite (ingestFiles_app wall fs before batchSize (filePath :: rest)
                        res0 w0 resBefore w Hbefore), Hloop. exact Hrun. }
    split; [exact Hrepo|]. split; [exact Hreadings|]. split; [exact Houts|].
    split; [exact Hlength|].
    rewrite Herrors. cbn [services.addError IngestionResult.Errors].
    rewrite <- app_assoc. reflexivity.
  - intros dataDir files w0 Hglob Hne.
    destruct (IngestDirectory_completes wall fs dataDir batchSize w0 files Hglob Hne Hmake)
      as (res & w' & Hrun).
    destruct (IngestDirectory_loop wall fs dataDir batchSize w0 w' res Hrun)
      as (files' & start & loopResult & loopWorld & Hglob' & _ & Hrepo & Hreadings
          & Hloop & _ & Hres).
    rewrite Hglob in Hglob'. injection Hglob' as <-.
    exists res, w', start, loopResult, loopWorld.
    split; [exact Hrun|]. split; [exact Hrepo|]. split; [exact Hreadings|].
    split; [exact Hloop|]. rewrite Hres. reflexivity.
  - intros observations db.
    pose proof (CreateObservationsBatch_atomic observations db) as Hatomic.
    destruct (postgres.CreateObservationsBatch observations db) as [[err|] db'];
      [exact Hatomic|].
    destruct Hatomic as (_ & _ & Hrows). rewrite Hrows. split.
    + intros before obs after -> Hafter. apply upsertAll_lookup_last. exact Hafter.
    + intros k Hother. apply upsertAll_lookup_other. exact Hother.
Qed.

Lemma ingestFile_flushes_batches_witness :
  let w := mkWorld (Spec.rejectingAt 3) [] 0 in
  let station := Spec.stationFor Spec.stillClock Spec.samplePath 0 in
  let r1 := (postgres.CreateStation station (repo w)).2 in
  postgres.CreateStation station (repo w) = (None, r1) /\
  Open Spec.twoFiles Spec.samplePath = inl Spec.sampleFile /\
  GoRuntime.makeslicePanics 2 = false /\
  exists err w1 res' w',
    services.ingestFile (H := Spec.sampleRepository) Spec.stillClock Spec.twoFiles
      Spec.samplePath 2 w = (failed err, w1) /\
    Error err
      = "failed to insert batch: failed to insert observation: pq: numeric field overflow" /\
    postgres.weather_observations (repo w1) = ∅ /\
    services.ingestFiles (H := Spec.sampleRepository) Spec.stillClock Spec.twoFiles
      [Spec.samplePath; Spec.secondPath] 2
      (Spec.noFileYet [Spec.samplePath; Spec.secondPath]) w = (ok res', w') /\
    IngestionResult.Errors res'
      = ["failed to ingest /wx_data/USC00110072.txt: failed to insert batch: " +:+
         "failed to insert observation: pq: numeric field overflow"] /\
    IngestionResult.TotalRecords res' = 5 /\
    IngestionResult.SuccessfulRecords res' = 3 /\
    size (postgres.weather_observations (repo w')) = 3%nat.
Proof.
  cbv zeta.
  set (w := mkWorld (Spec.rejectingAt 3) [] 0).
  assert (postgres.CreateStation (Spec.stationFor Spec.stillClock Spec.samplePath 0)
            (repo w)
          = (None, (postgres.CreateStation
                      (Spec.stationFor Spec.stillClock Spec.samplePath 0) (repo w)).2))
    as Hstation by (vm_compute; reflexivity).
  assert (Open Spec.twoFiles Spec.samplePath = inl Spec.sampleFile) as Hopen
    by reflexivity.
  assert (GoRuntime.makeslicePanics 2 = false) as Hmake by reflexivity.
  split; [exact Hstation|]. split; [exact Hopen|]. split; [exact Hmake|].
  destruct (ingestFile_flushes_batches postgres.DB Spec.sampleRepository Spec.stillClock
              Spec.twoFiles Spec.samplePath 2 w _ Spec.sampleFile Hstation Hopen Hmake)
    as (_ & _ & Hrecorded & _).
  destruct (services.ingestFile (H := Spec.sampleRepository) Spec.stillClock Spec.twoFiles
              Spec.samplePath 2 w) as [outcome w1] eqn:Hfile.
  assert (exists err, outcome = failed err /\
            Error err = "failed to insert batch: failed to insert observation: " +:+
                        "pq: numeric field overflow") as (err & -> & Herr).
  { apply (f_equal fst) in Hfile. cbn [fst] in Hfile. rewrite <- Hfile.
    vm_compute. eexists. split; reflexivity. }
  destruct (Hrecorded [] [Spec.secondPath]
              (Spec.noFileYet [Spec.samplePath; Spec.secondPath])
              (Spec.noFileYet [Spec.samplePath; Spec.secondPath]) w w1 err
              eq_refl eq_refl)
    as (res' & w' & next & outs & Hrun & _ & _ & _ & _ & Herrors).
  exists err, w1, res', w'. split; [reflexivity|]. split; [exact Herr|].
  split. { apply (f_equal snd) in Hfile. cbn [snd] in Hfile. rewrite <- Hfile.
           vm_compute. reflexivity. }
  split; [exact Hrun|].
  cbn [app] in Hrun. clear Herrors.
  assert (services.ingestFiles (H := Spec.sampleRepository) Spec.stillClock Spec.twoFiles
            [Spec.samplePath; Spec.secondPath] 2
            (Spec.noFileYet [Spec.samplePath; Spec.secondPath]) w
          = (ok res', w')) as Hrun' by exact Hrun.
  clear Hrun Hfile Hrecorded.
  pose proof (f_equal fst Hrun') as Hres. pose proof (f_equal snd Hrun') as Hworld.
  cbn [fst snd] in Hres, Hworld. vm_compute in Hres. injection Hres as <-.
  rewrite <- Hworld. vm_compute. repeat split.
Defined.

(** C5. [ToObservation] fails exactly when the date field is not a
    string of eight digits YYYYMMDD naming a day of the calendar, and
    its error is then the validation error on the field "date"; on
    every valid date it returns an observation of that date and no
    error. *)
Theorem ToObservation_invalid_date :
  forall (now : GoTime.Instant) (r : RawWeatherRecord.t) (stationID : string),
    (Spec.calendarDate (RawWeatherRecord.Date r) = None <->
     models.ToObservation now r stationID
       = inr (ValidationError.mk "date" (RawWeatherRecord.Date r)
                "invalid date format, expected YYYYMMDD")) /\
    (forall e, models.ToObservation now r stationID = inr e ->
       Spec.calendarDate (RawWeatherRecord.Date r) = None) /\
    (forall date,
       Spec.calendarDate (RawWeatherRecord.Date r) = Some date <->
       exists obs,
         models.ToObservation now r stationID = inl obs /\
         WeatherObservation.ObservationDate obs = date).
Proof.
  intros now r stationID. rewrite ToObservation_cases.
  destruct (Spec.calendarDate (RawWeatherRecord.Date r)) as [d|].
  - split; [split; discriminate|]. split; [discriminate|].
    intros date. split.
    + intros [= <-]. eexists. split; reflexivity.
    + intros (obs & [= <-] & <-). reflexivity.
  - split; [split; reflexivity|]. split; [reflexivity|].
    intros date. split; [discriminate|]. intros (obs & Hobs & _). discriminate.
Qed.

Lemma ToObservation_invalid_date_witness :
  Spec.calendarDate "2023-01-15" = None /\
  models.ToObservation 0 (RawWeatherRecord.mk "2023-01-15" 250 150 100) "TEST001"
    = inr (ValidationError.mk "date" "2023-01-15" "invalid date format, expected YYYYMMDD") /\
  Spec.calendarDate "20230229" = None /\
  exists obs,
    models.ToObservation 0 (RawWeatherRecord.mk "20240229" 250 150 100) "TEST001" = inl obs /\
    WeatherObservation.ObservationDate obs = GoTime.mkDate 2024 2 29.
Proof.
  assert (Spec.calendarDate "2023-01-15" = None) as Hbad by (vm_compute; reflexivity).
  split; [exact Hbad|]. split.
  - apply (ToObservation_invalid_date 0 (RawWeatherRecord.mk "2023-01-15" 250 150 100)
             "TEST001"). exact Hbad.
  - split; [vm_compute; reflexivity|].
    apply (ToObservation_invalid_date 0 (RawWeatherRecord.mk "20240229" 250 150 100)
             "TEST001"). vm_compute. reflexivity.
Defined.

(** C6. In the recomputation, when the aggregate computed for a station
    and a year has [ObservationCount] zero, [UpsertStatistics] is not
    called: the repository is left as the computation left it, nothing
    is logged, the count of saved statistics stays, and the loop goes on
    with the years that remain. In the PostgreSQL repository, through
    the whole of [CalculateAllStatistics], the row of
    [weather_statistics] of a station and year without observations is
    neither written nor updated. *)
Theorem CalculateAllStatistics_skips_empty_years :
  (forall (R : Type) (Repo : WeatherRepository R) (stationID : string) (year : Z)
          (later : list Z) (totalStats : Z) (w : World R)
          (stats : WeatherStatistics.t) (r' : R),
     CalculateYearlyStatistics stationID year (repo w) = (inl stats, r') ->
     WeatherStatistics.ObservationCount stats = 0 ->
     services.calculateOne stationID year (totalStats, w)
       = (totalStats, mkWorld r' (events w) (readings w)) /\
     fold_left (fun acc y => services.calculateOne stationID y acc) (year :: later)
       (totalStats, w)
     = fold_left (fun acc y => services.calculateOne stationID y acc) later
         (totalStats, mkWorld r' (events w) (readings w))) /\
  (forall (numericAvg numericSum : list Float64.t -> Float64.t)
          (wall : nat -> GoTime.Instant) (w : World postgres.DB)
          (stationID : string) (year : Z),
     postgres.selectYear stationID year (repo w) = [] ->
     postgres.weather_statistics
       (repo (services.CalculateAllStatistics
                (H := postgres.weatherRepository numericAvg numericSum) wall w).2)
       !! (stationID, year)
     = postgres.weather_statistics (repo w) !! (stationID, year)).
Proof.
  split.
  - intros R Repo stationID year later totalStats w stats r' Hcalc Hzero.
    assert (services.calculateOne stationID year (totalStats, w)
            = (totalStats, mkWorld r' (events w) (readings w))) as Hone.
    { unfold services.calculateOne. rewrite Hcalc, Hzero. reflexivity. }
    split; [exact Hone|]. cbn [fold_left]. rewrite Hone. reflexivity.
  - intros numericAvg numericSum wall w stationID year Hnone.
    apply CalculateAllStatistics_untouched. right. exact Hnone.
Qed.

Lemma CalculateAllStatistics_skips_empty_years_witness :
  let w := mkWorld (Spec.catalogue 2) [] 0 in
  postgres.selectYear "S00000" 1999 (repo w) = [] /\
  postgres.weather_statistics
    (repo (services.CalculateAllStatistics (H := Spec.sampleRepository)
             Spec.stillClock w).2) !! ("S00000", 1999)
  = None.
Proof.
  cbv zeta.
  assert (postgres.selectYear "S00000" 1999 (repo (mkWorld (Spec.catalogue 2) [] 0)) = [])
    as Hnone by (vm_compute; reflexivity).
  split; [exact Hnone|].
  etransitivity.
  - exact (proj2 CalculateAllStatistics_skips_empty_years Spec.binary64Avg Spec.binary64Sum
             Spec.stillClock (mkWorld (Spec.catalogue 2) [] 0) "S00000" 1999 Hnone).
  - vm_compute. reflexivity.
Defined.

(** C7. In every statistic [CalculateYearlyStatistics] computes, the
    three counts of valid values are between zero and
    [ObservationCount]. *)
Theorem CalculateYearlyStatistics_valid_counts :
  forall (numericAvg numericSum : list Float64.t -> Float64.t)
         (stationID : string) (year : Z) (db db' : postgres.DB)
         (stats : WeatherStatistics.t),
    postgres.CalculateYearlyStatistics numericAvg numericSum stationID year db
      = (inl stats, db') ->
    0 <= WeatherStatistics.ValidMaxTempCount stats
      <= WeatherStatistics.ObservationCount stats /\
    0 <= WeatherStatistics.ValidMinTempCount stats
      <= WeatherStatistics.ObservationCount stats /\
    0 <= WeatherStatistics.ValidPrecipitationCount stats
      <= WeatherStatistics.ObservationCount stats.
Proof.
  intros numericAvg numericSum stationID year db db' stats Hcalc.
  pose proof (CalculateYearlyStatistics_spec numericAvg numericSum stationID year db) as Hspec.
  rewrite Hcalc in Hspec.
  destruct Hspec as (_ & _ & _ & -> & -> & -> & ->).
  repeat split; apply countColumn_le.
Qed.

Lemma CalculateYearlyStatistics_valid_counts_witness :
  let db :=
    postgres.setObservations
      (<[("USC00110072", GoTime.mkDate 2000 1 15) :=
           ObservationRow.mk (Some (Float64.ofInt 25)) (Some (Float64.ofInt 14))
             (Some (Float64.ofInt 1)) 0]>
       (<[("USC00110072", GoTime.mkDate 2000 1 16) :=
            ObservationRow.mk None (Some (Float64.ofInt 14)) None 0]> ∅))
      Spec.emptyDB in
  exists stats db',
    postgres.CalculateYearlyStatistics Spec.binary64Avg Spec.binary64Sum
      "USC00110072" 2000 db = (inl stats, db') /\
    WeatherStatistics.ObservationCount stats = 2 /\
    WeatherStatistics.ValidMaxTempCount stats = 1 /\
    WeatherStatistics.ValidMinTempCount stats = 2 /\
    WeatherStatistics.ValidPrecipitationCount stats = 1 /\
    0 <= WeatherStatistics.ValidMaxTempCount stats
      <= WeatherStatistics.ObservationCount stats.
Proof.
  cbv zeta.
  match goal with
  | |- context [postgres.CalculateYearlyStatistics ?a ?s ?i ?y ?d] =>
      destruct (postgres.CalculateYearlyStatistics a s i y d) as [[stats|err] db'] eqn:Hcalc
  end.
  - exists stats, db'. split; [reflexivity|].
    pose proof (CalculateYearlyStatistics_valid_counts _ _ _ _ _ _ _ Hcalc) as (Hmax & _).
    apply (f_equal fst) in Hcalc. vm_compute in Hcalc. injection Hcalc as <-.
    repeat split; try reflexivity; apply Hmax.
  - apply (f_equal fst) in Hcalc. vm_compute in Hcalc. discriminate.
Defined.

(** On a connection that accepts the statement, the query returns the
    page of the stations in order. *)
Lemma ListStations_accepted limit offset db :
  postgres.rejects db (postgres.statements db) = None ->
  0 <= limit -> 0 <= offset ->
  postgres.ListStations limit offset db
  = (inl (take (Z.to_nat limit) (drop (Z.to_nat offset) (postgres.stationsInOrder db))),
     (postgres.statement db).2).
Proof.
  intros Hok Hlimit Hoffset. unfold postgres.ListStations, postgres.statement.
  rewrite Hok. cbn [fmap option_fmap option_map snd].
  apply Z.ltb_ge in Hlimit, Hoffset. rewrite Hlimit, Hoffset. reflexivity.
Qed.

(** The order of the stations is that of the table of the stations. *)
Lemma stationsInOrder_stations db observations statistics rejects statements clock
    clockReadings :
  postgres.stationsInOrder
    (postgres.mkDB (postgres.weather_stations db) observations statistics rejects
       statements clock clockReadings)
  = postgres.stationsInOrder db.
Proof. reflexivity. Qed.

Lemma cutOff_sound db n listedID missingID :
  Spec.cutOff db n listedID missingID = true ->
  size (postgres.weather_stations db) = S n /\
  is_Some (postgres.weather_stations db !! missingID) /\
  length (take n (postgres.stationsInOrder db)) = n /\
  In listedID (WeatherStation.StationID <$> take n (postgres.stationsInOrder db)) /\
  ~ In missingID (WeatherStation.StationID <$> take n (postgres.stationsInOrder db)).
Proof.
  unfold Spec.cutOff. cbv zeta.
  intros [[[[Hsize Hmissing]%andb_true_iff Hlen]%andb_true_iff Hin]%andb_true_iff
            Hout]%andb_true_iff.
  split; [apply Nat.eqb_eq; exact Hsize|]. split.
  { destruct (postgres.weather_stations db !! missingID); [eexists; reflexivity|].
    discriminate Hmissing. }
  split; [rewrite length_fmap in Hlen; apply Nat.eqb_eq; exact Hlen|]. split.
  - apply existsb_exists in Hin as (id & Hid & Heq). apply String.eqb_eq in Heq.
    rewrite Heq. exact Hid.
  - intros Hlisted. rewrite forallb_forall in Hout. specialize (Hout _ Hlisted).
    rewrite String.eqb_refl in Hout. discriminate Hout.
Qed.

(** The catalogue of 10001 stations: S10000 is the one the first 10000
    in order leave out. *)
Lemma bigCatalogue_cutOff :
  Spec.cutOff Spec.bigCatalogue (Z.to_nat 10000) "S09999" "S10000" = true.
Proof. vm_compute. reflexivity. Qed.

Section Beyond.

Variable numericAvg numericSum : list Float64.t -> Float64.t.
Variable wall : nat -> GoTime.Instant.

#[local] Existing Instance postgres.weatherRepository.
Let pg := postgres.weatherRepository numericAvg numericSum.

(** A station that is not among the first 10000 in order is left out
    of the recomputation, whatever the server answers: its statistics
    stay as they are and nothing logged is about it. *)
Lemma CalculateAllStatistics_beyond (w : World postgres.DB) stationID :
  ~ In stationID (WeatherStation.StationID <$>
                    take (Z.to_nat 10000) (postgres.stationsInOrder (repo w))) ->
  (forall year : Z,
     postgres.weather_statistics
       (repo (@services.CalculateAllStatistics _ pg wall w).2) !! (stationID, year)
     = postgres.weather_statistics (repo w) !! (stationID, year)) /\
  (exists new,
     events (@services.CalculateAllStatistics _ pg wall w).2 = new ++ events w /\
     forall e, In e new -> ~ Spec.mentions stationID e).
Proof.
  intros Hout. split.
  - intros year.
    apply (CalculateAllStatistics_untouched numericAvg numericSum wall w stationID year).
    left. intros Hlisted. apply Hout. apply list_elem_of_In. exact Hlisted.
  - pose proof (ListStations_spec 10000 0 (repo w)) as Hspec.
    destruct (postgres.ListStations 10000 0 (repo w)) as [[stations|err] db1] eqn:Hlist.
    + destruct Hspec as (_ & _ & _ & Hstations).
      change (Z.to_nat 0) with 0%nat in Hstations. rewrite drop_0 in Hstations.
      destruct (@CalculateAllStatistics_log _ pg wall w stations db1 Hlist)
        as (total & new & Hevents & Habout & _).
      eexists (_ :: new ++ [_]). split.
      * rewrite Hevents. cbn [app]. rewrite <- app_assoc. reflexivity.
      * intros e [<-|Hnew] Hm.
        { destruct Hm as [Hm|[Hm|[Hm|[]]]]; discriminate Hm. }
        apply in_app_iff in Hnew as [Hnew|[<-|[]]].
        -- apply Hout. rewrite <- Hstations. exact (Habout e stationID Hnew Hm).
        -- destruct Hm as [Hm|[]]. discriminate Hm.
    + rewrite (@CalculateAllStatistics_not_listed _ pg wall w err db1 Hlist).
      eexists [_]. split; [reflexivity|].
      intros e [<-|[]] [Hm|[]]. discriminate Hm.
Qed.

(** When the listing is accepted the recomputation returns no error,
    logs each station listed as done and ends its log with their
    number. *)
Lemma CalculateAllStatistics_listed (w : World postgres.DB) :
  postgres.rejects (repo w) (postgres.statements (repo w)) = None ->
  (@services.CalculateAllStatistics _ pg wall w).1 = None /\
  (forall stationID,
     In stationID (WeatherStation.StationID <$>
                     take (Z.to_nat 10000) (postgres.stationsInOrder (repo w))) ->
     In (Spec.stationComplete stationID)
        (events (@services.CalculateAllStatistics _ pg wall w).2)) /\
  exists total,
    head (events (@services.CalculateAllStatistics _ pg wall w).2)
    = Some (Spec.calculationComplete
              (Z.of_nat (length (take (Z.to_nat 10000)
                                   (postgres.stationsInOrder (repo w))))) total).
Proof.
  intros Haccepted.
  pose proof (ListStations_accepted 10000 0 (repo w) Haccepted ltac:(lia) ltac:(lia))
    as Hlist.
  change (Z.to_nat 0) with 0%nat in Hlist. rewrite drop_0 in Hlist.
  destruct (@CalculateAllStatistics_log _ pg wall w _ _ Hlist)
    as (total & new & Hevents & _ & Hdone).
  split; [|split].
  - exact (@CalculateAllStatistics_completes _ pg wall w _ _ Hlist).
  - intros stationID (station & <- & Hstation)%in_map_iff.
    rewrite Hevents. right. apply in_app_iff. left. apply Hdone. exact Hstation.
  - exists total. rewrite Hevents. reflexivity.
Qed.

(** When the listing is rejected the recomputation returns the error. *)
Lemma CalculateAllStatistics_rejected (w : World postgres.DB) msg :
  postgres.rejects (repo w) (postgres.statements (repo w)) = Some msg ->
  (@services.CalculateAllStatistics _ pg wall w).1
  = Some (Errorf_w "failed to list stations"
            (Errorf_w "failed to list stations" (errorString msg))).
Proof.
  intros Hrejected.
  assert (@ListStations _ pg 10000 0 (repo w)
          = (inr (Errorf_w "failed to list stations" (errorString msg)),
             (postgres.statement (repo w)).2)) as Hlist.
  { cbn [ListStations pg postgres.weatherRepository].
    unfold postgres.ListStations, postgres.statement. rewrite Hrejected. reflexivity. }
  rewrite (@CalculateAllStatistics_not_listed _ pg wall w _ _ Hlist). reflexivity.
Qed.

End Beyond.

(** C8 on a store of 10001 stations, whatever statistics the store
    holds and whatever the server answers. Station S10000 is in the
    table of the stations and has an observation of 1 June 2000, but
    [CalculateAllStatistics] lists 10000 stations and never comes to
    it: no statistic of S10000 is written or changed and nothing the
    run logs is about S10000. When the listing is accepted the run
    returns no error, logs station S09999 as done and ends its log
    with 10000 as the number of stations. *)
Theorem CalculateAllStatistics_misses_station_10001 :
  forall (numericAvg numericSum : list Float64.t -> Float64.t)
         (wall : nat -> GoTime.Instant)
         (statistics0 : gmap (string * Z) StatisticsRow.t)
         (rejects : nat -> option string) (statements : nat)
         (clock : nat -> GoTime.Instant) (clockReadings : nat)
         (events0 : list Event) (readings0 : nat),
    let db :=
      postgres.mkDB (postgres.weather_stations Spec.bigCatalogue)
        (postgres.weather_observations Spec.bigCatalogue)
        statistics0 rejects statements clock clockReadings in
    let run :=
      services.CalculateAllStatistics
        (H := postgres.weatherRepository numericAvg numericSum) wall
        (mkWorld db events0 readings0) in
    (size (postgres.weather_stations db) = Z.to_nat 10001 /\
     is_Some (postgres.weather_stations db !! "S10000") /\
     postgres.weather_observations db !! ("S10000", Spec.june1st2000)
       = Some Spec.sampleRow) /\
    (forall year : Z,
       postgres.weather_statistics (repo run.2) !! ("S10000", year)
       = statistics0 !! ("S10000", year)) /\
    (exists new,
       events run.2 = new ++ events0 /\
       forall e, In e new -> ~ Spec.mentions "S10000" e) /\
    (rejects statements = None ->
     run.1 = None /\
     In (Spec.stationComplete "S09999") (events run.2) /\
     exists total, head (events run.2) = Some (Spec.calculationComplete 10000 total)) /\
    (forall msg,
       rejects statements = Some msg ->
       run.1 = Some (Errorf_w "failed to list stations"
                       (Errorf_w "failed to list stations" (errorString msg)))).
Proof.
  intros numericAvg numericSum wall statistics0 rejects statements clock clockReadings
    events0 readings0. cbv zeta.
  destruct (cutOff_sound _ _ _ _ bigCatalogue_cutOff)
    as (Hsize & Hstation & Hlength & Hin & Hout).
  rewrite <- (stationsInOrder_stations Spec.bigCatalogue
                (postgres.weather_observations Spec.bigCatalogue)
                statistics0 rejects statements clock clockReadings)
    in Hlength, Hin, Hout.
  set (db := postgres.mkDB (postgres.weather_stations Spec.bigCatalogue)
               (postgres.weather_observations Spec.bigCatalogue)
               statistics0 rejects statements clock clockReadings) in *.
  set (w := mkWorld db events0 readings0).
  destruct (CalculateAllStatistics_beyond numericAvg numericSum wall w "S10000" Hout)
    as [Hstatistics Hlog].
  split; [|split; [|split; [|split]]].
  - split; [exact Hsize|]. split; [exact Hstation|].
    subst db. unfold Spec.bigCatalogue, Spec.catalogue.
    cbn [postgres.weather_observations]. vm_compute. reflexivity.
  - exact Hstatistics.
  - exact Hlog.
  - intros Haccepted.
    destruct (CalculateAllStatistics_listed numericAvg numericSum wall w Haccepted)
      as (Hnone & Hdone & total & Hhead).
    split; [exact Hnone|]. split; [exact (Hdone "S09999" Hin)|].
    exists total. rewrite Hhead. cbn [repo w]. rewrite Hlength. reflexivity.
  - intros msg Hrejected.
    exact (CalculateAllStatistics_rejected numericAvg numericSum wall w msg Hrejected).
Qed.

(** C9, as the code has it. The result of [IngestDirectory] holds one
    error string for each file that failed and none for the others:
    the files the directory lists are ingested once each, in order,
    and the error strings of the result are, in that order, the
    strings "failed to ingest FILE: ERROR" of the files whose
    [ingestFile] returned an error, so there are as many strings as
    files that failed: at most as many as [TotalFiles], with no other
    cap. The cap is in the report of [main]: it prints the number of
    errors, the first ten error strings, and, when there are more than
    ten, one line with the number of those it left out. *)
Theorem IngestDirectory_errors_per_file :
  forall (R : Type) (Repo : WeatherRepository R) (wall : nat -> GoTime.Instant)
         (fs : FileSystem) (dataDir : string) (batchSize : Z) (w w' : World R)
         (res : IngestionResult.t),
    services.IngestDirectory wall fs dataDir batchSize w = (ok res, w') ->
    (exists files start outs,
       Glob fs dataDir = inl files /\
       IngestionResult.TotalFiles res = Z.of_nat (length files) /\
       repo start = repo w /\ readings start = S (readings w) /\
       Spec.fileOutcomes wall fs batchSize files start outs /\
       length outs = length files /\
       IngestionResult.Errors res = Spec.errorsOf files outs /\
       length (IngestionResult.Errors res) = Spec.failures outs) /\
    Z.of_nat (length (IngestionResult.Errors res)) <= IngestionResult.TotalFiles res /\
    (exists files,
       Glob fs dataDir = inl files /\
       IngestionResult.TotalFiles res = Z.of_nat (length files) /\
       Forall (fun msg => exists filePath err,
                 In filePath files /\
                 msg = "failed to ingest " +:+ filePath +:+ ": " +:+ Error err)
              (IngestionResult.Errors res)) /\
    ingester.errorReport (IngestionResult.Errors res) =
      match IngestionResult.Errors res with
      | [] => []
      | _ :: _ =>
          (ingester.newline +:+ "Errors (" +:+
             pretty (Z.of_nat (length (IngestionResult.Errors res))) +:+ "):" +:+
             ingester.newline)
          :: (Spec.reportLine <$> take 10 (IngestionResult.Errors res))
          ++ (if (10 <? length (IngestionResult.Errors res))%nat
              then ["  ... and " +:+
                      pretty (Z.of_nat (length (IngestionResult.Errors res)) - 10) +:+
                      " more errors" +:+ ingester.newline]
              else [])
      end.
Proof.
  intros R Repo wall fs dataDir batchSize w w' res Hrun.
  destruct (IngestDirectory_ok wall fs dataDir batchSize w w' res Hrun)
    as (files & Hglob & _ & Htotal & Hlen & Hall).
  split.
  { destruct (IngestDirectory_loop wall fs dataDir batchSize w w' res Hrun)
      as (files' & start & loopResult & loopWorld & Hglob' & _ & Hrepo & Hreadings
          & Hloop & _ & Hres).
    rewrite Hglob in Hglob'. injection Hglob' as <-.
    destruct (ingestFiles_trace wall fs files batchSize _ _ _ _ Hloop)
      as (outs & Houts & Hlength & Herrors).
    cbn [Spec.noFileYet IngestionResult.Errors app] in Herrors.
    assert (IngestionResult.Errors res = Spec.errorsOf files outs) as Hres'.
    { rewrite Hres. cbn [services.setDuration IngestionResult.Errors]. exact Herrors. }
    exists files, start, outs. repeat split; try assumption.
    rewrite Hres'. apply errorsOf_length. exact Hlength. }
  split; [rewrite Htotal; lia|]. split.
  - exists files. split; [exact Hglob|]. split; [exact Htotal | exact Hall].
  - apply errorReport_spec.
Qed.

Lemma IngestDirectory_errors_per_file_witness :
  exists res w',
    services.IngestDirectory (H := Spec.sampleRepository) Spec.stillClock
      (Spec.directoryOf 11) "/wx_data" 1000 (mkWorld Spec.unreachableDB [] 0)
    = (ok res, w') /\
    IngestionResult.TotalFiles res = 11 /\
    length (IngestionResult.Errors res) = 11%nat /\
    Z.of_nat (length (IngestionResult.Errors res)) <= IngestionResult.TotalFiles res /\
    length (ingester.errorReport (IngestionResult.Errors res)) = 12%nat /\
    last (ingester.errorReport (IngestionResult.Errors res))
      = Some ("  ... and 1 more errors" +:+ ingester.newline) /\
    head (IngestionResult.Errors res)
      = Some ("failed to ingest /wx_data/S00000.txt: failed to create station: " +:+
              "failed to create station: dial tcp: connection refused") /\
    exists outs, length outs = 11%nat /\ Spec.failures outs = 11%nat.
Proof.
  destruct (services.IngestDirectory (H := Spec.sampleRepository) Spec.stillClock
              (Spec.directoryOf 11) "/wx_data" 1000 (mkWorld Spec.unreachableDB [] 0))
    as [outcome w'] eqn:Hrun.
  assert (exists res, outcome = ok res /\
            IngestionResult.TotalFiles res = 11 /\
            length (IngestionResult.Errors res) = 11%nat /\
            length (ingester.errorReport (IngestionResult.Errors res)) = 12%nat /\
            last (ingester.errorReport (IngestionResult.Errors res))
              = Some ("  ... and 1 more errors" +:+ ingester.newline) /\
            head (IngestionResult.Errors res)
              = Some ("failed to ingest /wx_data/S00000.txt: failed to create station: " +:+
                      "failed to create station: dial tcp: connection refused"))
    as (res & -> & Htotal & Hlen & Hreport & Hlast & Hhead).
  { apply (f_equal fst) in Hrun. cbn [fst] in Hrun. rewrite <- Hrun.
    vm_compute. eexists. repeat split. }
  exists res, w'. split; [reflexivity|].
  destruct (IngestDirectory_errors_per_file postgres.DB Spec.sampleRepository
              Spec.stillClock (Spec.directoryOf 11) "/wx_data" 1000
              (mkWorld Spec.unreachableDB [] 0) w' res Hrun)
    as ((files & start & outs & Hglob & _ & _ & _ & _ & Hlength & _ & Hfailures)
        & Hbound & _).
  injection Hglob as <-.
  repeat split; try assumption.
  exists outs. split; [exact Hlength|]. rewrite <- Hfailures. exact Hlen.
Defined.

(** C9, the part that fails: no fixed bound caps the error strings of
    the result. Eleven files ingested while the database cannot be
    reached return eleven error strings, one more than the ten the
    report prints; and for any bound, a directory of one file more
    returns more error strings than the bound. *)
Lemma IngestDirectory_errors_not_capped :
  (exists res w',
     services.IngestDirectory (H := Spec.sampleRepository) Spec.stillClock
       (Spec.directoryOf 11) "/wx_data" 1000 (mkWorld Spec.unreachableDB [] 0)
     = (ok res, w') /\
     length (IngestionResult.Errors res) = 11%nat) /\
  (forall bound : nat,
     exists res w',
       services.IngestDirectory (H := Spec.sampleRepository) Spec.stillClock
         (Spec.directoryOf (S bound)) "/wx_data" 1000 (mkWorld Spec.unreachableDB [] 0)
       = (ok res, w') /\
       (bound < length (IngestionResult.Errors res))%nat).
Proof.
  assert (forall n : nat,
            exists res w',
              services.IngestDirectory (H := Spec.sampleRepository) Spec.stillClock
                (Spec.directoryOf (S n)) "/wx_data" 1000 (mkWorld Spec.unreachableDB [] 0)
              = (ok res, w') /\
              length (IngestionResult.Errors res) = S n) as Hany.
  { intros n.
    destruct (IngestDirectory_rejected Spec.binary64Avg Spec.binary64Sum Spec.stillClock
                (Spec.directoryOf (S n)) "/wx_data" 1000
                (mkWorld Spec.unreachableDB [] 0) (Spec.dataFiles (S n)))
      as (res & w' & Hrun & Hlen).
    - reflexivity.
    - discriminate.
    - intros k. discriminate.
    - exists res, w'. split; [exact Hrun|].
      rewrite Hlen. unfold Spec.dataFiles. rewrite length_fmap, length_seq. reflexivity. }
  split.
  - exact (Hany 10%nat).
  - intros bound. destruct (Hany bound) as (res & w' & Hrun & Hlen).
    exists res, w'. split; [exact Hrun | lia].
Qed.

(** C10. When [ingestFile] returns a result and no error, the file was
    opened and read to its end, and with [n] lines of which [k] yield an
    observation the counters are [n], [k] and [n - k] as values of type
    [int]: the total is the sum of the successful and the failed
    records, every line counted once. *)
Theorem ingestFile_counts_add_up :
  forall (R : Type) (Repo : WeatherRepository R) (wall : nat -> GoTime.Instant)
         (fs : FileSystem) (filePath : string) (batchSize : Z) (w w' : World R)
         (res : FileIngestionResult.t),
    services.ingestFile wall fs filePath batchSize w = (ok res, w') ->
    FileIngestionResult.TotalRecords res =
      GoInt.add (FileIngestionResult.SuccessfulRecords res)
                (FileIngestionResult.FailedRecords res) /\
    exists file,
      Open fs filePath = inl file /\
      let n := length (lines file) in
      let k := length (Spec.observationsOf wall (Spec.stationIDOf filePath) (lines file)
                         (S (S (readings w)))) in
      (k <= n)%nat /\
      FileIngestionResult.TotalRecords res = GoInt.wrap (Z.of_nat n) /\
      FileIngestionResult.SuccessfulRecords res = GoInt.wrap (Z.of_nat k) /\
      FileIngestionResult.FailedRecords res = GoInt.wrap (Z.of_nat n - Z.of_nat k) /\
      (Z.of_nat n <= GoInt.maxInt ->
       FileIngestionResult.TotalRecords res = Z.of_nat n /\
       FileIngestionResult.SuccessfulRecords res = Z.of_nat k /\
       FileIngestionResult.FailedRecords res = Z.of_nat n - Z.of_nat k /\
       FileIngestionResult.TotalRecords res =
         FileIngestionResult.SuccessfulRecords res + FileIngestionResult.FailedRecords res).
Proof.
  intros R Repo wall fs filePath batchSize w w' res Hok.
  destruct (ingestFile_ok wall fs filePath batchSize w w' res Hok) as (file & Hopen & _ & ->).
  split; [apply fileCounts_sum|].
  exists file. split; [exact Hopen|]. cbv zeta.
  pose proof (observationsOf_length wall (Spec.stationIDOf filePath) (lines file)
                (S (S (readings w)))) as Hle.
  split; [exact Hle|]. unfold Spec.fileCounts.
  cbn [FileIngestionResult.TotalRecords FileIngestionResult.SuccessfulRecords
       FileIngestionResult.FailedRecords].
  split; [reflexivity|]. split; [reflexivity|]. split; [reflexivity|].
  intros Hfit. unfold GoInt.maxInt in Hfit.
  rewrite !wrap_small by (unfold GoInt.minInt, GoInt.maxInt; lia). lia.
Qed.

Lemma ingestFile_counts_add_up_witness :
  (services.ingestFile (H := Spec.sampleRepository) Spec.stillClock Spec.sampleDirectory
     Spec.samplePath 2 Spec.emptyWorld).1
    = ok (FileIngestionResult.mk 5 3 2) /\
  5 = GoInt.add 3 2.
Proof.
  destruct (services.ingestFile (H := Spec.sampleRepository) Spec.stillClock
              Spec.sampleDirectory Spec.samplePath 2 Spec.emptyWorld) as [outcome w'] eqn:Hrun.
  assert (outcome = ok (FileIngestionResult.mk 5 3 2)) as ->.
  { apply (f_equal fst) in Hrun. vm_compute in Hrun. symmetry. exact Hrun. }
  split; [reflexivity|].
  exact (proj1 (ingestFile_counts_add_up postgres.DB Spec.sampleRepository Spec.stillClock
                  Spec.sampleDirectory Spec.samplePath 2 Spec.emptyWorld w' _ Hrun)).
Defined.

(* ===================================================================== *)
(** * Further properties of the code                                      *)
(* ===================================================================== *)

(* ===================================================================== *)
(** * Further properties: the counters of a run *)
(* ===================================================================== *)

Section RunCounters.

Context {R : Type} `{WeatherRepository R}.
Variable wall : nat -> GoTime.Instant.
Variable fs : FileSystem.

Lemma add_add_shuffle a b c d :
  GoInt.add (GoInt.add a c) (GoInt.add b d) = GoInt.add (GoInt.add a b) (GoInt.add c d).
Proof.
  unfold GoInt.add. rewrite !wrap_add_l, !wrap_add_r. f_equal. lia.
Qed.

(** The loop over the files keeps the total of the run equal to the sum
    of its successful and failed records. *)
Lemma ingestFiles_balanced files batchSize : forall res (w : World R) res' w',
  IngestionResult.TotalRecords res =
    GoInt.add (IngestionResult.SuccessfulRecords res) (IngestionResult.FailedRecords res) ->
  services.ingestFiles wall fs files batchSize res w = (ok res', w') ->
  IngestionResult.TotalRecords res' =
    GoInt.add (IngestionResult.SuccessfulRecords res') (IngestionResult.FailedRecords res').
Proof.
  induction files as [|filePath rest IH]; intros res w res' w' Hres Hrun.
  - cbn in Hrun. injection Hrun as <- _. exact Hres.
  - destruct (services.ingestFile wall fs filePath batchSize w)
      as [[fileResult|err|msg] w1] eqn:Hfile.
    + destruct (ingestFiles_succeeded wall fs filePath rest batchSize res w w1 fileResult
                  Hfile) as (w2 & _ & _ & Hloop).
      rewrite Hloop in Hrun. apply (IH _ _ _ _) in Hrun; [exact Hrun|].
      destruct (ingestFile_ok wall fs filePath batchSize w w1 fileResult Hfile)
        as (file & _ & _ & ->).
      cbn [services.addFileResult IngestionResult.TotalRecords
        IngestionResult.SuccessfulRecords IngestionResult.FailedRecords].
      rewrite Hres, (fileCounts_sum (length (lines file))). apply eq_sym, add_add_shuffle.
    + destruct (ingestFiles_failed wall fs filePath rest batchSize res w w1 err Hfile)
        as (w2 & _ & _ & Hloop).
      rewrite Hloop in Hrun. apply (IH _ _ _ _) in Hrun; [exact Hrun|]. exact Hres.
    + cbn [services.ingestFiles] in Hrun. rewrite Hfile in Hrun. discriminate.
Qed.

End RunCounters.

(** X1. Whenever [IngestDirectory] returns a result, its total of
    records is the sum, as [int]s, of its successful and its failed
    records: a file that fails adds to none of the three counters, a
    file that succeeds adds its own balanced counts. *)
Theorem IngestDirectory_counts_add_up :
  forall (R : Type) (Repo : WeatherRepository R) (wall : nat -> GoTime.Instant)
         (fs : FileSystem) (dataDir : string) (batchSize : Z) (w w' : World R)
         (res : IngestionResult.t),
    services.IngestDirectory wall fs dataDir batchSize w = (ok res, w') ->
    IngestionResult.TotalRecords res =
      GoInt.add (IngestionResult.SuccessfulRecords res) (IngestionResult.FailedRecords res).
Proof.
  intros R Repo wall fs dataDir batchSize w w' res Hrun.
  unfold services.IngestDirectory in Hrun. cbn [services.now] in Hrun.
  destruct (Glob fs dataDir) as [[|f files]|err]; try discriminate.
  match type of Hrun with
  | context [services.ingestFiles ?a ?b ?c ?d ?e ?g] =>
      destruct (services.ingestFiles a b c d e g) as [[res1|err|msg] w1] eqn:Hloop
  end; try discriminate.
  apply ingestFiles_balanced in Hloop; [|reflexivity].
  injection Hrun as <- _. exact Hloop.
Qed.

Lemma IngestDirectory_counts_add_up_witness :
  exists res w',
    services.IngestDirectory (H := Spec.sampleRepository) Spec.stillClock
      Spec.sampleDirectory "/wx_data" 2 Spec.emptyWorld = (ok res, w') /\
    IngestionResult.TotalRecords res = 5 /\
    IngestionResult.SuccessfulRecords res = 3 /\
    IngestionResult.FailedRecords res = 2 /\
    IngestionResult.TotalRecords res =
      GoInt.add (IngestionResult.SuccessfulRecords res) (IngestionResult.FailedRecords res).
Proof.
  destruct (services.IngestDirectory (H := Spec.sampleRepository) Spec.stillClock
              Spec.sampleDirectory "/wx_data" 2 Spec.emptyWorld) as [outcome w'] eqn:Hrun.
  assert (exists res, outcome = ok res /\
            IngestionResult.TotalRecords res = 5 /\
            IngestionResult.SuccessfulRecords res = 3 /\
            IngestionResult.FailedRecords res = 2) as (res & -> & Ht & Hs & Hf).
  { apply (f_equal fst) in Hrun. cbn [fst] in Hrun. rewrite <- Hrun.
    vm_compute. eexists. repeat split. }
  exists res, w'. split; [reflexivity|]. repeat split; try assumption.
  exact (IngestDirectory_counts_add_up postgres.DB Spec.sampleRepository Spec.stillClock
           Spec.sampleDirectory "/wx_data" 2 Spec.emptyWorld w' res Hrun).
Defined.

(** X2. A run fails as a whole in two cases only, and then before any
    file or the repository is touched: the directory cannot be listed
    (the error of the listing, wrapped), or no file matches (an error
    naming the directory). With one file or more, and a batch size
    [make] accepts, the run returns a result that counts the files,
    whatever happens to each of them. *)
Theorem IngestDirectory_fails_without_files :
  forall (R : Type) (Repo : WeatherRepository R) (wall : nat -> GoTime.Instant)
         (fs : FileSystem) (dataDir : string) (batchSize : Z) (w : World R),
    GoRuntime.makeslicePanics batchSize = false ->
    exists outcome w',
      services.IngestDirectory wall fs dataDir batchSize w = (outcome, w') /\
      match Glob fs dataDir with
      | inr err =>
          outcome = failed (Errorf_w "failed to read directory" err) /\
          Error (Errorf_w "failed to read directory" err)
            = "failed to read directory: " +:+ Error err /\
          repo w' = repo w
      | inl [] =>
          outcome = failed (errorString ("no data files found in " +:+ dataDir)) /\
          repo w' = repo w
      | inl (file :: files) =>
          exists res, outcome = ok res /\
            IngestionResult.TotalFiles res = Z.of_nat (length (file :: files)) /\
            (length (IngestionResult.Errors res) <= length (file :: files))%nat
      end.
Proof.
  intros R Repo wall fs dataDir batchSize w Hmake.
  destruct (Glob fs dataDir) as [[|file files]|err] eqn:Hglob.
  - eexists. eexists. unfold services.IngestDirectory. cbn [services.now].
    rewrite Hglob. split; [reflexivity|]. split; reflexivity.
  - destruct (IngestDirectory_completes wall fs dataDir batchSize w (file :: files)
                Hglob ltac:(discriminate) Hmake) as (res & w' & Hrun).
    exists (ok res), w'. split; [exact Hrun|]. exists res. split; [reflexivity|].
    destruct (IngestDirectory_ok wall fs dataDir batchSize w w' res Hrun)
      as (files' & Hglob' & _ & Htotal & Hlen & _).
    rewrite Hglob in Hglob'. injection Hglob' as <-. split; assumption.
  - eexists. eexists. unfold services.IngestDirectory. cbn [services.now].
    rewrite Hglob. split; [reflexivity|]. repeat split.
Qed.

Lemma IngestDirectory_fails_without_files_witness :
  GoRuntime.makeslicePanics 1000 = false /\
  exists w',
    services.IngestDirectory (H := Spec.sampleRepository) Spec.stillClock
      (mkFileSystem (fun _ => inl []) (fun _ => inl (mkScannedFile [] None)))
      "/wx_data" 1000 Spec.emptyWorld
    = (failed (errorString "no data files found in /wx_data"), w') /\
    repo w' = Spec.emptyDB.
Proof.
  assert (GoRuntime.makeslicePanics 1000 = false) as Hmake by reflexivity.
  split; [exact Hmake|].
  destruct (IngestDirectory_fails_without_files postgres.DB Spec.sampleRepository
              Spec.stillClock
              (mkFileSystem (fun _ => inl []) (fun _ => inl (mkScannedFile [] None)))
              "/wx_data" 1000 Spec.emptyWorld Hmake) as (outcome & w' & Hrun & Hcase).
  cbn [Glob] in Hcase. destruct Hcase as [-> Hrepo].
  exists w'. split; [exact Hrun | exact Hrepo].
Defined.
(* ===================================================================== *)
(** * Further properties: what a file leaves in the store *)
(* ===================================================================== *)

(** [CreateStation] leaves the observations and the statistics alone,
    whatever its outcome. *)
Lemma CreateStation_tables station db :
  postgres.weather_observations (postgres.CreateStation station db).2
    = postgres.weather_observations db /\
  postgres.weather_statistics (postgres.CreateStation station db).2
    = postgres.weather_statistics db.
Proof.
  unfold postgres.CreateStation, postgres.statement.
  destruct (postgres.rejects db (postgres.statements db)) as [msg|];
    cbn [fmap option_fmap option_map]; [split; reflexivity|].
  cbn [postgres.weather_stations].
  destruct (postgres.weather_stations db !! WeatherStation.StationID station);
    split; reflexivity.
Qed.

(** On a connection that accepts the statement, [CreateStation] returns
    no error and the station is in the table afterwards: the row that
    was there, or the new one. *)
Lemma CreateStation_accepted station db :
  postgres.rejects db (postgres.statements db) = None ->
  exists db',
    postgres.CreateStation station db = (None, db') /\
    postgres.weather_stations db' !! WeatherStation.StationID station =
      Some (match postgres.weather_stations db !! WeatherStation.StationID station with
            | Some row => row
            | None =>
                StationRow.mk (WeatherStation.State station)
                  (WeatherStation.CreatedAt station) (WeatherStation.UpdatedAt station)
            end) /\
    (forall id, id <> WeatherStation.StationID station ->
       postgres.weather_stations db' !! id = postgres.weather_stations db !! id) /\
    postgres.rejects db' = postgres.rejects db /\
    postgres.statements db' = S (postgres.statements db).
Proof.
  intros Hok. unfold postgres.CreateStation, postgres.statement. rewrite Hok.
  cbn [fmap option_fmap option_map postgres.weather_stations].
  destruct (postgres.weather_stations db !! WeatherStation.StationID station)
    as [row|] eqn:Hrow; eexists; (split; [reflexivity|]).
  - cbn. rewrite Hrow. repeat split.
  - cbn. rewrite lookup_insert_eq. repeat split.
    intros id Hid. apply lookup_insert_ne. congruence.
Qed.

Lemma upsertAll_app before after t :
  Spec.upsertAll (before ++ after) t = Spec.upsertAll after (Spec.upsertAll before t).
Proof. unfold Spec.upsertAll. apply fold_left_app. Qed.

Section Flushes.

Variable numericAvg numericSum : list Float64.t -> Float64.t.

#[local] Existing Instance postgres.weatherRepository.
Let pg := postgres.weatherRepository numericAvg numericSum.

(** Flushing batches on the PostgreSQL repository stores the batches
    flushed before the first failure, and nothing of the others. *)
Lemma flushAll_postgres bs : forall db,
  exists k,
    (k <= length bs)%nat /\
    postgres.weather_stations (@Spec.flushAll _ pg bs db).2 = postgres.weather_stations db /\
    postgres.weather_statistics (@Spec.flushAll _ pg bs db).2
      = postgres.weather_statistics db /\
    postgres.weather_observations (@Spec.flushAll _ pg bs db).2
      = Spec.upsertAll (concat (take k bs)) (postgres.weather_observations db) /\
    ((@Spec.flushAll _ pg bs db).1 = None -> k = length bs).
Proof.
  induction bs as [|b rest IH]; intros db.
  - exists 0%nat. cbn. repeat split; lia.
  - cbn [Spec.flushAll CreateObservationsBatch pg postgres.weatherRepository].
    pose proof (CreateObservationsBatch_atomic b db) as Hatomic.
    destruct (postgres.CreateObservationsBatch b db) as [[err|] db1].
    + destruct Hatomic as (Hs & Ho & Hst).
      exists 0%nat. cbn [fst snd take concat length Spec.upsertAll fold_left].
      repeat split; try assumption; try lia. discriminate.
    + destruct Hatomic as (Hs & Hst & Ho).
      destruct (IH db1) as (k & Hk & Hs' & Hst' & Ho' & Hall).
      exists (S k). cbn [length take concat].
      split; [lia|]. split; [congruence|]. split; [congruence|]. split.
      * rewrite Ho', Ho, upsertAll_app. reflexivity.
      * intros Hnone. rewrite (Hall Hnone). reflexivity.
Qed.

End Flushes.



(** X4. The station of a file is created before the file is opened.
    When the server rejects that statement the file is never read and
    the error names the failure twice, once for the repository and once
    for the service; the tables stay as they were. When the statement
    is accepted the station is in [weather_stations] from then on, also
    for a file that cannot be opened: such a file leaves a station
    without observations. *)
Theorem ingestFile_creates_station_first :
  forall (numericAvg numericSum : list Float64.t -> Float64.t)
         (wall : nat -> GoTime.Instant) (fs : FileSystem) (filePath : string)
         (batchSize : Z) (w : World postgres.DB),
    exists outcome w',
      services.ingestFile (H := postgres.weatherRepository numericAvg numericSum)
        wall fs filePath batchSize w = (outcome, w') /\
      match postgres.rejects (repo w) (postgres.statements (repo w)) with
      | Some msg =>
          exists err,
            outcome = failed err /\
            Error err = "failed to create station: failed to create station: " +:+ msg /\
            Spec.sameTables (repo w) (repo w')
      | None =>
          is_Some (postgres.weather_stations (repo w') !! Spec.stationIDOf filePath) /\
          match Open fs filePath with
          | inr err =>
              outcome = failed (Errorf_w "failed to open file" err) /\
              postgres.weather_observations (repo w')
                = postgres.weather_observations (repo w)
          | inl _ => True
          end
      end.
Proof.
  intros numericAvg numericSum wall fs filePath batchSize w.
  pose proof (ingestFile_early (H := postgres.weatherRepository numericAvg numericSum)
                wall fs filePath batchSize w) as Hearly.
  cbn [CreateStation postgres.weatherRepository] in Hearly.
  destruct (postgres.rejects (repo w) (postgres.statements (repo w))) as [msg|] eqn:Hrej.
  - assert (postgres.CreateStation (Spec.stationFor wall filePath (readings w)) (repo w)
            = (Some (Errorf_w "failed to create station" (errorString msg)),
               (postgres.statement (repo w)).2)) as Hcreate.
    { unfold postgres.CreateStation, postgres.statement. rewrite Hrej. reflexivity. }
    rewrite Hcreate in Hearly. destruct Hearly as (w' & Hrepo & Hrun).
    eexists. exists w'. split; [exact Hrun|]. eexists. split; [reflexivity|].
    split; [reflexivity|]. rewrite Hrepo. apply statement_tables.
  - destruct (CreateStation_accepted (Spec.stationFor wall filePath (readings w)) (repo w)
                Hrej) as (r1 & Hcreate & Hrow & _).
    pose proof (CreateStation_tables (Spec.stationFor wall filePath (readings w)) (repo w))
      as [Hobs _].
    rewrite Hcreate in Hearly, Hobs. cbn [snd] in Hobs.
    cbn [Spec.stationFor WeatherStation.StationID] in Hrow.
    destruct (Open fs filePath) as [file|err] eqn:Hopen.
    + destruct (GoRuntime.makeslicePanics batchSize) eqn:Hmake.
      * destruct (Hearly eq_refl) as (w' & Hrepo & Hrun).
        eexists. exists w'. split; [exact Hrun|]. rewrite Hrepo, Hrow. split; [eauto|exact I].
      * destruct (ingestFile_spec (H := postgres.weatherRepository numericAvg numericSum)
                    wall fs filePath batchSize w r1 file Hcreate Hopen Hmake)
          as (w' & Hrepo & Hrun).
        eexists. exists w'. split; [exact Hrun|]. split; [|exact I].
        destruct (flushAll_postgres numericAvg numericSum
                    (Spec.batches (Z.to_nat batchSize)
                       (Spec.observationsOf wall (Spec.stationIDOf filePath) (lines file)
                          (S (S (readings w))))) r1) as (k & _ & Hstations & _).
        rewrite Hrepo, Hstations, Hrow. eauto.
    + destruct Hearly as (w' & Hrepo & Hrun).
      eexists. exists w'. split; [exact Hrun|]. rewrite Hrepo, Hrow.
      split; [eauto|]. split; [reflexivity | exact Hobs].
Qed.
(* ===================================================================== *)
(** * Further properties: the station of a file *)
(* ===================================================================== *)

Lemma list_ascii_of_string_append (a b : string) :
  list_ascii_of_string (a +:+ b) = list_ascii_of_string a ++ list_ascii_of_string b.
Proof. induction a as [|c a IH]; simpl; [reflexivity|]. rewrite IH. reflexivity. Qed.

Lemma string_length_append (a b : string) :
  String.length (a +:+ b) = (String.length a + String.length b)%nat.
Proof. induction a as [|c a IH]; simpl; [reflexivity|]. rewrite IH. reflexivity. Qed.

Lemma substring_append_l (a b : string) :
  substring 0 (String.length a) (a +:+ b) = a.
Proof. induction a as [|c a IH]; simpl; [destruct b; reflexivity|]. rewrite IH. reflexivity. Qed.

Lemma substring_whole (b : string) : substring 0 (String.length b) b = b.
Proof. induction b as [|c b IH]; simpl; [reflexivity|]. rewrite IH. reflexivity. Qed.

Lemma substring_append_r (a b : string) :
  substring (String.length a) (String.length b) (a +:+ b) = b.
Proof. induction a as [|c a IH]; simpl; [apply substring_whole | exact IH]. Qed.

(** Cutting a suffix off gives the front back. *)
Lemma TrimSuffix_append (a b : string) : GoStrings.TrimSuffix (a +:+ b) b = a.
Proof.
  unfold GoStrings.TrimSuffix. rewrite string_length_append.
  replace (String.length a + String.length b - String.length b)%nat
    with (String.length a) by lia.
  rewrite substring_append_r, substring_append_l, String.eqb_refl.
  destruct (String.length b <=? String.length a + String.length b)%nat eqn:Hle;
    [reflexivity|]. apply Nat.leb_gt in Hle. lia.
Qed.

Lemma lastElementRev_all (a : list ascii) :
  ~ In "/"%char a -> GoFilepath.lastElementRev a = a.
Proof.
  induction a as [|c a IH]; intros Hno; cbn; [reflexivity|].
  unfold GoFilepath.isPathSeparator. destruct (Ascii.eqb_spec c "/"%char) as [->|Hc].
  - exfalso. apply Hno. left. reflexivity.
  - rewrite IH; [reflexivity|]. intros Hin. apply Hno. right. exact Hin.
Qed.

Lemma lastElementRev_app (a b : list ascii) :
  ~ In "/"%char a -> GoFilepath.lastElementRev (a ++ "/"%char :: b) = a.
Proof.
  induction a as [|c a IH]; intros Hno; cbn; [reflexivity|].
  unfold GoFilepath.isPathSeparator. destruct (Ascii.eqb_spec c "/"%char) as [->|Hc].
  - exfalso. apply Hno. left. reflexivity.
  - rewrite IH; [reflexivity|]. intros Hin. apply Hno. right. exact Hin.
Qed.

Lemma extRev_dot (e n acc : list ascii) :
  ~ In "/"%char e -> ~ In "."%char e ->
  GoFilepath.extRev (e ++ "."%char :: n) acc = "."%char :: rev e ++ acc.
Proof.
  revert acc. induction e as [|c e IH]; intros acc Hslash Hdot; cbn; [reflexivity|].
  unfold GoFilepath.isPathSeparator.
  destruct (Ascii.eqb_spec c "/"%char) as [->|Hc1]; [exfalso; apply Hslash; left; reflexivity|].
  destruct (Ascii.eqb_spec c "."%char) as [->|Hc2]; [exfalso; apply Hdot; left; reflexivity|].
  rewrite IH.
  - rewrite <- app_assoc. reflexivity.
  - intros Hin. apply Hslash. right. exact Hin.
  - intros Hin. apply Hdot. right. exact Hin.
Qed.

(** The base name of [prefix ++ name ++ "." ++ ext] when [prefix] is
    empty or a directory followed by a separator. *)
Lemma Base_file (prefix name ext : string) :
  prefix = "" \/ (exists dir, prefix = dir +:+ "/") ->
  ~ In "/"%char (list_ascii_of_string name) ->
  ~ In "/"%char (list_ascii_of_string ext) ->
  GoFilepath.Base (prefix +:+ name +:+ "." +:+ ext) = name +:+ "." +:+ ext.
Proof.
  intros Hprefix Hname Hext.
  set (file := name +:+ "." +:+ ext).
  assert (~ In "/"%char (list_ascii_of_string file)) as Hfile.
  { unfold file. rewrite !list_ascii_of_string_append. cbn.
    rewrite in_app_iff. cbn. intros [H|[H|H]]; [tauto|discriminate|tauto]. }
  assert (exists c rest, rev (list_ascii_of_string file) = c :: rest) as (c & rest & Hrev).
  { unfold file. rewrite !list_ascii_of_string_append. cbn. rewrite rev_app_distr. cbn.
    destruct (rev (list_ascii_of_string ext)) as [|c rest]; cbn; eauto. }
  assert (~ In "/"%char (c :: rest)) as Hhead.
  { rewrite <- Hrev. rewrite <- in_rev. exact Hfile. }
  assert (c <> "/"%char) as Hc by (intros ->; apply Hhead; left; reflexivity).
  assert (exists d whole, prefix +:+ file = String d whole) as (d & whole & Hwhole).
  { destruct prefix as [|d p]; cbn.
    - destruct file as [|d f] eqn:Hf; [discriminate Hrev|eauto].
    - eauto. }
  unfold GoFilepath.Base. rewrite Hwhole, <- Hwhole.
  rewrite list_ascii_of_string_append, rev_app_distr, Hrev. cbn [app GoFilepath.dropSeparators].
  unfold GoFilepath.isPathSeparator at 1. destruct (Ascii.eqb_spec c "/"%char); [contradiction|].
  change (c :: rest ++ rev (list_ascii_of_string prefix))
    with ((c :: rest) ++ rev (list_ascii_of_string prefix)).
  assert (GoFilepath.lastElementRev ((c :: rest) ++ rev (list_ascii_of_string prefix))
          = c :: rest) as ->.
  { destruct Hprefix as [->|[dir ->]].
    - cbn [list_ascii_of_string rev]. rewrite app_nil_r. apply lastElementRev_all, Hhead.
    - rewrite list_ascii_of_string_append, rev_app_distr. cbn [list_ascii_of_string rev].
      exact (lastElementRev_app (c :: rest) (rev (list_ascii_of_string dir)) Hhead). }
  rewrite <- Hrev, rev_involutive.
  destruct (list_ascii_of_string file) as [|x xs] eqn:Hchars; [discriminate Hrev|].
  rewrite <- Hchars. apply string_of_list_ascii_of_string.
Qed.

Lemma Ext_file (name ext : string) :
  ~ In "/"%char (list_ascii_of_string ext) ->
  ~ In "."%char (list_ascii_of_string ext) ->
  GoFilepath.Ext (name +:+ "." +:+ ext) = "." +:+ ext.
Proof.
  intros Hslash Hdot. unfold GoFilepath.Ext.
  rewrite !list_ascii_of_string_append. cbn [list_ascii_of_string app].
  rewrite rev_app_distr. cbn [rev].
  rewrite <- app_assoc. cbn [app].
  rewrite extRev_dot by (rewrite <- in_rev; assumption).
  rewrite rev_involutive, app_nil_r. cbn. rewrite string_of_list_ascii_of_string.
  reflexivity.
Qed.

(** X5. The station identifier [ingestFile] derives from a path is the
    file name without its directory and without its last extension:
    for [dir/NAME.EXT] and for [NAME.EXT] it is [NAME], where [NAME]
    has no separator and [EXT] neither separator nor dot. [NAME] may
    hold dots, and may be empty: the file [.txt] belongs to the station
    with the empty identifier. *)
Theorem ingestFile_station_of_path :
  forall (prefix name ext : string),
    prefix = "" \/ (exists dir, prefix = dir +:+ "/") ->
    ~ In "/"%char (list_ascii_of_string name) ->
    ~ In "/"%char (list_ascii_of_string ext) ->
    ~ In "."%char (list_ascii_of_string ext) ->
    let filePath := prefix +:+ name +:+ "." +:+ ext in
    GoStrings.TrimSuffix (GoFilepath.Base filePath) (GoFilepath.Ext (GoFilepath.Base filePath))
      = name /\
    forall (wall : nat -> GoTime.Instant) (n : nat),
      Spec.stationFor wall filePath n =
        WeatherStation.mk name (services.extractStateFromStationID name)
          (wall n) (wall (S n)).
Proof.
  intros prefix name ext Hprefix Hname Hslash Hdot filePath.
  assert (GoStrings.TrimSuffix (GoFilepath.Base filePath)
            (GoFilepath.Ext (GoFilepath.Base filePath)) = name) as Hid.
  { unfold filePath. rewrite Base_file by assumption.
    rewrite Ext_file by assumption. apply TrimSuffix_append. }
  split; [exact Hid|]. intros wall n. unfold Spec.stationFor, Spec.stationIDOf.
  rewrite Hid. reflexivity.
Qed.

Lemma ingestFile_station_of_path_witness :
  GoStrings.TrimSuffix (GoFilepath.Base "/wx_data/USC00110072.txt")
    (GoFilepath.Ext (GoFilepath.Base "/wx_data/USC00110072.txt")) = "USC00110072" /\
  WeatherStation.State (Spec.stationFor Spec.stillClock "/wx_data/USC00110072.txt" 0) = "US".
Proof.
  destruct (ingestFile_station_of_path "/wx_data/" "USC00110072" "txt") as [Hid Hstation].
  - right. exists "/wx_data". reflexivity.
  - cbn. intuition discriminate.
  - cbn. intuition discriminate.
  - cbn. intuition discriminate.
  - split; [exact Hid|]. cbv zeta in Hstation.
    change ("/wx_data/" +:+ "USC00110072" +:+ "." +:+ "txt")
      with "/wx_data/USC00110072.txt" in Hstation.
    rewrite Hstation. reflexivity.
Defined.

(** X6. The state [extractStateFromStationID] gives a station is always
    two bytes long, as the column [state] and its CHECK require: the
    first two bytes of the identifier, or [XX] for an identifier
    shorter than that, the empty one included. *)
Theorem extractStateFromStationID_two_bytes :
  forall (stationID : string),
    String.length (services.extractStateFromStationID stationID) = 2%nat /\
    ((2 <= String.length stationID)%nat ->
     exists rest, stationID = services.extractStateFromStationID stationID +:+ rest) /\
    ((String.length stationID < 2)%nat ->
     services.extractStateFromStationID stationID = "XX").
Proof.
  intros stationID. unfold services.extractStateFromStationID.
  destruct stationID as [|a [|b rest]]; cbn.
  - split; [reflexivity|]. split; [lia|reflexivity].
  - split; [reflexivity|]. split; [lia|reflexivity].
  - assert (substring 0 0 rest = "") as -> by (destruct rest; reflexivity).
    split; [reflexivity|]. split; [|lia]. intros _. exists rest. reflexivity.
Qed.
(* ===================================================================== *)
(** * Further properties: what the recomputation writes *)
(* ===================================================================== *)

Section Failing.

Variable numericAvg numericSum : list Float64.t -> Float64.t.

#[local] Existing Instance postgres.weatherRepository.
Let pg := postgres.weatherRepository numericAvg numericSum.

Variable db0 : postgres.DB.

(** No statistic is saved, the rows are those of the store the
    recomputation started from, and the statements still to come are
    all rejected. *)
Let failing (a : Z * World postgres.DB) : Prop :=
  a.1 = 0 /\
  Spec.sameTables db0 (repo a.2) /\
  forall n, (postgres.statements (repo a.2) <= n)%nat ->
            postgres.rejects (repo a.2) n <> None.

Lemma calculateOne_failing stationID year a :
  failing a ->
  failing (@services.calculateOne _ pg stationID year a) /\
  exists msg,
    events (@services.calculateOne _ pg stationID year a).2
    = Spec.calculationFailed stationID year msg :: events a.2.
Proof.
  destruct a as [n w]. intros (Hzero & Hsame & Hrejects). cbn [fst snd] in *.
  unfold services.calculateOne.
  cbn [CalculateYearlyStatistics pg postgres.weatherRepository].
  unfold postgres.CalculateYearlyStatistics, postgres.statement.
  destruct (postgres.rejects (repo w) (postgres.statements (repo w))) as [msg|] eqn:Hmsg.
  - cbn [fmap option_fmap option_map snd fst events services.emit services.setRepo repo].
    split; [|exists msg; reflexivity].
    split; [exact Hzero|]. split; [exact Hsame|].
    intros k Hk.
    cbn [snd fst events services.emit services.setRepo repo postgres.statements
         postgres.rejects] in Hk |- *.
    apply Hrejects. lia.
  - exfalso. exact (Hrejects _ (Nat.le_refl _) Hmsg).
Qed.

Lemma calculateYears_failing stationID ys : forall a,
  failing a ->
  failing (fold_left (fun acc year => @services.calculateOne _ pg stationID year acc) ys a)
  /\
  exists new,
    events (fold_left (fun acc year => @services.calculateOne _ pg stationID year acc)
              ys a).2 = new ++ events a.2 /\
    forall year, In year ys ->
      exists msg, In (Spec.calculationFailed stationID year msg) new.
Proof.
  induction ys as [|y ys IH]; intros a Ha; cbn [fold_left].
  - split; [exact Ha|]. exists []. split; [reflexivity|]. intros year [].
  - destruct (calculateOne_failing stationID y a Ha) as (Ha1 & msg & Hev1).
    destruct (IH _ Ha1) as (Hout & new & Hev & Hall).
    split; [exact Hout|]. exists (new ++ [Spec.calculationFailed stationID y msg]).
    rewrite Hev, Hev1, <- app_assoc. split; [reflexivity|].
    intros year [<-|Hin].
    + exists msg. apply in_app_iff. right. left. reflexivity.
    + destruct (Hall year Hin) as (msg' & Hin'). exists msg'.
      apply in_app_iff. left. exact Hin'.
Qed.

Lemma calculateStations_failing stations : forall a,
  failing a ->
  failing (fold_left (fun acc station => @services.calculateStation _ pg station acc)
             stations a) /\
  exists new,
    events (fold_left (fun acc station => @services.calculateStation _ pg station acc)
              stations a).2 = new ++ events a.2 /\
    forall station year, In station stations -> In year services.years ->
      exists msg,
        In (Spec.calculationFailed (WeatherStation.StationID station) year msg) new.
Proof.
  induction stations as [|st rest IH]; intros a Ha; cbn [fold_left].
  - split; [exact Ha|]. exists []. split; [reflexivity|]. intros station year [].
  - assert (failing (@services.calculateStation _ pg st a) /\
            exists new,
              events (@services.calculateStation _ pg st a).2 = new ++ events a.2 /\
              forall year, In year services.years ->
                exists msg,
                  In (Spec.calculationFailed (WeatherStation.StationID st) year msg) new)
      as (Ha1 & new1 & Hev1 & Hall1).
    { unfold services.calculateStation.
      destruct (calculateYears_failing (WeatherStation.StationID st) services.years a Ha)
        as (Hout & new & Hev & Hall).
      destruct (fold_left _ services.years a) as [n w].
      cbn [fst snd events services.emit repo] in *.
      split; [exact Hout|]. eexists (_ :: new). rewrite Hev. split; [reflexivity|].
      intros year Hin. destruct (Hall year Hin) as (msg & Hin'). exists msg.
      right. exact Hin'. }
    destruct (IH _ Ha1) as (Hout & new & Hev & Hall).
    split; [exact Hout|]. exists (new ++ new1). rewrite Hev, Hev1, <- app_assoc.
    split; [reflexivity|].
    intros station year [<-|Hin] Hyear.
    + destruct (Hall1 year Hyear) as (msg & Hin'). exists msg.
      apply in_app_iff. right. exact Hin'.
    + destruct (Hall station year Hin Hyear) as (msg & Hin'). exists msg.
      apply in_app_iff. left. exact Hin'.
Qed.

Lemma CalculateAllStatistics_failing wall (w : World postgres.DB) :
  repo w = db0 ->
  postgres.rejects db0 (postgres.statements db0) = None ->
  (forall n, (postgres.statements db0 < n)%nat -> postgres.rejects db0 n <> None) ->
  let listed := take (Z.to_nat 10000) (postgres.stationsInOrder db0) in
  let run := @services.CalculateAllStatistics _ pg wall w in
  run.1 = None /\
  Spec.sameTables db0 (repo run.2) /\
  head (events run.2) = Some (Spec.calculationComplete (Z.of_nat (length listed)) 0) /\
  forall station year, In station listed -> In year services.years ->
    exists msg,
      In (Spec.calculationFailed (WeatherStation.StationID station) year msg)
         (events run.2).
Proof.
  intros Hrepo Haccepted Hrejected. cbv zeta.
  unfold services.CalculateAllStatistics. cbn [services.now].
  cbn [ListStations pg postgres.weatherRepository services.emit repo]. rewrite Hrepo.
  rewrite (ListStations_accepted 10000 0 db0 Haccepted) by lia.
  change (Z.to_nat 0) with 0%nat. rewrite drop_0.
  match goal with
  | |- context [fold_left ?f ?stations ?a] =>
      destruct (calculateStations_failing stations a) as (Hout & new & Hev & Hall)
  end.
  { split; [reflexivity|]. split; [repeat split|].
    cbn [snd repo services.setRepo postgres.statement postgres.statements
         postgres.rejects]. intros n Hn. apply Hrejected. lia. }
  destruct (fold_left _ _ _) as [total w1].
  destruct Hout as (Hzero & Hsame & _). cbn [fst snd] in *. subst total.
  cbn [events services.emit services.setRepo repo] in *.
  split; [reflexivity|]. split; [exact Hsame|]. split; [reflexivity|].
  intros station year Hstation Hyear.
  destruct (Hall station year Hstation Hyear) as (msg & Hin). exists msg.
  right. rewrite Hev. apply in_app_iff. left. exact Hin.
Qed.

End Failing.

(** X7. When every calculation fails, the recomputation stores nothing
    and still succeeds. On a connection that accepts the listing of the
    stations and on which every later statement fails, as the query of
    [CalculateYearlyStatistics] does when its row cannot be scanned,
    [CalculateAllStatistics] returns no error, leaves the three tables
    as they were, logs a failed calculation for every station listed
    and every year from 1985 to 2014, and ends its log with the number
    of stations listed and 0 statistics saved. *)
Theorem CalculateAllStatistics_when_calculations_fail :
  forall (numericAvg numericSum : list Float64.t -> Float64.t)
         (wall : nat -> GoTime.Instant) (w : World postgres.DB),
    postgres.rejects (repo w) (postgres.statements (repo w)) = None ->
    (forall n, (postgres.statements (repo w) < n)%nat ->
               postgres.rejects (repo w) n <> None) ->
    let listed := take (Z.to_nat 10000) (postgres.stationsInOrder (repo w)) in
    let run :=
      services.CalculateAllStatistics
        (H := postgres.weatherRepository numericAvg numericSum) wall w in
    run.1 = None /\
    Spec.sameTables (repo w) (repo run.2) /\
    head (events run.2) = Some (Spec.calculationComplete (Z.of_nat (length listed)) 0) /\
    forall station year,
      In station listed -> 1985 <= year <= 2014 ->
      exists msg,
        In (LogError "[STATS_CALC_ERROR] Failed to calculate statistics"
              [("station_id", VString (WeatherStation.StationID station));
               ("year", VInt year)]
              (Errorf_w "failed to calculate statistics" (errorString msg)))
           (events run.2).
Proof.
  intros numericAvg numericSum wall w Haccepted Hrejected. cbv zeta.
  destruct (CalculateAllStatistics_failing numericAvg numericSum (repo w) wall w eq_refl
              Haccepted Hrejected) as (Hnone & Hsame & Hhead & Hall).
  split; [exact Hnone|]. split; [exact Hsame|]. split; [exact Hhead|].
  intros station year Hstation Hyear. apply (Hall station year Hstation).
  apply list_elem_of_In, years_range. exact Hyear.
Qed.

Lemma CalculateAllStatistics_when_calculations_fail_witness :
  let w := mkWorld Examples.unscannable [] 0 in
  let run :=
    services.CalculateAllStatistics (H := Spec.sampleRepository) Spec.stillClock w in
  postgres.rejects (repo w) (postgres.statements (repo w)) = None /\
  postgres.selectYear "S00000" 2000 (repo w) = [Spec.sampleRow] /\
  run.1 = None /\
  postgres.weather_statistics (repo run.2) = ∅ /\
  head (events run.2) = Some (Spec.calculationComplete 2 0) /\
  In (LogError "[STATS_CALC_ERROR] Failed to calculate statistics"
        [("station_id", VString "S00000"); ("year", VInt 2000)]
        (Errorf_w "failed to calculate statistics"
           (errorString Examples.missingDestination)))
     (events run.2).
Proof.
  cbv zeta.
  set (w := mkWorld Examples.unscannable [] 0).
  assert (postgres.rejects (repo w) (postgres.statements (repo w)) = None) as Haccepted
    by reflexivity.
  assert (forall n, (postgres.statements (repo w) < n)%nat ->
                    postgres.rejects (repo w) n <> None) as Hrejected.
  { intros [|n] Hn; [cbn in Hn; lia | discriminate]. }
  split; [exact Haccepted|]. split; [vm_compute; reflexivity|].
  destruct (CalculateAllStatistics_when_calculations_fail Spec.binary64Avg Spec.binary64Sum
              Spec.stillClock w Haccepted Hrejected) as (Hnone & (_ & _ & Hsame) & Hhead & _).
  split; [exact Hnone|]. split; [etransitivity; [exact Hsame | reflexivity]|].
  split; [etransitivity; [exact Hhead | vm_compute; reflexivity]|].
  vm_compute. tauto.
Defined.

Section OnlyStatistics.

Variable numericAvg numericSum : list Float64.t -> Float64.t.

#[local] Existing Instance postgres.weatherRepository.
Let pg := postgres.weatherRepository numericAvg numericSum.

Variable db0 : postgres.DB.
Variable k : string * Z.

(** The stations, the observations and the statistic of the key [k]
    are those of the store the recomputation started from. *)
Let kept (a : Z * World postgres.DB) : Prop :=
  postgres.weather_stations (repo a.2) = postgres.weather_stations db0 /\
  postgres.weather_observations (repo a.2) = postgres.weather_observations db0 /\
  postgres.weather_statistics (repo a.2) !! k = postgres.weather_statistics db0 !! k.

Lemma calculateOne_kept stationID year a :
  (stationID, year) <> k -> kept a ->
  kept (@services.calculateOne _ pg stationID year a).
Proof.
  destruct a as [n w]. intros Hne (Hs & Ho & Hst). unfold services.calculateOne.
  cbn [CalculateYearlyStatistics UpsertStatistics pg postgres.weatherRepository].
  pose proof (CalculateYearlyStatistics_spec numericAvg numericSum stationID year (repo w))
    as Hcalc.
  destruct (postgres.CalculateYearlyStatistics numericAvg numericSum stationID year (repo w))
    as [[stats|err] db1]; cbn [snd] in *.
  - destruct Hcalc as ((Hs1 & Ho1 & Hst1) & Hid & Hy & _).
    cbn [services.setRepo repo].
    destruct (0 <? WeatherStatistics.ObservationCount stats).
    + pose proof (UpsertStatistics_spec stats db1) as Hup.
      destruct (postgres.UpsertStatistics stats db1) as [[err|] db2].
      * destruct Hup as (Hs2 & Ho2 & Hst2).
        repeat split; cbn [snd repo services.emit services.setRepo]; congruence.
      * destruct Hup as (Hs2 & Ho2 & Hst2).
        split; [|split]; cbn [snd repo services.emit services.setRepo]; [congruence..|].
        rewrite Hst2 by congruence. congruence.
    + repeat split; cbn [snd repo services.emit services.setRepo]; congruence.
  - destruct Hcalc as (Hs1 & Ho1 & Hst1).
    repeat split; cbn [snd repo services.emit services.setRepo]; congruence.
Qed.

Lemma calculateStation_kept station a :
  WeatherStation.StationID station <> k.1 \/ k.2 ∉ services.years ->
  kept a -> kept (@services.calculateStation _ pg station a).
Proof.
  intros Hne Ha. unfold services.calculateStation.
  pose proof (fold_left_invariant kept (fun y => (WeatherStation.StationID station, y) <> k)
                (fun acc year =>
                   @services.calculateOne _ pg (WeatherStation.StationID station) year acc)
                services.years
                ltac:(intros b y Hy Hb; apply calculateOne_kept; assumption)) as Hfold.
  assert (kept (fold_left
                  (fun acc year =>
                     @services.calculateOne _ pg (WeatherStation.StationID station) year acc)
                  services.years a)) as Hkept.
  { apply Hfold; [|exact Ha]. apply Forall_forall. intros y Hy Heq.
    destruct Hne as [Hne|Hne]; [apply Hne|apply Hne]; rewrite <- Heq; [reflexivity|exact Hy]. }
  destruct (fold_left _ services.years a) as [n w]. exact Hkept.
Qed.

Lemma CalculateAllStatistics_kept wall (w : World postgres.DB) :
  repo w = db0 ->
  k.2 ∉ services.years \/
  k.1 ∉ (WeatherStation.StationID <$>
           take (Z.to_nat 10000) (postgres.stationsInOrder db0)) ->
  kept (0, (@services.CalculateAllStatistics _ pg wall w).2).
Proof.
  intros Hrepo Hout. unfold services.CalculateAllStatistics. cbn [services.now].
  cbn [ListStations pg postgres.weatherRepository services.emit repo]. rewrite Hrepo.
  pose proof (ListStations_spec 10000 0 db0) as Hlist.
  destruct (postgres.ListStations 10000 0 db0) as [[stations|err] db1].
  - destruct Hlist as ((Hs & Ho & Hst) & _ & _ & Hstations).
    change (Z.to_nat 0) with 0%nat in Hstations. rewrite drop_0 in Hstations.
    match goal with
    | |- context [fold_left ?f stations ?a] =>
        pose proof (fold_left_invariant kept
                      (fun st => WeatherStation.StationID st <> k.1 \/ k.2 ∉ services.years)
                      f stations
                      ltac:(intros b st Hst' Hb; apply calculateStation_kept; assumption))
          as Hfold;
        assert (kept a) as Hstart
          by (repeat split; cbn [snd repo services.setRepo]; congruence)
    end.
    apply Hfold in Hstart.
    + destruct (fold_left _ stations _) as [n w1]. exact Hstart.
    + apply Forall_forall. intros st Hin.
      destruct Hout as [Hyear|Hid]; [right; exact Hyear|left].
      intros Heq. apply Hid. apply list_elem_of_fmap. exists st.
      split; [symmetry; exact Heq|]. rewrite <- Hstations. exact Hin.
  - destruct Hlist as (Hs & Ho & Hst).
    repeat split; cbn [snd repo services.setRepo]; congruence.
Qed.

End OnlyStatistics.

(** X8. Whatever the server rejects, the recomputation writes nothing
    but statistics: [weather_stations] and [weather_observations] end
    as they started, and so does the statistic of every year outside
    1985..2014 and of every station that is not among the first 10000
    in the order of the identifiers. *)
Theorem CalculateAllStatistics_writes_only_statistics :
  forall (numericAvg numericSum : list Float64.t -> Float64.t)
         (wall : nat -> GoTime.Instant) (w : World postgres.DB),
    let after :=
      repo (services.CalculateAllStatistics
              (H := postgres.weatherRepository numericAvg numericSum) wall w).2 in
    postgres.weather_stations after = postgres.weather_stations (repo w) /\
    postgres.weather_observations after = postgres.weather_observations (repo w) /\
    (forall (stationID : string) (year : Z),
       year < 1985 \/ 2014 < year \/
       stationID ∉ (WeatherStation.StationID <$>
                      take (Z.to_nat 10000) (postgres.stationsInOrder (repo w))) ->
       postgres.weather_statistics after !! (stationID, year)
         = postgres.weather_statistics (repo w) !! (stationID, year)).
Proof.
  intros numericAvg numericSum wall w after. subst after.
  assert (forall y, y < 1985 \/ 2014 < y -> y ∉ services.years) as Hrange.
  { intros y Hy Hin. apply years_range in Hin. lia. }
  assert (0 ∉ services.years) as Hzero by (apply Hrange; lia).
  destruct (CalculateAllStatistics_kept numericAvg numericSum (repo w) ("", 0) wall w
              eq_refl (or_introl Hzero)) as (Hs & Ho & _).
  split; [exact Hs|]. split; [exact Ho|].
  intros stationID year Hout.
  apply (CalculateAllStatistics_kept numericAvg numericSum (repo w) (stationID, year) wall w
           eq_refl).
  destruct Hout as [Hy|[Hy|Hid]];
    [left; apply (Hrange year); lia | left; apply (Hrange year); lia | right; exact Hid].
Qed.

(* ===================================================================== *)
(** * Further properties: the repository *)
(* ===================================================================== *)

(** The last element of a list with a property, when there is one. *)
Lemma Exists_last {A : Type} (P : A -> Prop) `{!forall x, Decision (P x)} (l : list A) :
  Exists P l ->
  exists before x after, l = before ++ x :: after /\ P x /\ Forall (fun y => ~ P y) after.
Proof.
  induction l as [|a l IH]; intros Hex; [inversion Hex|].
  destruct (decide (Exists P l)) as [Hl|Hl].
  - destruct (IH Hl) as (before & x & after & -> & Hx & Hafter).
    exists (a :: before), x, after. repeat split; assumption.
  - inversion Hex as [? ? Ha|? ? Hl']; subst; [|contradiction].
    exists [], a, l. split; [reflexivity|]. split; [exact Ha|].
    apply Forall_forall. intros y Hy Hp. apply Hl. apply Exists_exists. eauto.
Qed.

(** Sending again the readings of a batch, as the same or as later
    observations of the same keys and measurements, changes nothing. *)
Lemma upsertAll_again observations again t :
  Forall2 (fun o o' =>
             Spec.keyOf o' = Spec.keyOf o /\
             WeatherObservation.MaxTemperatureCelsius o'
               = WeatherObservation.MaxTemperatureCelsius o /\
             WeatherObservation.MinTemperatureCelsius o'
               = WeatherObservation.MinTemperatureCelsius o /\
             WeatherObservation.PrecipitationCm o' = WeatherObservation.PrecipitationCm o)
          observations again ->
  Spec.upsertAll again (Spec.upsertAll observations t) = Spec.upsertAll observations t.
Proof.
  intros Hsame. apply map_eq. intros k.
  destruct (decide (Exists (fun o => Spec.keyOf o = k) observations)) as [Hex|Hno].
  - destruct (Exists_last _ _ Hex) as (before & o & after & -> & Hk & Hafter).
    apply Forall2_app_inv_l in Hsame as (before' & rest' & _ & Hrest & ->).
    apply Forall2_cons_inv_l in Hrest as (o' & after' & (Hkey & Hmax & Hmin & Hprecip)
                                          & Hafter' & ->).
    assert (Forall (fun x => Spec.keyOf x <> Spec.keyOf o) after) as Hafter1.
    { eapply Forall_impl; [exact Hafter|]. cbn. intros x Hx. congruence. }
    assert (Forall (fun x => Spec.keyOf x <> Spec.keyOf o') after') as Hafter2.
    { clear - Hafter Hafter' Hkey Hk.
      induction Hafter' as [|x x' l l' Hx Hl IH]; [constructor|].
      inversion Hafter as [|? ? Hx0 Hl0]; subst. constructor; [|apply IH; assumption].
      destruct Hx as (Hkx & _). congruence. }
    destruct (upsertAll_lookup_last before o after t Hafter1) as (c1 & Hfirst).
    destruct (upsertAll_lookup_last before' o' after'
                (Spec.upsertAll (before ++ o :: after) t) Hafter2) as (c2 & Hsecond).
    destruct (upsertAll_created_at (before' ++ o' :: after')
                (Spec.upsertAll (before ++ o :: after) t) (Spec.keyOf o) _ Hfirst)
      as (row' & Hrow' & Hcreated).
    rewrite <- Hk, Hfirst. rewrite <- Hkey, Hsecond. rewrite <- Hkey, Hsecond in Hrow'.
    injection Hrow' as <-. cbn [ObservationRow.created_at] in Hcreated.
    rewrite Hmax, Hmin, Hprecip, Hcreated. reflexivity.
  - assert (Forall (fun o => Spec.keyOf o <> k) observations) as Hnone.
    { apply Forall_forall. intros o Ho Hk. apply Hno. apply Exists_exists. eauto. }
    assert (Forall (fun o => Spec.keyOf o <> k) again) as Hnone'.
    { clear - Hnone Hsame. induction Hsame as [|x x' l l' Hx Hl IH]; [constructor|].
      inversion Hnone as [|? ? Hx0 Hl0]; subst. constructor; [|apply IH; assumption].
      destruct Hx as (Hkx & _). congruence. }
    rewrite (upsertAll_lookup_other again _ k Hnone'). reflexivity.
Qed.

(** X9. Ingesting the same readings twice gives the table of the first
    time. When a batch has been stored, a batch of observations with
    the same stations, dates and measurements, in the same order,
    created at any later time, is stored without changing a row of
    [weather_observations]: the measurements are the same and a row
    keeps the [created_at] of its first insertion. *)
Theorem CreateObservationsBatch_again :
  forall (observations again : list WeatherObservation.t) (db db1 db2 : postgres.DB),
    Forall2 (fun o o' =>
               Spec.keyOf o' = Spec.keyOf o /\
               WeatherObservation.MaxTemperatureCelsius o'
                 = WeatherObservation.MaxTemperatureCelsius o /\
               WeatherObservation.MinTemperatureCelsius o'
                 = WeatherObservation.MinTemperatureCelsius o /\
               WeatherObservation.PrecipitationCm o' = WeatherObservation.PrecipitationCm o)
            observations again ->
    postgres.CreateObservationsBatch observations db = (None, db1) ->
    postgres.CreateObservationsBatch again db1 = (None, db2) ->
    postgres.weather_observations db2 = postgres.weather_observations db1.
Proof.
  intros observations again db db1 db2 Hsame Hfirst Hsecond.
  pose proof (CreateObservationsBatch_atomic observations db) as H1.
  pose proof (CreateObservationsBatch_atomic again db1) as H2.
  rewrite Hfirst in H1. rewrite Hsecond in H2.
  destruct H1 as (_ & _ & H1). destruct H2 as (_ & _ & H2).
  rewrite H2, H1. apply upsertAll_again, Hsame.
Qed.

Lemma CreateObservationsBatch_again_witness :
  let db1 := (postgres.CreateObservationsBatch [Examples.reading 1] Spec.emptyDB).2 in
  let db2 := (postgres.CreateObservationsBatch [Examples.reading 99] db1).2 in
  postgres.CreateObservationsBatch [Examples.reading 1] Spec.emptyDB = (None, db1) /\
  postgres.CreateObservationsBatch [Examples.reading 99] db1 = (None, db2) /\
  postgres.weather_observations db2 = postgres.weather_observations db1 /\
  (ObservationRow.created_at <$>
     postgres.weather_observations db2 !! ("USC00110072", GoTime.mkDate 2000 1 15))
  = Some 1.
Proof.
  cbv zeta.
  set (db1 := (postgres.CreateObservationsBatch [Examples.reading 1] Spec.emptyDB).2).
  set (db2 := (postgres.CreateObservationsBatch [Examples.reading 99] db1).2).
  assert (postgres.CreateObservationsBatch [Examples.reading 1] Spec.emptyDB = (None, db1))
    as Hfirst by (vm_compute; reflexivity).
  assert (postgres.CreateObservationsBatch [Examples.reading 99] db1 = (None, db2))
    as Hsecond by (vm_compute; reflexivity).
  split; [exact Hfirst|]. split; [exact Hsecond|]. split.
  - apply (CreateObservationsBatch_again [Examples.reading 1] [Examples.reading 99]
             Spec.emptyDB db1 db2); [|exact Hfirst|exact Hsecond].
    constructor; [|constructor]. repeat split.
  - vm_compute. reflexivity.
Defined.

(** X10. [CreateStation] never replaces a station. After it returns no
    error, [GetStation] on a connection that accepts the query finds
    the station under its identifier, with the state it had before the
    call when it was already there, and the state just given when it
    was not; an identifier that was not in the table and is not the
    one created is still not found, with an error that names the
    resource and the identifier. *)
Theorem GetStation_after_CreateStation :
  forall (station : WeatherStation.t) (db db1 : postgres.DB),
    postgres.CreateStation station db = (None, db1) ->
    postgres.rejects db1 (postgres.statements db1) = None ->
    (exists found db2,
       postgres.GetStation (WeatherStation.StationID station) db1 = (inl found, db2) /\
       WeatherStation.StationID found = WeatherStation.StationID station /\
       WeatherStation.State found =
         match postgres.weather_stations db !! WeatherStation.StationID station with
         | Some row => StationRow.state row
         | None => WeatherStation.State station
         end) /\
    (forall other : string,
       other <> WeatherStation.StationID station ->
       postgres.weather_stations db !! other = None ->
       exists e db2,
         postgres.GetStation other db1 = (inr (notFound e), db2) /\
         NotFoundError.Resource e = "weather_station" /\
         NotFoundError.ID e = other /\
         NotFoundError.Error e = "weather_station not found: " +:+ other).
Proof.
  intros station db db1 Hcreate Hquery.
  assert (postgres.rejects db (postgres.statements db) = None) as Hacc.
  { destruct (postgres.rejects db (postgres.statements db)) as [msg|] eqn:Hrej;
      [|reflexivity].
    unfold postgres.CreateStation, postgres.statement in Hcreate. rewrite Hrej in Hcreate.
    discriminate. }
  destruct (CreateStation_accepted station db Hacc) as (db' & Hcreate' & Hrow & Hother & _).
  rewrite Hcreate in Hcreate'. injection Hcreate' as <-.
  split.
  - unfold postgres.GetStation, postgres.statement. rewrite Hquery.
    cbn [fmap option_fmap option_map postgres.weather_stations]. rewrite Hrow.
    eexists. eexists. split; [reflexivity|]. split; [reflexivity|].
    cbn [WeatherStation.State].
    destruct (postgres.weather_stations db !! WeatherStation.StationID station);
      reflexivity.
  - intros other Hne Hnone.
    unfold postgres.GetStation, postgres.statement. rewrite Hquery.
    cbn [fmap option_fmap option_map postgres.weather_stations].
    rewrite (Hother other Hne), Hnone.
    eexists. eexists. split; [reflexivity|]. repeat split.
Qed.

Lemma GetStation_after_CreateStation_witness :
  let db := (postgres.CreateStation (Examples.station "US" 1) Spec.emptyDB).2 in
  let db1 := (postgres.CreateStation (Examples.station "IL" 2) db).2 in
  postgres.CreateStation (Examples.station "IL" 2) db = (None, db1) /\
  postgres.rejects db1 (postgres.statements db1) = None /\
  exists found db2,
    postgres.GetStation "USC00110072" db1 = (inl found, db2) /\
    WeatherStation.State found = "US".
Proof.
  cbv zeta.
  set (db := (postgres.CreateStation (Examples.station "US" 1) Spec.emptyDB).2).
  set (db1 := (postgres.CreateStation (Examples.station "IL" 2) db).2).
  assert (postgres.CreateStation (Examples.station "IL" 2) db = (None, db1)) as Hcreate
    by (vm_compute; reflexivity).
  assert (postgres.rejects db1 (postgres.statements db1) = None) as Hquery by reflexivity.
  split; [exact Hcreate|]. split; [exact Hquery|].
  destruct (GetStation_after_CreateStation (Examples.station "IL" 2) db db1 Hcreate Hquery)
    as [(found & db2 & Hget & _ & Hstate) _].
  exists found, db2. split; [exact Hget|]. rewrite Hstate. vm_compute. reflexivity.
Defined.

(* ===================================================================== *)
(** * Further properties: the API *)
(* ===================================================================== *)


Lemma limitOf_bounds s : 1 <= handlers.limitOf s <= 1000.
Proof.
  unfold handlers.limitOf. destruct (String.eqb s ""); [lia|].
  destruct (GoStrconv.Atoi s) as [l|e]; [|lia].
  destruct (Z.ltb_spec 0 l); destruct (Z.leb_spec l 1000); cbn; lia.
Qed.


(** The number of pages is the total divided by the limit, rounded up. *)
Lemma totalPagesOf_ceiling total limit :
  0 <= total -> 1 <= limit -> total + limit - 1 <= GoInt.maxInt ->
  (handlers.totalPagesOf total limit - 1) * limit < total
    <= handlers.totalPagesOf total limit * limit.
Proof.
  intros Htotal Hlimit Hfit. unfold GoInt.maxInt in Hfit.
  unfold handlers.totalPagesOf, GoIntOps.quo, GoIntOps.sub, GoInt.add.
  replace (GoInt.wrap (total + limit) - 1) with (GoInt.wrap (total + limit) + -1) by lia.
  rewrite wrap_add_l. replace (total + limit + -1) with (total + limit - 1) by lia.
  rewrite (wrap_small (total + limit - 1)) by (unfold GoInt.minInt, GoInt.maxInt; lia).
  rewrite Z.quot_div_nonneg by lia.
  assert (0 <= (total + limit - 1) / limit <= total + limit - 1) as Hq.
  { split; [apply Z.div_pos; lia|]. apply Z.div_le_upper_bound; nia. }
  rewrite wrap_small by (unfold GoInt.minInt, GoInt.maxInt; lia).
  pose proof (Z.div_mod (total + limit - 1) limit ltac:(lia)) as Hdiv.
  pose proof (Z.mod_pos_bound (total + limit - 1) limit ltac:(lia)) as Hmod.
  nia.
Qed.

Section Queries.

Variable statisticsID : string * Z -> Z.
Variable numericOut : Float64.t -> Float64.t.

(** What [GetStatistics] returns. *)
Lemma GetStatistics_spec filter db :
  match postgres.GetStatistics statisticsID numericOut filter db with
  | (inl (page, total), db') =>
      Spec.sameTables db db' /\
      0 <= StatisticsFilter.Limit filter /\ 0 <= StatisticsFilter.Offset filter /\
      total = Z.of_nat (length (postgres.selectStatistics filter db)) /\
      page = postgres.scanStatistics statisticsID numericOut <$>
               take (Z.to_nat (StatisticsFilter.Limit filter))
                 (drop (Z.to_nat (StatisticsFilter.Offset filter))
                    (postgres.selectStatistics filter db))
  | (inr _, db') => Spec.sameTables db db'
  end.
Proof.
  unfold postgres.GetStatistics, postgres.statement.
  destruct (postgres.rejects db (postgres.statements db)) as [msg|];
    cbn [fmap option_fmap option_map]; [repeat split|].
  cbn [postgres.rejects postgres.statements].
  destruct (postgres.rejects db (S (postgres.statements db))) as [msg|];
    cbn [fmap option_fmap option_map]; [repeat split|].
  destruct (Z.ltb_spec (StatisticsFilter.Limit filter) 0); [repeat split|].
  destruct (Z.ltb_spec (StatisticsFilter.Offset filter) 0); [repeat split|].
  repeat split; assumption.
Qed.



End Queries.



(** X12. The API serves statistics for the years the recomputation
    computes them for, and for no other: a [year] that is not an
    integer from 1985 to 2014 is answered with 400 and the repository
    is not read; without [year], or with one of those years, the
    repository is read with that year in the filter and the answer is
    200, or 500 when the repository fails. *)
Theorem GetStatistics_year_range :
  forall (R : Type) (Reader : reader.StatisticsReader R)
         (r : handlers.Request) (s : handlers.Served R),
    let yearStr := handlers.Query r "year" in
    let out := handlers.GetStatistics r s in
    ((yearStr <> "" /\
      forall y, Spec.integerLiteral yearStr = Some y -> y ∉ services.years) /\
     out.1 = handlers.mkResponse 400
               (handlers.errorBody
                  (handlers.ErrorResponse.mk "Bad Request"
                     "invalid year, expected integer between 1985 and 2014" 400)) /\
     handlers.store out.2 = handlers.store s)
    \/
    ((yearStr = "" \/
      exists y, Spec.integerLiteral yearStr = Some y /\ y ∈ services.years) /\
     exists filter,
       StatisticsFilter.Year filter
         = (if String.eqb yearStr "" then None else Spec.integerLiteral yearStr) /\
       1 <= StatisticsFilter.Limit filter <= 1000 /\
       handlers.store out.2 = (reader.GetStatistics filter (handlers.store s)).2 /\
       handlers.StatusCode out.1 =
         match (reader.GetStatistics filter (handlers.store s)).1 with
         | inl _ => 200
         | inr _ => 500
         end).
Proof.
  intros R Reader r s yearStr out. subst out.
  unfold handlers.GetStatistics, handlers.observed. cbn [fst snd].
  fold yearStr.
  pose proof (limitOf_bounds (handlers.Query r "limit")) as Hlimit.
  destruct (String.eqb_spec yearStr "") as [Hempty|Hne].
  - right. split; [left; exact Hempty|]. cbv iota.
    match goal with
    | |- context [reader.GetStatistics ?f _] => exists f
    end.
    split; [reflexivity|]. split; [exact Hlimit|].
    match goal with
    | |- context [reader.GetStatistics ?f ?st] =>
        destruct (reader.GetStatistics f st) as [[[statistics total]|err] r']
    end; split; reflexivity.
  - destruct (GoStrconv.Atoi yearStr) as [year|e] eqn:Hyear.
    + apply Atoi_inl in Hyear.
      destruct (Z.ltb_spec year 1985) as [Hlow|Hlow];
        [|destruct (Z.ltb_spec 2014 year) as [Hhigh|Hhigh]]; cbn [orb].
      * left. split; [|split; reflexivity]. split; [exact Hne|].
        intros y Hy Hin. rewrite Hyear in Hy. injection Hy as <-.
        apply years_range in Hin. lia.
      * left. split; [|split; reflexivity]. split; [exact Hne|].
        intros y Hy Hin. rewrite Hyear in Hy. injection Hy as <-.
        apply years_range in Hin. lia.
      * right. split.
        { right. exists year. split; [exact Hyear|]. apply years_range. lia. }
        cbv iota.
        match goal with
        | |- context [reader.GetStatistics ?f _] => exists f
        end.
        split; [symmetry; exact Hyear|]. split; [exact Hlimit|].
        match goal with
        | |- context [reader.GetStatistics ?f ?st] =>
            destruct (reader.GetStatistics f st) as [[[statistics total]|err] r']
        end; split; reflexivity.
    + apply Atoi_inr in Hyear as (Hnone & _).
      left. split; [|split; reflexivity]. split; [exact Hne|].
      intros y Hy. rewrite Hnone in Hy. discriminate.
Qed.
Ltac iso_cases :=
  repeat first
    [ reflexivity
    | rewrite getnum_fixed
    | match goal with
      | |- context [Spec.isDigit ?x] => destruct (Spec.isDigit x) eqn:?
      | |- context [(?x =? 45)%N] => destruct (x =? 45)%N eqn:?
      end
    | rewrite daysIn_daysInMonth by lia
    | progress cbn -[GoTime.daysIn Spec.daysInMonth Spec.decimal Z.leb Z.ltb N.eqb]
    | match goal with
      | |- context [(?x <=? ?y)] => destruct (Z.leb_spec x y)
      | |- context [(?x <? ?y)] => destruct (Z.ltb_spec x y)
      end
    | exfalso; lia ].

Lemma ParseISODate_isoDate s : GoTime.ParseISODate s = Terms.isoDate s.
Proof.
  unfold GoTime.ParseISODate, Terms.isoDate. generalize (GoStrings.bytes s). intros bs.
  destruct bs as [|a [|b [|c [|d [|h1 [|e [|f [|h2 [|g [|i [|j r]]]]]]]]]]].
  all: cbn [GoTime.parsePrefixed GoTime.skip GoTime.parseChunk length Nat.ltb Nat.leb orb
            firstn skipn]; try reflexivity.
  all: unfold GoTime.isDigit at 1; cbn [nth_error negb]; fold (Spec.isDigit a).
  all: destruct (Spec.isDigit a) eqn:Ha; cbn [negb forallb andb Nat.eqb length]; try reflexivity.
  all: try rewrite atoi_digits by (unfold GoTime.isDigit; cbn [nth_error]; exact Ha).
  all: cbn [forallb]; try rewrite Ha; cbn [andb].
  all: iso_cases.
Qed.

(** The API reads a date written with dashes exactly when the ingestion
    reads the same digits written without them, and reads the same
    date. *)
Lemma ParseISODate_Parse (a b c d e f g i : ascii) :
  GoTime.ParseISODate
    (String a (String b (String c (String d (String "-" (String e (String f
       (String "-" (String g (String i "")))))))))) =
  GoTime.Parse GoTime.layout20060102
    (String a (String b (String c (String d (String e (String f (String g
       (String i "")))))))).
Proof.
  rewrite ParseISODate_isoDate, Parse_calendarDate.
  unfold Terms.isoDate, Spec.calendarDate, GoStrings.bytes.
  cbn [list_ascii_of_string map].
  generalize (N_of_ascii a) (N_of_ascii b) (N_of_ascii c) (N_of_ascii d)
             (N_of_ascii e) (N_of_ascii f) (N_of_ascii g) (N_of_ascii i).
  intros na nb nc nd ne nf ng ni. reflexivity.
Qed.

Lemma start_date_given (str msg : string) :
  str = "" \/ is_Some (Terms.isoDate str) ->
  (if String.eqb str "" then inl None
   else match Terms.isoDate str with
        | Some d => inl (Some d)
        | None => inr msg
        end)
  = (inl (if String.eqb str "" then None else Terms.isoDate str)
     : option GoTime.Date + string).
Proof.
  destruct (String.eqb_spec str ""); [reflexivity|].
  intros [H|[d Hd]]; [contradiction|]. rewrite Hd. reflexivity.
Qed.

Lemma end_date_given (start : option GoTime.Date) (str msg : string) :
  str = "" \/ is_Some (Terms.isoDate str) ->
  (if String.eqb str "" then inl (start, None)
   else match Terms.isoDate str with
        | Some d => inl (start, Some d)
        | None => inr msg
        end)
  = (inl (start, if String.eqb str "" then None else Terms.isoDate str)
     : (option GoTime.Date * option GoTime.Date) + string).
Proof.
  destruct (String.eqb_spec str ""); [reflexivity|].
  intros [H|[d Hd]]; [contradiction|]. rewrite Hd. reflexivity.
Qed.

(** X13. The API checks the dates of a query for observations before it
    reads the repository, [start_date] first: a date that is given and
    is not a day of the calendar written YYYY-MM-DD is answered with
    400 and a message naming the parameter. Otherwise the repository
    is read with the dates given in the filter and the answer is 200,
    or 500 when the repository fails. The dates accepted are those the
    ingestion accepts in the form YYYYMMDD. *)
Theorem GetObservations_dates :
  forall (R : Type) (Reader : reader.ObservationReader R)
         (r : handlers.Request) (s : handlers.Served R),
    let startStr := handlers.Query r "start_date" in
    let endStr := handlers.Query r "end_date" in
    let out := handlers.GetObservations r s in
    let badRequest message :=
      handlers.mkResponse 400
        (handlers.errorBody (handlers.ErrorResponse.mk "Bad Request" message 400)) in
    ((startStr <> "" /\ Terms.isoDate startStr = None) /\
     out.1 = badRequest "invalid start_date format, expected YYYY-MM-DD" /\
     handlers.store out.2 = handlers.store s)
    \/
    ((startStr = "" \/ is_Some (Terms.isoDate startStr)) /\
     (endStr <> "" /\ Terms.isoDate endStr = None) /\
     out.1 = badRequest "invalid end_date format, expected YYYY-MM-DD" /\
     handlers.store out.2 = handlers.store s)
    \/
    ((startStr = "" \/ is_Some (Terms.isoDate startStr)) /\
     (endStr = "" \/ is_Some (Terms.isoDate endStr)) /\
     exists filter,
       ObservationFilter.StartDate filter
         = (if String.eqb startStr "" then None else Terms.isoDate startStr) /\
       ObservationFilter.EndDate filter
         = (if String.eqb endStr "" then None else Terms.isoDate endStr) /\
       1 <= ObservationFilter.Limit filter <= 1000 /\
       handlers.store out.2 = (reader.GetObservations filter (handlers.store s)).2 /\
       handlers.StatusCode out.1 =
         match (reader.GetObservations filter (handlers.store s)).1 with
         | inl _ => 200
         | inr _ => 500
         end).
Proof.
  intros R Reader r s startStr endStr out badRequest. subst out badRequest.
  unfold handlers.GetObservations, handlers.observed, handlers.datesOf. cbn [fst snd].
  fold startStr endStr. rewrite !ParseISODate_isoDate.
  pose proof (limitOf_bounds (handlers.Query r "limit")) as Hlimit.
  assert ((startStr = "" \/ is_Some (Terms.isoDate startStr)) \/
          (startStr <> "" /\ Terms.isoDate startStr = None)) as Hstart.
  { destruct (String.eqb_spec startStr ""); [left; left; assumption|].
    destruct (Terms.isoDate startStr); [left; right; eauto | right; split; trivial]. }
  assert ((endStr = "" \/ is_Some (Terms.isoDate endStr)) \/
          (endStr <> "" /\ Terms.isoDate endStr = None)) as Hend.
  { destruct (String.eqb_spec endStr ""); [left; left; assumption|].
    destruct (Terms.isoDate endStr); [left; right; eauto | right; split; trivial]. }
  destruct Hstart as [Hs|[Hs1 Hs2]].
  - rewrite (start_date_given startStr _ Hs).
    destruct Hend as [He|[He1 He2]].
    + right. right. split; [exact Hs|]. split; [exact He|].
      rewrite (end_date_given _ endStr _ He).
      match goal with
      | |- context [reader.GetObservations ?f _] => exists f
      end.
      split; [reflexivity|]. split; [reflexivity|]. split; [exact Hlimit|].
      match goal with
      | |- context [reader.GetObservations ?f ?st] =>
          destruct (reader.GetObservations f st) as [[[observations total]|err] r']
      end; split; reflexivity.
    + right. left. split; [exact Hs|]. split; [split; assumption|].
      destruct (String.eqb_spec endStr ""); [contradiction|]. rewrite He2.
      split; reflexivity.
  - left. split; [split; assumption|].
    destruct (String.eqb_spec startStr ""); [contradiction|]. rewrite Hs2.
    split; reflexivity.
Qed.

(** A list without repetition whose elements all are [x], and which
    holds [x], is [[x]]. *)
Lemma NoDup_only {A : Type} (x : A) (l : list A) :
  NoDup l -> In x l -> (forall y, In y l -> y = x) -> l = [x].
Proof.
  intros Hnodup Hin Hall. destruct l as [|a [|b l]].
  - destruct Hin.
  - rewrite (Hall a) by (left; reflexivity). reflexivity.
  - exfalso. apply NoDup_cons in Hnodup as [Hnotin _]. apply Hnotin.
    rewrite (Hall a) by (left; reflexivity).
    rewrite <- (Hall b) at 1 by (right; left; reflexivity). apply list_elem_of_here.
Qed.

(** The query for one station and one year selects the row of that key
    and nothing else. *)
Lemma selectStatistics_key stationID year limit offset db row :
  postgres.weather_statistics db !! (stationID, year) = Some row ->
  postgres.selectStatistics
    (StatisticsFilter.mk (Some stationID) (Some year) limit offset) db
  = [((stationID, year), row)].
Proof.
  intros Hrow. unfold postgres.selectStatistics.
  assert (List.filter
            (postgres.statisticsMatch
               (StatisticsFilter.mk (Some stationID) (Some year) limit offset))
            (map_to_list (postgres.weather_statistics db))
          = [((stationID, year), row)]) as ->; [|reflexivity].
  apply NoDup_only.
  - apply NoDup_ListNoDup, List.NoDup_filter, NoDup_ListNoDup, NoDup_map_to_list.
  - apply filter_In. split.
    + apply list_elem_of_In, elem_of_map_to_list. exact Hrow.
    + unfold postgres.statisticsMatch. cbn. rewrite String.eqb_refl, Z.eqb_refl. reflexivity.
  - intros [[id y] row'] [Hin Hmatch]%filter_In.
    apply list_elem_of_In, elem_of_map_to_list in Hin.
    unfold postgres.statisticsMatch in Hmatch. cbn in Hmatch.
    apply andb_true_iff in Hmatch as [Hid%String.eqb_eq Hy%Z.eqb_eq]. subst id y.
    rewrite Hrow in Hin. injection Hin as <-. reflexivity.
Qed.

(** X14. A statistic saved is the statistic served. After
    [UpsertStatistics] returns no error, [GetStatistics] for that
    station and year, with a limit of one or more and no offset, on a
    connection that accepts its two queries, returns one statistic and
    the total 1: the station, the year and the four counts are those
    saved. *)
Theorem GetStatistics_after_UpsertStatistics :
  forall (statisticsID : string * Z -> Z) (numericOut : Float64.t -> Float64.t)
         (stats : WeatherStatistics.t) (db db1 : postgres.DB) (limit : Z),
    postgres.UpsertStatistics stats db = (None, db1) ->
    postgres.rejects db1 (postgres.statements db1) = None ->
    postgres.rejects db1 (S (postgres.statements db1)) = None ->
    1 <= limit ->
    exists found db2,
      postgres.GetStatistics statisticsID numericOut
        (StatisticsFilter.mk (Some (WeatherStatistics.StationID stats))
           (Some (WeatherStatistics.Year stats)) limit 0) db1
      = (inl ([found], 1), db2) /\
      WeatherStatistics.StationID found = WeatherStatistics.StationID stats /\
      WeatherStatistics.Year found = WeatherStatistics.Year stats /\
      WeatherStatistics.ObservationCount found = WeatherStatistics.ObservationCount stats /\
      WeatherStatistics.ValidMaxTempCount found = WeatherStatistics.ValidMaxTempCount stats /\
      WeatherStatistics.ValidMinTempCount found = WeatherStatistics.ValidMinTempCount stats /\
      WeatherStatistics.ValidPrecipitationCount found
        = WeatherStatistics.ValidPrecipitationCount stats.
Proof.
  intros statisticsID numericOut stats db db1 limit Hsave Hcount Hselect Hlimit.
  assert (exists createdAt updatedAt,
            postgres.weather_statistics db1
              !! (WeatherStatistics.StationID stats, WeatherStatistics.Year stats)
            = Some (StatisticsRow.mk
                      (WeatherStatistics.AvgMaxTemperatureCelsius stats)
                      (WeatherStatistics.AvgMinTemperatureCelsius stats)
                      (WeatherStatistics.TotalPrecipitationCm stats)
                      (WeatherStatistics.ObservationCount stats)
                      (WeatherStatistics.ValidMaxTempCount stats)
                      (WeatherStatistics.ValidMinTempCount stats)
                      (WeatherStatistics.ValidPrecipitationCount stats)
                      createdAt updatedAt)) as (createdAt & updatedAt & Hrow).
  { unfold postgres.UpsertStatistics, postgres.statement in Hsave.
    destruct (postgres.rejects db (postgres.statements db)) as [msg|];
      cbn [fmap option_fmap option_map] in Hsave; [discriminate|].
    unfold postgres.readClock in Hsave. cbn [postgres.weather_statistics] in Hsave.
    destruct (postgres.weather_statistics db
                !! (WeatherStatistics.StationID stats, WeatherStatistics.Year stats));
      injection Hsave as <-; eexists; eexists; cbn; apply lookup_insert_eq. }
  unfold postgres.GetStatistics, postgres.statement. rewrite Hcount.
  cbn [fmap option_fmap option_map postgres.rejects postgres.statements].
  rewrite Hselect. cbn [fmap option_fmap option_map StatisticsFilter.Limit
                        StatisticsFilter.Offset].
  destruct (Z.ltb_spec limit 0); [lia|]. cbn [Z.ltb Z.compare].
  repeat match goal with
  | |- context [postgres.selectStatistics ?f ?d] =>
      replace (postgres.selectStatistics f d)
        with [((WeatherStatistics.StationID stats, WeatherStatistics.Year stats),
               StatisticsRow.mk
                 (WeatherStatistics.AvgMaxTemperatureCelsius stats)
                 (WeatherStatistics.AvgMinTemperatureCelsius stats)
                 (WeatherStatistics.TotalPrecipitationCm stats)
                 (WeatherStatistics.ObservationCount stats)
                 (WeatherStatistics.ValidMaxTempCount stats)
                 (WeatherStatistics.ValidMinTempCount stats)
                 (WeatherStatistics.ValidPrecipitationCount stats)
                 createdAt updatedAt)]
        by (symmetry; apply selectStatistics_key; exact Hrow)
  end.
  change (Z.to_nat 0) with 0%nat. rewrite drop_0.
  destruct (Z.to_nat limit) as [|n] eqn:Hn; [lia|].
  cbn [take fmap list_fmap length]. rewrite take_nil. cbn [fmap list_fmap].
  eexists. eexists. split; [reflexivity|]. repeat split.
Qed.

Lemma GetStatistics_after_UpsertStatistics_witness :
  postgres.UpsertStatistics Examples.statistic Spec.emptyDB
    = (None, Examples.withStatistic) /\
  postgres.rejects Examples.withStatistic (postgres.statements Examples.withStatistic)
    = None /\
  postgres.rejects Examples.withStatistic (S (postgres.statements Examples.withStatistic))
    = None /\
  1 <= 100 /\
  exists found db2,
    postgres.GetStatistics (fun _ => 1) (fun x => x)
      (StatisticsFilter.mk (Some "USC00110072") (Some 2000) 100 0) Examples.withStatistic
    = (inl ([found], 1), db2) /\
    WeatherStatistics.ObservationCount found = 2 /\
    WeatherStatistics.ValidMaxTempCount found = 1.
Proof.
  assert (postgres.UpsertStatistics Examples.statistic Spec.emptyDB
          = (None, Examples.withStatistic)) as Hsave by (vm_compute; reflexivity).
  assert (postgres.rejects Examples.withStatistic
            (postgres.statements Examples.withStatistic) = None) as Hcount by reflexivity.
  assert (postgres.rejects Examples.withStatistic
            (S (postgres.statements Examples.withStatistic)) = None) as Hselect
    by reflexivity.
  assert (1 <= 100) as Hlimit by lia.
  split; [exact Hsave|]. split; [exact Hcount|]. split; [exact Hselect|].
  split; [exact Hlimit|].
  destruct (GetStatistics_after_UpsertStatistics (fun _ => 1) (fun x => x)
              Examples.statistic Spec.emptyDB Examples.withStatistic 100
              Hsave Hcount Hselect Hlimit)
    as (found & db2 & Hget & _ & _ & Hobs & Hmax & _).
  exists found, db2. split; [exact Hget|]. split; assumption.
Defined.

(** X15. The offset of a page is computed in [int]: [(page - 1) *
    limit] wraps around for a page number far enough. When it wraps to
    a negative number, the PostgreSQL repository cannot answer the
    query, and a request whose year is accepted is answered with 500
    and not with an empty page. *)
Theorem GetStatistics_offset_overflow :
  forall (statisticsID : string * Z -> Z) (numericOut : Float64.t -> Float64.t)
         (r : handlers.Request) (s : handlers.Served postgres.DB),
    handlers.offsetOf (handlers.pageOf (handlers.Query r "page"))
      (handlers.limitOf (handlers.Query r "limit")) < 0 ->
    let out :=
      handlers.GetStatistics (H := postgres.statisticsReader statisticsID numericOut) r s in
    handlers.StatusCode out.1 = 400 \/
    out.1 = handlers.mkResponse 500
              (handlers.errorBody
                 (handlers.ErrorResponse.mk "Internal Server Error"
                    "failed to retrieve statistics" 500)).
Proof.
  intros statisticsID numericOut r s Hoffset out. subst out.
  unfold handlers.GetStatistics, handlers.observed. cbn [fst].
  cbn [reader.GetStatistics postgres.statisticsReader].
  set (offset := handlers.offsetOf _ _) in *.
  match goal with
  | |- context [match ?c with Some _ => _ | None => _ end] =>
      assert (match c with
              | Some f => StatisticsFilter.Offset f = offset
              | None => True
              end) as Hchecked;
      [|destruct c as [filter|]; [|left; reflexivity]]
  end.
  { destruct (String.eqb (handlers.Query r "year") ""); [reflexivity|].
    destruct (GoStrconv.Atoi (handlers.Query r "year")) as [year|e]; [|exact I].
    destruct ((year <? 1985) || (2014 <? year)); [exact I | reflexivity]. }
  right.
  pose proof (GetStatistics_spec statisticsID numericOut filter (handlers.store s)) as Hspec.
  destruct (postgres.GetStatistics statisticsID numericOut filter (handlers.store s))
    as [[[statistics total]|err] db']; [|reflexivity].
  destruct Hspec as (_ & _ & Hnonneg & _). lia.
Qed.

Lemma GetStatistics_offset_overflow_witness :
  let r :=
    Examples.get "/api/weather/stats"
      [("page", "9223372036854775807"); ("limit", "1000")] in
  handlers.offsetOf (handlers.pageOf (handlers.Query r "page"))
    (handlers.limitOf (handlers.Query r "limit")) = -2000 /\
  -2000 < 0 /\
  handlers.StatusCode
    (handlers.GetStatistics (H := Examples.sampleReader) r
       (handlers.mkServed Examples.withStatistic [])).1 = 500.
Proof.
  cbv zeta.
  set (r := Examples.get "/api/weather/stats"
              [("page", "9223372036854775807"); ("limit", "1000")]).
  assert (handlers.offsetOf (handlers.pageOf (handlers.Query r "page"))
            (handlers.limitOf (handlers.Query r "limit")) = -2000) as Hoffset
    by (vm_compute; reflexivity).
  split; [exact Hoffset|]. split; [lia|].
  destruct (GetStatistics_offset_overflow (fun _ => 1) (fun x => x) r
              (handlers.mkServed Examples.withStatistic [])
              ltac:(rewrite Hoffset; lia)) as [H400|H500].
  - vm_compute in H400. discriminate.
  - unfold Examples.sampleReader. rewrite H500. reflexivity.
Defined.

(** X16. The API and the ingestion agree on dates. For eight bytes
    YYYYMMDD in the date field of a record, [ToObservation] returns an
    observation exactly when the API accepts the same bytes written
    YYYY-MM-DD as [start_date], and the date in the filter is then the
    date of the observation; when [ToObservation] fails, the API
    rejects the date. *)
Theorem datesOf_accepts_ingested_dates :
  forall (a b c d e f g i : ascii) (now : GoTime.Instant)
         (record : RawWeatherRecord.t) (stationID : string),
    RawWeatherRecord.Date record
      = String a (String b (String c (String d (String e (String f (String g
          (String i ""))))))) ->
    let dashed :=
      String a (String b (String c (String d (String "-" (String e (String f
        (String "-" (String g (String i ""))))))))) in
    match models.ToObservation now record stationID with
    | inl obs =>
        handlers.datesOf dashed ""
          = inl (Some (WeatherObservation.ObservationDate obs), None)
    | inr _ =>
        handlers.datesOf dashed ""
          = inr "invalid start_date format, expected YYYY-MM-DD"
    end.
Proof.
  intros a b c d e f g i now record stationID Hdate dashed. subst dashed.
  unfold handlers.datesOf. cbn [String.eqb].
  rewrite ParseISODate_Parse, Parse_calendarDate, ToObservation_cases, Hdate.
  destruct (Spec.calendarDate _); reflexivity.
Qed.

Lemma datesOf_accepts_ingested_dates_witness :
  RawWeatherRecord.Date (RawWeatherRecord.mk "20000229" 250 150 100) = "20000229" /\
  handlers.datesOf "2000-02-29" "" = inl (Some (GoTime.mkDate 2000 2 29), None) /\
  handlers.datesOf "2001-02-29" ""
    = inr "invalid start_date format, expected YYYY-MM-DD".
Proof.
  split; [reflexivity|]. split.
  - pose proof (datesOf_accepts_ingested_dates "2" "0" "0" "0" "0" "2" "2" "9" 0
                  (RawWeatherRecord.mk "20000229" 250 150 100) "USC00110072" eq_refl)
      as Hleap.
    cbv zeta in Hleap.
    destruct (models.ToObservation 0 (RawWeatherRecord.mk "20000229" 250 150 100)
                "USC00110072") as [obs|err] eqn:Hobs.
    + rewrite Hleap. vm_compute in Hobs. injection Hobs as <-. reflexivity.
    + vm_compute in Hobs. discriminate.
  - vm_compute. reflexivity.
Defined.

(* ===================================================================== *)
(** * Properties: the observations the API serves                         *)
(* ===================================================================== *)

(** ** The order of the dates *)

Lemma dateLe_spec a b :
  postgres.dateLe a b = true <->
  GoTime.year a < GoTime.year b \/
  (GoTime.year a = GoTime.year b /\
   (GoTime.month a < GoTime.month b \/
    (GoTime.month a = GoTime.month b /\ GoTime.day a <= GoTime.day b))).
Proof.
  unfold postgres.dateLe.
  rewrite orb_true_iff, andb_true_iff, orb_true_iff, andb_true_iff.
  rewrite !Z.ltb_lt, !Z.eqb_eq, Z.leb_le. reflexivity.
Qed.

Lemma dateLe_refl d : postgres.dateLe d d = true.
Proof. apply dateLe_spec. lia. Qed.

Lemma dateLe_antisym a b :
  postgres.dateLe a b = true -> postgres.dateLe b a = true -> a = b.
Proof.
  rewrite !dateLe_spec. destruct a as [ya ma da], b as [yb mb db].
  cbn [GoTime.year GoTime.month GoTime.day]. intros Hab Hba. f_equal; lia.
Qed.

Lemma dateLe_trans a b c :
  postgres.dateLe a b = true -> postgres.dateLe b c = true -> postgres.dateLe a c = true.
Proof. rewrite !dateLe_spec. lia. Qed.

Lemma dateLe_total a b : postgres.dateLe a b = false -> postgres.dateLe b a = true.
Proof.
  intros Hab. apply not_true_iff_false in Hab. rewrite dateLe_spec in Hab.
  apply dateLe_spec. lia.
Qed.

Lemma observationBefore_total : Total postgres.observationBefore.
Proof.
  intros a b. unfold postgres.observationBefore.
  destruct (postgres.dateLe a.1.2 b.1.2) eqn:Hab; [|left; left; reflexivity].
  destruct (postgres.dateLe b.1.2 a.1.2) eqn:Hba; [|right; left; reflexivity].
  pose proof (dateLe_antisym _ _ Hab Hba) as Heq.
  destruct (total String.le a.1.1 b.1.1) as [Hle|Hle].
  - left. right. split; [exact Heq|exact Hle].
  - right. right. split; [symmetry; exact Heq|exact Hle].
Qed.

(** A page of a sorted list is sorted. *)
Lemma StronglySorted_page {A : Type} (R : relation A) (n m : nat) (l : list A) :
  StronglySorted R l -> StronglySorted R (take n (drop m l)).
Proof.
  intros Hsorted. rewrite <- (take_drop m l) in Hsorted.
  apply StronglySorted_app_1_r in Hsorted.
  rewrite <- (take_drop n (drop m l)) in Hsorted.
  apply StronglySorted_app_1_l in Hsorted. exact Hsorted.
Qed.

(** The two dates of a request the API goes on with are the dates its
    parameters denote. *)
Lemma datesOf_inl startDateStr endDateStr startDate endDate :
  handlers.datesOf startDateStr endDateStr = inl (startDate, endDate) ->
  (startDateStr <> "" ->
   exists d, startDate = Some d /\ Terms.isoDate startDateStr = Some d) /\
  (endDateStr <> "" ->
   exists d, endDate = Some d /\ Terms.isoDate endDateStr = Some d).
Proof.
  unfold handlers.datesOf. rewrite !ParseISODate_isoDate.
  destruct (String.eqb_spec startDateStr "") as [Hs|Hs];
    destruct (String.eqb_spec endDateStr "") as [He|He];
    destruct (Terms.isoDate startDateStr) as [sd|] eqn:Hsd;
    destruct (Terms.isoDate endDateStr) as [ed|] eqn:Hed;
    intros Heq; try discriminate; injection Heq as <- <-;
    (split; [intros Hne|intros Hne]); try contradiction; eauto.
Qed.

Section Observations.

Variable observationID : string * GoTime.Date -> Z.
Variable numericOut : Float64.t -> Float64.t.

(** What [GetObservations] returns. *)
Lemma GetObservations_spec filter db :
  match postgres.GetObservations numericOut observationID filter db with
  | (inl (page, total), db') =>
      Spec.sameTables db db' /\
      0 <= ObservationFilter.Limit filter /\ 0 <= ObservationFilter.Offset filter /\
      total = Z.of_nat (length (postgres.selectObservations filter db)) /\
      page = postgres.scanObservation numericOut observationID <$>
               take (Z.to_nat (ObservationFilter.Limit filter))
                 (drop (Z.to_nat (ObservationFilter.Offset filter))
                    (postgres.selectObservations filter db))
  | (inr _, db') => Spec.sameTables db db'
  end.
Proof.
  unfold postgres.GetObservations, postgres.statement.
  destruct (postgres.rejects db (postgres.statements db)) as [msg|];
    cbn [fmap option_fmap option_map]; [repeat split|].
  cbn [postgres.rejects postgres.statements].
  destruct (postgres.rejects db (S (postgres.statements db))) as [msg|];
    cbn [fmap option_fmap option_map]; [repeat split|].
  destruct (Z.ltb_spec (ObservationFilter.Limit filter) 0); [repeat split|].
  destruct (Z.ltb_spec (ObservationFilter.Offset filter) 0); [repeat split|].
  repeat split; assumption.
Qed.

(** The rows selected are rows of the table that pass the filter. *)
Lemma selectObservations_elem filter db kv :
  In kv (postgres.selectObservations filter db) ->
  postgres.observationMatch filter kv = true /\
  postgres.weather_observations db !! kv.1 = Some kv.2.
Proof.
  unfold postgres.selectObservations. intros Hin.
  apply list_elem_of_In in Hin. rewrite merge_sort_Permutation in Hin.
  apply list_elem_of_In, filter_In in Hin as [Hin Hmatch].
  split; [exact Hmatch|]. apply list_elem_of_In in Hin. destruct kv as [k row].
  apply elem_of_map_to_list in Hin. exact Hin.
Qed.

Lemma observationMatch_within filter kv stationID startDateStr endDateStr :
  postgres.observationMatch filter kv = true ->
  ObservationFilter.StationID filter = handlers.stationOf stationID ->
  (startDateStr <> "" ->
   exists d, ObservationFilter.StartDate filter = Some d /\
             Terms.isoDate startDateStr = Some d) ->
  (endDateStr <> "" ->
   exists d, ObservationFilter.EndDate filter = Some d /\
             Terms.isoDate endDateStr = Some d) ->
  Terms.within stationID startDateStr endDateStr
    (postgres.scanObservation numericOut observationID kv).
Proof.
  unfold postgres.observationMatch.
  intros [[Hs Hstart]%andb_true_iff Hend]%andb_true_iff Hstation Hsd Hed.
  rewrite Hstation in Hs. unfold handlers.stationOf in Hs.
  split; [|split];
    cbn [postgres.scanObservation WeatherObservation.StationID
         WeatherObservation.ObservationDate].
  - intros Hne. destruct (String.eqb_spec stationID ""); [contradiction|].
    apply String.eqb_eq in Hs. exact Hs.
  - intros Hne. destruct (Hsd Hne) as (d & Hd & Hiso). rewrite Hd in Hstart.
    exists d. split; [exact Hiso|exact Hstart].
  - intros Hne. destruct (Hed Hne) as (d & Hd & Hiso). rewrite Hd in Hend.
    exists d. split; [exact Hiso|exact Hend].
Qed.

(** The rows selected come newest first. *)
Lemma selectObservations_newest_first filter db :
  StronglySorted Terms.notOlder
    (postgres.scanObservation numericOut observationID <$>
       postgres.selectObservations filter db).
Proof.
  apply Sorted_StronglySorted.
  - intros a b c. unfold Terms.notOlder. intros Hab Hbc.
    exact (dateLe_trans _ _ _ Hbc Hab).
  - apply (Sorted_fmap _ postgres.observationBefore).
    + intros x y [Hlt|[Heq _]]; unfold Terms.notOlder;
        cbn [postgres.scanObservation WeatherObservation.ObservationDate].
      * apply dateLe_total. exact Hlt.
      * rewrite Heq. apply dateLe_refl.
    + apply Sorted_merge_sort. exact observationBefore_total.
Qed.

End Observations.

(** X17. A page of observations the API answers over the PostgreSQL
    repository holds what was asked for, newest first: the page holds
    no more observations than the limit and than the total, each of
    them is of the station asked for and dated from [start_date] to
    [end_date], when they are given, and no observation of the page
    is older than one listed after it. *)
Theorem GetObservations_page_in_range :
  forall (observationID : string * GoTime.Date -> Z)
         (numericOut : Float64.t -> Float64.t)
         (r : handlers.Request) (s : handlers.Served postgres.DB)
         (p : handlers.PaginatedResponse.t (list WeatherObservation.t)),
    handlers.body
      (handlers.GetObservations
         (H := postgres.observationReader numericOut observationID) r s).1
      = handlers.observationsBody p ->
    handlers.StatusCode
      (handlers.GetObservations
         (H := postgres.observationReader numericOut observationID) r s).1
      = 200 /\
    handlers.PaginatedResponse.Limit p = handlers.limitOf (handlers.Query r "limit") /\
    Z.of_nat (length (handlers.PaginatedResponse.Data p))
      <= handlers.PaginatedResponse.Limit p /\
    Z.of_nat (length (handlers.PaginatedResponse.Data p))
      <= handlers.PaginatedResponse.Total p /\
    Forall (Terms.within (handlers.Query r "station_id") (handlers.Query r "start_date")
              (handlers.Query r "end_date"))
           (handlers.PaginatedResponse.Data p) /\
    StronglySorted Terms.notOlder (handlers.PaginatedResponse.Data p).
Proof.
  intros observationID numericOut r s p.
  unfold handlers.GetObservations, handlers.observed. cbn [fst].
  cbn [reader.GetObservations postgres.observationReader].
  pose proof (limitOf_bounds (handlers.Query r "limit")) as Hlimit.
  set (limit := handlers.limitOf (handlers.Query r "limit")) in *.
  set (offset := handlers.offsetOf (handlers.pageOf (handlers.Query r "page")) limit).
  destruct (handlers.datesOf (handlers.Query r "start_date") (handlers.Query r "end_date"))
    as [[startDate endDate]|message] eqn:Hdates; [|discriminate].
  apply datesOf_inl in Hdates as [Hstart Hend].
  set (filter := ObservationFilter.mk (handlers.stationOf (handlers.Query r "station_id"))
                   startDate endDate limit offset).
  pose proof (GetObservations_spec observationID numericOut filter (handlers.store s))
    as Hspec.
  destruct (postgres.GetObservations numericOut observationID filter (handlers.store s))
    as [[[observations total]|err] db']; [|discriminate].
  cbn [handlers.body handlers.StatusCode fst]. intros [= <-].
  cbn [handlers.PaginatedResponse.Limit handlers.PaginatedResponse.Page
       handlers.PaginatedResponse.Data handlers.PaginatedResponse.Total
       handlers.PaginatedResponse.TotalPages].
  destruct Hspec as (_ & _ & _ & -> & ->).
  cbn [ObservationFilter.Limit ObservationFilter.Offset filter].
  split; [reflexivity|]. split; [reflexivity|].
  rewrite length_fmap, length_take, length_drop.
  split; [lia|]. split; [lia|]. split.
  - apply Forall_fmap, Forall_take, Forall_drop, Forall_forall. intros kv Hin.
    apply list_elem_of_In, selectObservations_elem in Hin as [Hmatch _]. cbn [compose].
    apply (observationMatch_within observationID numericOut filter); auto.
  - rewrite fmap_take, fmap_drop. apply StronglySorted_page.
    apply selectObservations_newest_first.
Qed.

Lemma GetObservations_page_in_range_witness :
  let r :=
    Examples.get "/api/weather"
      [("station_id", "USC00110072"); ("start_date", "2000-01-01");
       ("end_date", "2000-12-31")] in
  let s := handlers.mkServed Examples.ingested [] in
  exists p,
    handlers.body (handlers.GetObservations (H := Examples.sampleObservationReader) r s).1
      = handlers.observationsBody p /\
    WeatherObservation.ObservationDate <$> handlers.PaginatedResponse.Data p
      = [GoTime.mkDate 2000 1 16; GoTime.mkDate 2000 1 15] /\
    handlers.PaginatedResponse.Total p = 2 /\
    StronglySorted Terms.notOlder (handlers.PaginatedResponse.Data p).
Proof.
  cbv zeta.
  set (r := Examples.get "/api/weather"
              [("station_id", "USC00110072"); ("start_date", "2000-01-01");
               ("end_date", "2000-12-31")]).
  set (s := handlers.mkServed Examples.ingested []).
  destruct (handlers.body
              (handlers.GetObservations (H := Examples.sampleObservationReader) r s).1)
    as [e|p|p] eqn:Hbody; try (vm_compute in Hbody; discriminate).
  exists p. split; [reflexivity|].
  pose proof (GetObservations_page_in_range (fun _ => 1) (fun x => x) r s p Hbody)
    as (_ & _ & _ & _ & _ & Hsorted).
  vm_compute in Hbody. injection Hbody as <-.
  split; [reflexivity|]. split; [reflexivity|]. exact Hsorted.
Defined.

(** ** From the file to the API *)

(** The clock reading of [ToObservation] reaches the time stamp only. *)
Lemma ToObservation_clock now now' record stationID obs :
  models.ToObservation now record stationID = inl obs ->
  exists obs',
    models.ToObservation now' record stationID = inl obs' /\
    WeatherObservation.StationID obs = stationID /\
    WeatherObservation.StationID obs' = stationID /\
    WeatherObservation.ObservationDate obs' = WeatherObservation.ObservationDate obs /\
    WeatherObservation.MaxTemperatureCelsius obs'
      = WeatherObservation.MaxTemperatureCelsius obs /\
    WeatherObservation.MinTemperatureCelsius obs'
      = WeatherObservation.MinTemperatureCelsius obs /\
    WeatherObservation.PrecipitationCm obs' = WeatherObservation.PrecipitationCm obs.
Proof.
  rewrite !ToObservation_cases.
  destruct (Spec.calendarDate (RawWeatherRecord.Date record)); [|discriminate].
  intros [= <-]. eexists. repeat split.
Qed.

Section Ingested.

Variable wall : nat -> GoTime.Instant.

Lemma observationsOf_app stationID l1 l2 : forall n,
  Spec.observationsOf wall stationID (l1 ++ l2) n
  = Spec.observationsOf wall stationID l1 n
    ++ Spec.observationsOf wall stationID l2
         (n + length (Spec.observationsOf wall stationID l1 n)).
Proof.
  induction l1 as [|line rest IH]; intros n; cbn [app Spec.observationsOf length].
  - rewrite Nat.add_0_r. reflexivity.
  - destruct (Spec.normalize (wall n) line stationID) as [obs|].
    + cbn [app length]. rewrite IH. do 3 f_equal. lia.
    + apply IH.
Qed.

(** Every observation of a file comes from one of its lines. *)
Lemma observationsOf_lines stationID ls : forall n,
  Forall (fun obs =>
            exists line now record,
              In line ls /\ services.parseLine line = inl record /\
              models.ToObservation now record stationID = inl obs)
         (Spec.observationsOf wall stationID ls n).
Proof.
  induction ls as [|line rest IH]; intros n; cbn [Spec.observationsOf].
  - constructor.
  - assert (forall m,
              Forall (fun obs =>
                        exists line' now record,
                          In line' (line :: rest) /\
                          services.parseLine line' = inl record /\
                          models.ToObservation now record stationID = inl obs)
                     (Spec.observationsOf wall stationID rest m)) as Hrest.
    { intros m. eapply Forall_impl; [exact (IH m)|].
      intros obs (line' & now & record & Hin & Hparse & Hobs).
      exists line', now, record. split; [right; exact Hin|]. split; assumption. }
    unfold Spec.normalize at 1.
    destruct (services.parseLine line) as [record|err] eqn:Hparse; [|apply Hrest].
    destruct (models.ToObservation (wall n) record stationID) as [obs|err] eqn:Hobs;
      [|apply Hrest].
    constructor; [|apply Hrest].
    exists line, (wall n), record. split; [left; reflexivity|]. split; assumption.
Qed.

End Ingested.

(** The query for one station and one day selects the row of that key
    and nothing else. *)
Lemma selectObservations_key stationID date limit offset db row :
  postgres.weather_observations db !! (stationID, date) = Some row ->
  postgres.selectObservations
    (ObservationFilter.mk (Some stationID) (Some date) (Some date) limit offset) db
  = [((stationID, date), row)].
Proof.
  intros Hrow. unfold postgres.selectObservations.
  assert (List.filter
            (postgres.observationMatch
               (ObservationFilter.mk (Some stationID) (Some date) (Some date)
                  limit offset))
            (map_to_list (postgres.weather_observations db))
          = [((stationID, date), row)]) as ->; [|reflexivity].
  apply NoDup_only.
  - apply NoDup_ListNoDup, List.NoDup_filter, NoDup_ListNoDup, NoDup_map_to_list.
  - apply filter_In. split.
    + apply list_elem_of_In, elem_of_map_to_list. exact Hrow.
    + unfold postgres.observationMatch. cbn.
      rewrite String.eqb_refl, dateLe_refl. reflexivity.
  - intros [[id d] row'] [Hin Hmatch]%filter_In.
    apply list_elem_of_In, elem_of_map_to_list in Hin.
    unfold postgres.observationMatch in Hmatch. cbn in Hmatch.
    apply andb_true_iff in Hmatch as [[Hid%String.eqb_eq Hstart]%andb_true_iff Hend].
    pose proof (dateLe_antisym _ _ Hstart Hend) as Hd. subst id d.
    rewrite Hrow in Hin. injection Hin as <-. reflexivity.
Qed.

(** One page of size [limit] holds a single row. *)
Lemma totalPagesOf_one limit : 1 <= limit <= 1000 -> handlers.totalPagesOf 1 limit = 1.
Proof.
  intros Hlimit.
  pose proof (totalPagesOf_ceiling 1 limit) as Hpages.
  unfold GoInt.maxInt in Hpages. nia.
Qed.

(** A file ingested with a result left every observation of its lines
    in the table. *)
Lemma ingestFile_stored numericAvg numericSum wall fs filePath batchSize
    (w w' : World postgres.DB) res file :
  services.ingestFile (H := postgres.weatherRepository numericAvg numericSum)
    wall fs filePath batchSize w = (ok res, w') ->
  Open fs filePath = inl file ->
  postgres.weather_observations (repo w')
  = Spec.upsertAll
      (Spec.observationsOf wall (Spec.stationIDOf filePath) (lines file)
         (S (S (readings w))))
      (postgres.weather_observations (repo w)).
Proof.
  intros Hok Hopen.
  pose proof (ingestFile_early (H := postgres.weatherRepository numericAvg numericSum)
                wall fs filePath batchSize w) as Hearly.
  cbn [CreateStation postgres.weatherRepository] in Hearly.
  destruct (postgres.CreateStation (Spec.stationFor wall filePath (readings w)) (repo w))
    as [[err|] r1] eqn:Hstation.
  { destruct Hearly as (w1 & _ & Heq). rewrite Heq in Hok. discriminate. }
  rewrite Hopen in Hearly.
  destruct (GoRuntime.makeslicePanics batchSize) eqn:Hmake.
  { destruct (Hearly eq_refl) as (w1 & _ & Heq). rewrite Heq in Hok. discriminate. }
  destruct (ingestFile_outcome (H := postgres.weatherRepository numericAvg numericSum)
              wall fs filePath batchSize w r1 file Hstation Hopen Hmake)
    as (outcome & w1 & Hrun & Hrepo & Hout).
  rewrite Hrun in Hok. injection Hok as -> <-.
  destruct (flushAll_postgres numericAvg numericSum
              (Spec.batches (Z.to_nat batchSize)
                 (Spec.observationsOf wall (Spec.stationIDOf filePath) (lines file)
                    (S (S (readings w))))) r1)
    as (k & Hk & _ & _ & Hobs & Hall).
  assert (postgres.weather_observations r1 = postgres.weather_observations (repo w))
    as Hr1.
  { pose proof (CreateStation_tables (Spec.stationFor wall filePath (readings w)) (repo w))
      as [Ho _]. rewrite Hstation in Ho. exact Ho. }
  rewrite Hrepo, Hobs, Hr1.
  destruct (Spec.flushAll _ r1).1 as [err|] eqn:Hflush.
  - exfalso. destruct Hout as [Hout|Hout]; discriminate.
  - rewrite (Hall eq_refl), firstn_all, batches_concat. reflexivity.
Qed.

(** X18. What a file brings in, the API gives out. When [ingestFile]
    returns a result on the PostgreSQL repository, a line of the file
    that [parseLine] and [ToObservation] accept, and that no later
    accepted line of the file repeats the date of, is served to the
    request for the station of the file with that day as [start_date]
    and as [end_date], on a connection that accepts the two queries:
    the answer is 200 with one observation, a total of 1 on 1 page,
    and the observation has the station, the date and the three
    measurements of the line as the table gives them back, a missing
    one still missing. *)
Theorem GetObservations_serves_ingested_line :
  forall (observationID : string * GoTime.Date -> Z)
         (numericOut : Float64.t -> Float64.t)
         (numericAvg numericSum : list Float64.t -> Float64.t)
         (wall : nat -> GoTime.Instant) (fs : FileSystem) (filePath : string)
         (batchSize : Z) (w w' : World postgres.DB) (res : FileIngestionResult.t)
         (file : ScannedFile) (before after : list string) (line : string)
         (now : GoTime.Instant) (record : RawWeatherRecord.t)
         (obs : WeatherObservation.t)
         (r : handlers.Request) (calls : list handlers.Call),
    services.ingestFile (H := postgres.weatherRepository numericAvg numericSum)
      wall fs filePath batchSize w = (ok res, w') ->
    Open fs filePath = inl file ->
    lines file = before ++ line :: after ->
    services.parseLine line = inl record ->
    models.ToObservation now record (Spec.stationIDOf filePath) = inl obs ->
    Forall (fun later =>
              forall t rec o,
                services.parseLine later = inl rec ->
                models.ToObservation t rec (Spec.stationIDOf filePath) = inl o ->
                WeatherObservation.ObservationDate o
                  <> WeatherObservation.ObservationDate obs)
           after ->
    Spec.stationIDOf filePath <> "" ->
    handlers.Query r "station_id" = Spec.stationIDOf filePath ->
    GoTime.ParseISODate (handlers.Query r "start_date")
      = Some (WeatherObservation.ObservationDate obs) ->
    GoTime.ParseISODate (handlers.Query r "end_date")
      = Some (WeatherObservation.ObservationDate obs) ->
    handlers.Query r "page" = "" ->
    postgres.rejects (repo w') (postgres.statements (repo w')) = None ->
    postgres.rejects (repo w') (S (postgres.statements (repo w'))) = None ->
    exists createdAt,
      (handlers.GetObservations
         (H := postgres.observationReader numericOut observationID) r
         (handlers.mkServed (repo w') calls)).1
      = handlers.mkResponse 200
          (handlers.observationsBody
             (handlers.PaginatedResponse.mk
                [WeatherObservation.mk
                   (observationID (Spec.stationIDOf filePath,
                                   WeatherObservation.ObservationDate obs))
                   (Spec.stationIDOf filePath)
                   (WeatherObservation.ObservationDate obs)
                   (numericOut <$> WeatherObservation.MaxTemperatureCelsius obs)
                   (numericOut <$> WeatherObservation.MinTemperatureCelsius obs)
                   (numericOut <$> WeatherObservation.PrecipitationCm obs)
                   createdAt]
                1 1 (handlers.limitOf (handlers.Query r "limit")) 1)).
Proof.
  intros observationID numericOut numericAvg numericSum wall fs filePath batchSize w w'
    res file before after line now record obs r calls
    Hok Hopen Hlines Hparse Hobs Hafter Hne Hstation Hstart Hend Hpage Hcount Hselect.
  set (stationID := Spec.stationIDOf filePath) in *.
  (* the row of the line *)
  pose proof (ingestFile_stored numericAvg numericSum wall fs filePath batchSize w w'
                res file Hok Hopen) as Hstored.
  fold stationID in Hstored.
  rewrite Hlines, observationsOf_app in Hstored.
  cbn [Spec.observationsOf] in Hstored. unfold Spec.normalize in Hstored.
  rewrite Hparse in Hstored.
  destruct (ToObservation_clock now
              (wall (S (S (readings w))
                     + length (Spec.observationsOf wall stationID before
                                 (S (S (readings w))))))%nat
              record stationID obs Hobs)
    as (obs' & Hobs' & Hid & Hid' & Hdate & Hmax & Hmin & Hprecip).
  rewrite Hobs' in Hstored.
  match type of Hstored with
  | _ = Spec.upsertAll (?l1 ++ obs' :: ?l2) ?t =>
      destruct (upsertAll_lookup_last l1 obs' l2 t) as (createdAt & Hrow)
  end.
  { eapply Forall_impl; [apply observationsOf_lines|].
    intros o (later & t & rec & Hin & Hp & Ho) Hkey.
    rewrite Forall_forall in Hafter.
    apply (Hafter later (proj2 (list_elem_of_In _ _) Hin) t rec o Hp Ho).
    unfold Spec.keyOf in Hkey. injection Hkey as _ Hd. rewrite Hd. exact Hdate. }
  rewrite <- Hstored in Hrow. unfold Spec.keyOf in Hrow.
  rewrite Hid', Hdate, Hmax, Hmin, Hprecip in Hrow.
  exists createdAt.
  (* the request *)
  pose proof (limitOf_bounds (handlers.Query r "limit")) as Hlimit.
  unfold handlers.GetObservations, handlers.observed, handlers.datesOf. cbn [fst].
  rewrite Hstart, Hend, Hstation, Hpage.
  destruct (String.eqb_spec (handlers.Query r "start_date") "") as [Hs|_].
  { rewrite Hs in Hstart. discriminate. }
  destruct (String.eqb_spec (handlers.Query r "end_date") "") as [He|_].
  { rewrite He in Hend. discriminate. }
  unfold handlers.stationOf. destruct (String.eqb_spec stationID ""); [contradiction|].
  set (limit := handlers.limitOf (handlers.Query r "limit")) in *.
  change (handlers.pageOf "") with 1.
  assert (handlers.offsetOf 1 limit = 0) as ->.
  { unfold handlers.offsetOf, GoIntOps.mul, GoIntOps.sub. reflexivity. }
  cbn [reader.GetObservations postgres.observationReader handlers.store].
  unfold postgres.GetObservations, postgres.statement. rewrite Hcount.
  cbn [fmap option_fmap option_map postgres.rejects postgres.statements].
  rewrite Hselect. cbn [fmap option_fmap option_map ObservationFilter.Limit
                        ObservationFilter.Offset].
  destruct (Z.ltb_spec limit 0); [lia|]. cbn [Z.ltb Z.compare].
  repeat match goal with
         | |- context [postgres.selectObservations _ ?db] =>
             rewrite (selectObservations_key stationID
                        (WeatherObservation.ObservationDate obs) limit 0 db _ Hrow)
         end.
  change (Z.to_nat 0) with 0%nat. rewrite drop_0.
  destruct (Z.to_nat limit) as [|size] eqn:Hsize; [lia|].
  cbn [take list_fmap fmap length Z.of_nat Pos.of_succ_nat handlers.setStore
       handlers.record fst postgres.scanObservation ObservationRow.max_temperature_celsius
       ObservationRow.min_temperature_celsius ObservationRow.precipitation_cm
       ObservationRow.created_at].
  rewrite take_nil, totalPagesOf_one by exact Hlimit. reflexivity.
Qed.

Lemma GetObservations_serves_ingested_line_witness :
  let line := Spec.tabbed "20000116" "-9999" "150" "100" in
  let record := RawWeatherRecord.mk "20000116" (-9999) 150 100 in
  let out :=
    services.ingestFile (H := postgres.weatherRepository Spec.binary64Avg Spec.binary64Sum)
      Spec.stillClock Spec.sampleDirectory Spec.samplePath 2 Spec.emptyWorld in
  let r :=
    Examples.get "/api/weather"
      [("station_id", "USC00110072"); ("start_date", "2000-01-16");
       ("end_date", "2000-01-16"); ("limit", "0")] in
  out = (ok (FileIngestionResult.mk 5 3 2), out.2) /\
  lines Spec.sampleFile
    = [Spec.tabbed "20000115" "250" "150" "100"]
      ++ line :: [Spec.tabbed "2000-01-17" "250" "150" "100"; "not a record";
                  Spec.tabbed "20010101" "255" "144" "123"] /\
  services.parseLine line = inl record /\
  exists createdAt,
    (handlers.GetObservations (H := Examples.sampleObservationReader) r
       (handlers.mkServed (repo out.2) [])).1
    = handlers.mkResponse 200
        (handlers.observationsBody
           (handlers.PaginatedResponse.mk
              [WeatherObservation.mk 1 "USC00110072" (GoTime.mkDate 2000 1 16)
                 None
                 (Some (Float64.div (Float64.ofInt 150) Float64.lit10))
                 (Some (Float64.div (Float64.ofInt 100) Float64.lit100))
                 createdAt]
              1 1 100 1)).
Proof.
  cbv zeta.
  set (line := Spec.tabbed "20000116" "-9999" "150" "100").
  set (record := RawWeatherRecord.mk "20000116" (-9999) 150 100).
  set (out := services.ingestFile
                (H := postgres.weatherRepository Spec.binary64Avg Spec.binary64Sum)
                Spec.stillClock Spec.sampleDirectory Spec.samplePath 2 Spec.emptyWorld).
  set (r := Examples.get "/api/weather"
              [("station_id", "USC00110072"); ("start_date", "2000-01-16");
               ("end_date", "2000-01-16"); ("limit", "0")]).
  set (obs := WeatherObservation.mk 0 "USC00110072" (GoTime.mkDate 2000 1 16)
                None
                (Some (Float64.div (Float64.ofInt 150) Float64.lit10))
                (Some (Float64.div (Float64.ofInt 100) Float64.lit100)) 0).
  assert (out = (ok (FileIngestionResult.mk 5 3 2), out.2)) as Hok
    by (vm_compute; reflexivity).
  assert (lines Spec.sampleFile
          = [Spec.tabbed "20000115" "250" "150" "100"]
            ++ line :: [Spec.tabbed "2000-01-17" "250" "150" "100"; "not a record";
                        Spec.tabbed "20010101" "255" "144" "123"]) as Hlines
    by reflexivity.
  assert (services.parseLine line = inl record) as Hparse by (vm_compute; reflexivity).
  assert (models.ToObservation 0 record (Spec.stationIDOf Spec.samplePath) = inl obs)
    as Hobs by (vm_compute; reflexivity).
  split; [exact Hok|]. split; [exact Hlines|]. split; [exact Hparse|].
  destruct (GetObservations_serves_ingested_line (fun _ => 1) (fun x => x)
              Spec.binary64Avg Spec.binary64Sum Spec.stillClock Spec.sampleDirectory
              Spec.samplePath 2 Spec.emptyWorld out.2 (FileIngestionResult.mk 5 3 2)
              Spec.sampleFile _ _ line 0 record obs r [] Hok eq_refl Hlines Hparse Hobs)
    as (createdAt & Hserved).
  - repeat constructor; intros t rec o Hp Ho; vm_compute in Hp;
      try discriminate Hp; injection Hp as <-; vm_compute in Ho;
      try discriminate Ho; injection Ho as <-; cbn; discriminate.
  - vm_compute. discriminate.
  - reflexivity.
  - vm_compute. reflexivity.
  - vm_compute. reflexivity.
  - reflexivity.
  - vm_compute. reflexivity.
  - vm_compute. reflexivity.
  - exists createdAt. exact Hserved.
Defined.

(** ** The order of the statistics *)

Lemma statisticsBefore_total : Total postgres.statisticsBefore.
Proof.
  intros a b. unfold postgres.statisticsBefore.
  destruct (Z.lt_trichotomy a.1.2 b.1.2) as [Hlt|[Heq|Hgt]].
  - right. left. exact Hlt.
  - destruct (total String.le a.1.1 b.1.1) as [Hle|Hle].
    + left. right. split; [exact Heq|exact Hle].
    + right. right. split; [symmetry; exact Heq|exact Hle].
  - left. left. exact Hgt.
Qed.

Lemma listedBefore_trans : Transitive Terms.listedBefore.
Proof.
  intros a b c [Hab|[Hab Hsab]] [Hbc|[Hbc Hsbc]]; unfold Terms.listedBefore.
  - left. lia.
  - left. lia.
  - left. lia.
  - right. split; [lia|]. transitivity (WeatherStatistics.StationID b); assumption.
Qed.

(** X19. The statistics come in the order of the query, ORDER BY year
    DESC, station_id: in a page [GetStatistics] returns, a statistic
    listed before another is of a later year, or of the same year and
    of a station that does not come after the other's. *)
Theorem GetStatistics_latest_year_first :
  forall (statisticsID : string * Z -> Z) (numericOut : Float64.t -> Float64.t)
         (filter : StatisticsFilter.t) (db db' : postgres.DB)
         (page : list WeatherStatistics.t) (total : Z),
    postgres.GetStatistics statisticsID numericOut filter db = (inl (page, total), db') ->
    StronglySorted Terms.listedBefore page.
Proof.
  intros statisticsID numericOut filter db db' page total Hget.
  pose proof (GetStatistics_spec statisticsID numericOut filter db) as Hspec.
  rewrite Hget in Hspec. destruct Hspec as (_ & _ & _ & _ & ->).
  rewrite fmap_take, fmap_drop. apply StronglySorted_page.
  apply Sorted_StronglySorted; [exact listedBefore_trans|].
  apply (Sorted_fmap _ postgres.statisticsBefore).
  - intros x y Hxy. exact Hxy.
  - apply Sorted_merge_sort. exact statisticsBefore_total.
Qed.

Lemma GetStatistics_latest_year_first_witness :
  let filter := StatisticsFilter.mk (Some "USC00110072") None 10 0 in
  exists page db',
    postgres.GetStatistics (fun _ => 1) (fun x => x) filter Examples.withTwoStatistics
      = (inl (page, 2), db') /\
    WeatherStatistics.Year <$> page = [2001; 2000] /\
    StronglySorted Terms.listedBefore page.
Proof.
  cbv zeta.
  destruct (postgres.GetStatistics (fun _ => 1) (fun x => x)
              (StatisticsFilter.mk (Some "USC00110072") None 10 0)
              Examples.withTwoStatistics) as [[[page total]|err] db'] eqn:Hget;
    [|vm_compute in Hget; discriminate].
  pose proof (GetStatistics_latest_year_first _ _ _ _ _ _ _ Hget) as Hsorted.
  vm_compute in Hget. injection Hget as <- <- <-.
  eexists _, _. split; [reflexivity|]. split; [reflexivity|]. exact Hsorted.
Defined.
